(** * staticgen: the page rendering pipeline of [main.go]

    A shallow embedding of [main] and [renderOne] together with the parts of
    the Go standard library they call: [strings.TrimSuffix],
    [strings.TrimSpace], [path/filepath] ([Clean], [Join], [Dir], [Base],
    [Rel], [Match], [Glob]) on a Unix system, [os.MkdirAll] and [os.Create]
    over a symlink-free file tree, and [html/template] behind an interface.

    Go strings are byte strings: [string] with one [ascii] per byte. *)

From Stdlib Require Import ZArith Ascii String List Lia DecimalString.
From stdpp Require Import base option list strings sorting gmap.

Local Open Scope Z_scope.
Local Open Scope nat_scope.

(** ** Errors

    Go's [error] values as far as the program tells them apart: plain
    messages, [*fs.PathError] (which [fatal] prints in a special way), and the
    wrapper built by [fmt.Errorf] with the [%w] verb, whose message is the
    whole formatted text and which [errors.As] looks through. *)

Inductive error : Type :=
| ErrMsg (msg : string)
| PathError (op path err : string)
| Wrapped (msg : string) (inner : error).

Definition Error (e : error) : string :=
  match e with
  | ErrMsg m => m
  | PathError op path err => op +:+ " " +:+ path +:+ ": " +:+ err
  | Wrapped m _ => m
  end.

(** [errors.As(err, &perr)] for [perr : *fs.PathError]: the first path error
    on the unwrap chain. *)
Fixpoint AsPathError (e : error) : option (string * string * string) :=
  match e with
  | ErrMsg _ => None
  | PathError op path err => Some (op, path, err)
  | Wrapped _ inner => AsPathError inner
  end.

Inductive Result (A : Type) : Type :=
| Ok (a : A)
| Err (e : error).
Arguments Ok {A} a.
Arguments Err {A} e.

Definition ErrBadPattern : error := ErrMsg "syntax error in pattern".
Definition ENOENT : string := "no such file or directory".
Definition ENOTDIR : string := "not a directory".
Definition EISDIR : string := "is a directory".

Definition byte_eqb (a b : ascii) : bool := Ascii.eqb a b.

Fixpoint string_drop (n : nat) (s : string) : string :=
  match n, s with
  | S n', String _ s' => string_drop n' s'
  | _, _ => s
  end.

(** ** package strings *)

Module strings.

Definition HasSuffix (s suffix : string) : bool :=
  (String.length suffix <=? String.length s) &&
  String.eqb (substring (String.length s - String.length suffix)
                        (String.length suffix) s) suffix.

Definition TrimSuffix (s suffix : string) : string :=
  if HasSuffix s suffix
  then substring 0 (String.length s - String.length suffix) s
  else s.

Definition asciiSpace (c : ascii) : bool :=
  match c with
  | "009" | "010" | "011" | "012" | "013" | " " => true
  | _ => false
  end%char.

Definition in_range (lo hi : N) (c : ascii) : bool :=
  (N.leb lo (N_of_ascii c)) && (N.leb (N_of_ascii c) hi).

(** [unicode.IsSpace] on the UTF-8 encoding: the number of bytes of the
    white-space rune the string starts with, [0] when it starts with none.
    The runes are U+0009..U+000D, U+0020, U+0085, U+00A0, U+1680,
    U+2000..U+200A, U+2028, U+2029, U+202F, U+205F and U+3000. *)
Definition leadingSpace (s : string) : nat :=
  match s with
  | String c0 s1 =>
      if asciiSpace c0 then 1
      else match s1 with
           | String c1 s2 =>
               if byte_eqb c0 "194" && (byte_eqb c1 "133" || byte_eqb c1 "160")
               then 2
               else match s2 with
                    | String c2 _ =>
                        if byte_eqb c0 "225" && byte_eqb c1 "154" && byte_eqb c2 "128"
                        then 3
                        else if byte_eqb c0 "226" && byte_eqb c1 "128" &&
                                (in_range 128 138 c2 || byte_eqb c2 "168" ||
                                 byte_eqb c2 "169" || byte_eqb c2 "175")
                        then 3
                        else if byte_eqb c0 "226" && byte_eqb c1 "129" && byte_eqb c2 "159"
                        then 3
                        else if byte_eqb c0 "227" && byte_eqb c1 "128" && byte_eqb c2 "128"
                        then 3
                        else 0
                    | EmptyString => 0
                    end
           | EmptyString => 0
           end
  | EmptyString => 0
  end.

(** [strings.TrimLeftFunc(s, unicode.IsSpace)] *)
Fixpoint trimLeftSpace (fuel : nat) (s : string) : string :=
  match fuel with
  | O => s
  | S fuel' =>
      match leadingSpace s with
      | O => s
      | n => trimLeftSpace fuel' (string_drop n s)
      end
  end.

(** The same test read from the end of the string (as
    [utf8.DecodeLastRuneInString] finds the last rune): the argument is the
    string reversed. *)
Definition trailingSpace (r : string) : nat :=
  match r with
  | String c0 r1 =>
      if asciiSpace c0 then 1
      else match r1 with
           | String c1 r2 =>
               if byte_eqb c1 "194" && (byte_eqb c0 "133" || byte_eqb c0 "160")
               then 2
               else match r2 with
                    | String c2 _ =>
                        if Nat.eqb (leadingSpace (String c2 (String c1 (String c0 "")))) 3
                        then 3 else 0
                    | EmptyString => 0
                    end
           | EmptyString => 0
           end
  | EmptyString => 0
  end.

Fixpoint trimRightSpaceRev (fuel : nat) (r : string) : string :=
  match fuel with
  | O => r
  | S fuel' =>
      match trailingSpace r with
      | O => r
      | n => trimRightSpaceRev fuel' (string_drop n r)
      end
  end.

Definition TrimSpace (s : string) : string :=
  let l := trimLeftSpace (String.length s) s in
  String.rev (trimRightSpaceRev (String.length l) (String.rev l)).

End strings.

(** ** package unicode/utf8 *)

Module utf8.

Definition RuneError : N := 65533.

(** [utf8.DecodeRuneInString]: the rune the string starts with and the
    length of its encoding; where the string starts with no valid encoding
    the result is [RuneError] and one byte (no byte for the empty
    string). *)
Definition DecodeRuneInString (s : string) : N * nat :=
  let low (c : ascii) : N := (N_of_ascii c mod 64)%N in
  match s with
  | EmptyString => (RuneError, 0)
  | String c0 s1 =>
      let b0 := N_of_ascii c0 in
      if (b0 <? 128)%N then (b0, 1)
      else if (b0 <? 194)%N then (RuneError, 1)
      else if (b0 <? 224)%N then
        match s1 with
        | String c1 _ =>
            if strings.in_range 128 191 c1
            then (((b0 mod 32) * 64 + low c1)%N, 2)
            else (RuneError, 1)
        | EmptyString => (RuneError, 1)
        end
      else if (b0 <? 240)%N then
        match s1 with
        | String c1 (String c2 _) =>
            if strings.in_range (if (b0 =? 224)%N then 160 else 128)
                                (if (b0 =? 237)%N then 159 else 191) c1 &&
               strings.in_range 128 191 c2
            then ((((b0 mod 16) * 64 + low c1) * 64 + low c2)%N, 3)
            else (RuneError, 1)
        | _ => (RuneError, 1)
        end
      else if (b0 <? 245)%N then
        match s1 with
        | String c1 (String c2 (String c3 _)) =>
            if strings.in_range (if (b0 =? 240)%N then 144 else 128)
                                (if (b0 =? 244)%N then 143 else 191) c1 &&
               strings.in_range 128 191 c2 && strings.in_range 128 191 c3
            then (((((b0 mod 8) * 64 + low c1) * 64 + low c2) * 64 + low c3)%N, 4)
            else (RuneError, 1)
        | _ => (RuneError, 1)
        end
      else (RuneError, 1)
  end.

End utf8.

(** ** package internal/filepathlite (Unix: the separator is [/], no volume
    names): the lexical functions that [os] and [path/filepath] share

    [Clean] works on the elements between separators.  Go's implementation
    scans bytes into a buffer and backtracks to the previous separator on
    [..]; [clean_step] is that scan, one element at a time, over the stack of
    elements written so far (innermost first). *)

Module filepathlite.

Definition Separator : ascii := "/"%char.

Fixpoint split_sep (s : string) : list string :=
  match s with
  | EmptyString => [EmptyString]
  | String c s' =>
      if byte_eqb c Separator then EmptyString :: split_sep s'
      else match split_sep s' with
           | x :: xs => String c x :: xs
           | [] => [String c EmptyString]
           end
  end.

Definition join_sep (elems : list string) : string := String.concat "/" elems.

Definition rooted (path : string) : bool :=
  match path with
  | String c _ => byte_eqb c Separator
  | EmptyString => false
  end.

Definition clean_step (r : bool) (out : list string) (e : string) : list string :=
  if bool_decide (e = "") || bool_decide (e = ".") then out
  else if bool_decide (e = "..") then
    match out with
    | top :: out' => if bool_decide (top = "..") then e :: out else out'
    | [] => if r then out else [e]
    end
  else e :: out.

Definition clean_elems (r : bool) (out : list string) (elems : list string) : list string :=
  fold_left (clean_step r) elems out.

(** The path a stack of elements stands for. *)
Definition path_of (r : bool) (out : list string) : string :=
  if r then "/" +:+ join_sep (rev out)
  else match out with
       | [] => "."
       | _ => join_sep (rev out)
       end.

Definition Clean (path : string) : string :=
  if bool_decide (path = "") then "."
  else path_of (rooted path) (clean_elems (rooted path) [] (split_sep path)).

(** [filepath.Split]: the cut is right after the last separator. *)
Definition Split (path : string) : string * string :=
  match rev (split_sep path) with
  | file :: (_ :: _) as front => (join_sep (rev front) +:+ "/", file)
  | _ => ("", path)
  end.

Definition Dir (path : string) : string := Clean (fst (Split path)).

(** [filepath.Base]: the last element, trailing separators put aside. *)
Definition Base (path : string) : string :=
  if bool_decide (path = "") then "."
  else match filter (fun e => e ≠ "") (rev (split_sep path)) with
       | e :: _ => e
       | [] => "/"
       end.

End filepathlite.

(** ** package os: the file tree

    A file tree maps the cleaned path of every entry to a directory or to a
    regular file with its bytes.  Names are resolved lexically (there are no
    symbolic links), permissions and quotas are not modelled, and the root,
    the working directory and the ancestors of the working directory exist
    in every tree. *)

Module os.
Import filepathlite.

Inductive node : Type :=
| Directory
| File (content : string).

Abbreviation FS := (gmap string node).

Definition implied (key : string) : bool :=
  bool_decide (key = "/") || bool_decide (key = ".") ||
  forallb (fun e => bool_decide (e = "..")) (split_sep key).

Definition Stat (fs : FS) (name : string) : option node :=
  if bool_decide (name = "") then None
  else if implied (Clean name) then Some Directory
  else fs !! Clean name.

(** Without symbolic links [Lstat] is [Stat]. *)
Definition Lstat (fs : FS) (name : string) : option node := Stat fs name.

(** [os.MkdirAll] walks the elements of the path as written: every element
    names the next directory (a [..] steps back up), which must not be a
    regular file and is created when missing.  The error names the path as
    it was passed, up to the element that is a regular file. *)
Fixpoint mkdir_elems (r : bool) (fs : FS) (out : list string) (walked : list string)
         (elems : list string) : Result FS :=
  match elems with
  | [] => Ok fs
  | e :: es =>
      let out' := clean_step r out e in
      let key := path_of r out' in
      if implied key then mkdir_elems r fs out' (walked ++ [e]) es
      else match fs !! key with
           | Some (File _) => Err (PathError "mkdir" (join_sep (walked ++ [e])) ENOTDIR)
           | Some Directory => mkdir_elems r fs out' (walked ++ [e]) es
           | None => mkdir_elems r (<[key := Directory]> fs) out' (walked ++ [e]) es
           end
  end.

Definition MkdirAll (fs : FS) (path : string) : Result FS :=
  if bool_decide (path = "") then Err (PathError "mkdir" path ENOENT)
  else mkdir_elems (rooted path) fs [] [] (split_sep path).

(** [os.Create]: the file is created or truncated; its directory must
    exist and the name must not be a directory. *)
Definition Create (fs : FS) (name : string) : Result FS :=
  if bool_decide (name = "") then Err (PathError "open" name ENOENT)
  else match Stat fs name with
       | Some Directory => Err (PathError "open" name EISDIR)
       | _ =>
           match Stat fs (Dir (Clean name)) with
           | Some Directory => Ok (<[Clean name := File ""]> fs)
           | Some (File _) => Err (PathError "open" name ENOTDIR)
           | None => Err (PathError "open" name ENOENT)
           end
       end.

(** What has been written through the handle of a file just created. *)
Definition Write (fs : FS) (name : string) (content : string) : FS :=
  <[Clean name := File content]> fs.

Definition ReadFile (fs : FS) (name : string) : Result string :=
  match Stat fs name with
  | Some (File content) => Ok content
  | Some Directory => Err (PathError "read" name EISDIR)
  | None => Err (PathError "open" name ENOENT)
  end.

(** The names in a directory, sorted as [sort.Strings] sorts them. *)
Definition Readdirnames (fs : FS) (dir : string) : list string :=
  merge_sort String.le
    (omap (fun kv : string * node =>
             if bool_decide (Dir kv.1 = Clean dir) && negb (implied kv.1)
             then Some (Base kv.1) else None)
          (map_to_list fs)).

End os.

(** ** package path/filepath *)

Module filepath.
Import filepathlite.

Abbreviation Clean := filepathlite.Clean.
Abbreviation Split := filepathlite.Split.
Abbreviation Dir := filepathlite.Dir.
Abbreviation Base := filepathlite.Base.

(** [filepath.Join]: leading empty elements are dropped, the rest is joined
    with separators and cleaned; with no non-empty element the result is
    the empty string. *)
Fixpoint Join (elem : list string) : string :=
  match elem with
  | [] => ""
  | e :: rest => if bool_decide (e = "") then Join rest else Clean (join_sep elem)
  end.

(** [filepath.Rel].  Both paths are cleaned first and the elements they
    share at their start are put aside.  Every element that is left of the
    base is answered by one [..], which cannot be done lexically when the
    first of them is itself a [..]; the elements left of the target follow,
    and the result is cleaned. *)
Fixpoint strip_common (b t : list string) : list string * list string :=
  match b, t with
  | x :: b', y :: t' => if bool_decide (x = y) then strip_common b' t' else (b, t)
  | _, _ => (b, t)
  end.

(** The elements of a cleaned path after its root ([""] stands for [.]). *)
Definition elems_of (clean : string) : list string :=
  match clean with
  | EmptyString => []
  | String c rest =>
      if byte_eqb c Separator
      then (if bool_decide (rest = "") then [] else split_sep rest)
      else split_sep clean
  end.

Definition Rel (basepath targpath : string) : Result string :=
  let base := Clean basepath in
  let targ := Clean targpath in
  if bool_decide (targ = base) then Ok "."
  else
    let base := if bool_decide (base = ".") then "" else base in
    if negb (Bool.eqb (rooted base) (rooted targ))
    then Err (ErrMsg ("Rel: can't make " +:+ targpath +:+ " relative to " +:+ basepath))
    else
      match strip_common (elems_of base) (elems_of targ) with
      | ([], t) => Ok (join_sep t)
      | (b0 :: _, t) as bt =>
          if bool_decide (b0 = "..")
          then Err (ErrMsg ("Rel: can't make " +:+ targpath +:+ " relative to " +:+ basepath))
          else Ok (Clean (join_sep (replicate (length (fst bt)) ".." ++ t)))
      end.

(** *** [filepath.Match]

    The pattern language: [*] (any run of non-separator bytes), [?] (one
    non-separator character), character classes in brackets, a backslash
    to quote the next character, and literal bytes.  Literal text and the
    stars are matched byte by byte; [?] and the classes read one UTF-8
    encoded rune. *)

Definition hasMeta (path : string) : bool :=
  existsb (fun c => byte_eqb c "*" || byte_eqb c "?" || byte_eqb c "[" || byte_eqb c "\")
          (list_ascii_of_string path).

Fixpoint skipStars (pattern : string) : bool * string :=
  match pattern with
  | String c rest =>
      if byte_eqb c "*" then (true, snd (skipStars rest)) else (false, pattern)
  | EmptyString => (false, pattern)
  end.

Definition cons_fst (c : ascii) (p : string * string) : string * string :=
  (String c (fst p), snd p).

Fixpoint scanBody (pattern : string) (inrange : bool) : string * string :=
  match pattern with
  | EmptyString => ("", "")
  | String c rest =>
      if byte_eqb c "\" then
        match rest with
        | String d rest' => cons_fst c (cons_fst d (scanBody rest' inrange))
        | EmptyString => (String c "", "")
        end
      else if byte_eqb c "[" then cons_fst c (scanBody rest true)
      else if byte_eqb c "]" then cons_fst c (scanBody rest false)
      else if byte_eqb c "*" then
        (if inrange then cons_fst c (scanBody rest inrange) else ("", pattern))
      else cons_fst c (scanBody rest inrange)
  end.

(** [scanChunk]: a chunk is a run without [*], possibly preceded by stars. *)
Definition scanChunk (pattern : string) : bool * string * string :=
  let (star, p) := skipStars pattern in
  let (chunk, rest) := scanBody p false in
  (star, chunk, rest).

(** [getEsc]: one rune of a character class, possibly quoted, and the rest
    of the chunk, which must not be empty. *)
Definition getEsc (chunk : string) : Result (N * string) :=
  match chunk with
  | EmptyString => Err ErrBadPattern
  | String c rest =>
      if byte_eqb c "-" || byte_eqb c "]" then Err ErrBadPattern
      else
        let unquoted := if byte_eqb c "\" then rest else chunk in
        if bool_decide (unquoted = "") then Err ErrBadPattern
        else
          let (r, n) := utf8.DecodeRuneInString unquoted in
          let nchunk := string_drop n unquoted in
          if ((r =? utf8.RuneError)%N && Nat.eqb n 1) || bool_decide (nchunk = "")
          then Err ErrBadPattern
          else Ok (r, nchunk)
  end.

(** The ranges of a character class, up to the closing bracket. *)
Fixpoint matchRanges (fuel : nat) (chunk : string) (r : N) (matched : bool)
         (nrange : nat) : Result (bool * string) :=
  match fuel with
  | O => Err ErrBadPattern
  | S fuel' =>
      let closing :=
        match chunk with
        | String c rest =>
            if byte_eqb c "]" && negb (Nat.eqb nrange 0) then Some rest else None
        | EmptyString => None
        end in
      match closing with
      | Some rest => Ok (matched, rest)
      | None =>
          match getEsc chunk with
          | Err e => Err e
          | Ok (lo, chunk1) =>
              let upper :=
                match chunk1 with
                | String c rest =>
                    if byte_eqb c "-" then getEsc rest else Ok (lo, chunk1)
                | EmptyString => Ok (lo, chunk1)
                end in
              match upper with
              | Err e => Err e
              | Ok (hi, chunk2) =>
                  matchRanges fuel' chunk2 r
                    (matched || ((lo <=? r)%N && (r <=? hi)%N)) (S nrange)
              end
          end
      end
  end.

(** [matchChunk]: [Some rest] when the chunk matches a prefix of [s]; after a
    mismatch the rest of the chunk is still checked for syntax. *)
Fixpoint matchChunkLoop (fuel : nat) (chunk s : string) (failed : bool)
  : Result (option string) :=
  match chunk with
  | EmptyString => Ok (if failed then None else Some s)
  | String c chunk' =>
      match fuel with
      | O => Err ErrBadPattern
      | S fuel' =>
          let failed := failed || bool_decide (s = "") in
          let literal (c : ascii) (chunk' : string) :=
            match s with
            | String d s' =>
                if failed then matchChunkLoop fuel' chunk' s true
                else matchChunkLoop fuel' chunk' s' (negb (byte_eqb c d))
            | EmptyString => matchChunkLoop fuel' chunk' s true
            end in
          if byte_eqb c "[" then
            let '(r, s') :=
              if failed then (0%N, s)
              else (fst (utf8.DecodeRuneInString s),
                    string_drop (snd (utf8.DecodeRuneInString s)) s) in
            let '(negated, ranges) :=
              match chunk' with
              | String n rest => if byte_eqb n "^" then (true, rest) else (false, chunk')
              | EmptyString => (false, chunk')
              end in
            match matchRanges (S (String.length ranges)) ranges r false 0 with
            | Err e => Err e
            | Ok (matched, rest) =>
                matchChunkLoop fuel' rest s' (failed || Bool.eqb matched negated)
            end
          else if byte_eqb c "?" then
            match s with
            | String d _ =>
                if failed then matchChunkLoop fuel' chunk' s true
                else matchChunkLoop fuel' chunk'
                       (string_drop (snd (utf8.DecodeRuneInString s)) s) (byte_eqb d Separator)
            | EmptyString => matchChunkLoop fuel' chunk' s true
            end
          else if byte_eqb c "\" then
            match chunk' with
            | String c2 chunk'' => literal c2 chunk''
            | EmptyString => Err ErrBadPattern
            end
          else literal c chunk'
      end
  end.

Definition matchChunk (chunk s : string) : Result (option string) :=
  matchChunkLoop (String.length chunk) chunk s false.

Definition hasSeparator (name : string) : bool :=
  existsb (fun c => byte_eqb c Separator) (list_ascii_of_string name).

(** The retry loop of a starred chunk: skip one more byte of the name (never
    a separator) and try the chunk again. *)
Fixpoint starLoop (chunk : string) (last : bool) (k : string -> Result bool)
         (name : string) : Result bool :=
  match name with
  | EmptyString => Ok false
  | String c name' =>
      if byte_eqb c Separator then Ok false
      else match matchChunk chunk name' with
           | Err e => Err e
           | Ok (Some t) =>
               if last && negb (bool_decide (t = "")) then starLoop chunk last k name'
               else k t
           | Ok None => starLoop chunk last k name'
           end
  end.

Fixpoint matchLoop (fuel : nat) (pattern name : string) : Result bool :=
  match pattern with
  | EmptyString => Ok (bool_decide (name = ""))
  | String _ _ =>
      match fuel with
      | O => Err ErrBadPattern
      | S fuel' =>
          let '(star, chunk, rest) := scanChunk pattern in
          if star && bool_decide (chunk = "") then Ok (negb (hasSeparator name))
          else
            let last := bool_decide (rest = "") in
            let retry := if star then starLoop chunk last (matchLoop fuel' rest) name
                         else Ok false in
            match matchChunk chunk name with
            | Err e => Err e
            | Ok (Some t) =>
                if bool_decide (t = "") || negb last then matchLoop fuel' rest t
                else retry
            | Ok None => retry
            end
      end
  end.

Definition Match (pattern name : string) : Result bool :=
  matchLoop (String.length pattern) pattern name.

(** *** [filepath.Glob] *)

Definition cleanGlobPath (path : string) : string :=
  if bool_decide (path = "") then "."
  else if bool_decide (path = "/") then path
  else substring 0 (String.length path - 1) path.

(** [glob]: the entries of one directory that match the pattern, appended
    to [matches]; a directory that cannot be read adds nothing.  Like the Go
    function, the model returns the matches found so far together with the
    error that stopped the search. *)
Fixpoint globNames (dir pattern : string) (names : list string) (m : list string)
  : list string * option error :=
  match names with
  | [] => (m, None)
  | n :: rest =>
      match Match pattern n with
      | Err e => (m, Some e)
      | Ok matched =>
          globNames dir pattern rest (if matched then m ++ [Join [dir; n]] else m)
      end
  end.

Definition glob (fs : os.FS) (dir pattern : string) (matches : list string)
  : list string * option error :=
  match os.Stat fs dir with
  | Some os.Directory => globNames dir pattern (os.Readdirnames fs dir) matches
  | _ => (matches, None)
  end.

Fixpoint globDirs (fs : os.FS) (file : string) (dirs : list string) (matches : list string)
  : list string * option error :=
  match dirs with
  | [] => (matches, None)
  | d :: rest =>
      match glob fs d file matches with
      | (matches', None) => globDirs fs file rest matches'
      | (matches', Some e) => (matches', Some e)
      end
  end.

(** The limit is 10000. *)
Definition pathSeparatorsLimit : nat := 100 * 100.

Fixpoint globWithLimit (fs : os.FS) (fuel : nat) (pattern : string)
  : list string * option error :=
  match fuel with
  | O => ([], Some ErrBadPattern)
  | S fuel' =>
      match Match pattern "" with
      | Err e => ([], Some e)
      | Ok _ =>
          if negb (hasMeta pattern) then
            match os.Lstat fs pattern with
            | Some _ => ([pattern], None)
            | None => ([], None)
            end
          else
            let dir := cleanGlobPath (fst (Split pattern)) in
            let file := snd (Split pattern) in
            if negb (hasMeta dir) then glob fs dir file []
            else if bool_decide (dir = pattern) then ([], Some ErrBadPattern)
            else match globWithLimit fs fuel' dir with
                 | (_, Some e) => ([], Some e)
                 | (m, None) => globDirs fs file m []
                 end
      end
  end.

Definition Glob (fs : os.FS) (pattern : string) : list string * option error :=
  globWithLimit fs pathSeparatorsLimit pattern.

End filepath.

(** ** package time

    What the program observes of a [time.Time]: the calendar year, the
    RFC 3339 text, and the text in the layout [2006-01-02 15:04:05 MST] in
    the zone America/Chicago.  The clock is a sequence of readings, one per
    call of [time.Now]. *)

Module time.

Record Time : Type := {
  Year : Z;
  RFC3339 : string;
  Chicago : string
}.

Definition Clock : Type := nat -> Time.

(** [time.LoadLocation] against the zones installed on the machine. *)
Definition LoadLocation (zoneinfo : list string) (name : string) : Result string :=
  if bool_decide (name = "") || bool_decide (name = "UTC") then Ok "UTC"
  else if bool_decide (name = "Local") then Ok "Local"
  else if bool_decide (name ∈ zoneinfo) then Ok name
  else Err (ErrMsg ("unknown time zone " +:+ name)).

End time.

(** [BaseData] of [main.go], and the [data] argument of an execution: [nil] or
    a [BaseData]. *)
Record BaseData : Type := {
  Year : Z;
  BuildTimestamp : string
}.

(** ** package html/template, as the program uses it

    The templating engine is an external dependency; the program is modelled
    against this interface.  A function map gives each name a niladic
    function that may read the clock: from the number of readings taken so
    far to its result and the number of readings taken after it.
    [ParseFiles] stands for
    [template.New("root").Funcs(funcs).ParseFiles(files...)] reading the
    files from the tree.  [ExecuteTemplate], started when [k] readings have
    been taken, returns the bytes it has written to its writer, the error,
    if any, that stopped it, and the number of readings taken when it
    returns; an execution does not change what a later one does. *)

Module template.

Definition FuncMap : Type := list (string * (nat -> string * nat)).

Class Engine : Type := {
  Template : Type;
  ParseFiles : FuncMap -> os.FS -> list string -> Result Template;
  Lookup : Template -> string -> bool;
  ExecuteTemplate :
    Template -> string -> option BaseData -> nat -> string * option error * nat
}.

End template.

(** ** package strconv: [Quote], the text the verb [%q] prints for a string *)

Module strconv.

Class Quoting : Type := { Quote : string -> string }.

Definition Itoa (n : Z) : string := NilEmpty.string_of_int (Z.to_int n).

End strconv.

(** ** The program *)

Definition newline : string := String "010" "".

(** The state of a run: the file tree, the number of clock readings taken
    so far, and the messages passed to [log.Printf], oldest first. *)
Record World : Type := {
  files : os.FS;
  ticks : nat;
  logged : list string
}.

Definition set_files (fs : os.FS) (w : World) : World :=
  {| files := fs; ticks := ticks w; logged := logged w |}.

Definition log_Printf (msg : string) (w : World) : World :=
  {| files := files w; ticks := ticks w; logged := logged w ++ [msg] |}.

(** The values of the command-line flags after [flag.Parse]; [None] is a
    flag left at its default.  A command line that [flag.Parse] refuses is
    outside the model. *)
Record Flags : Type := {
  flag_src : option string;
  flag_out : option string;
  flag_glob : option string;
  flag_timestamp : option string
}.

(** How a run ends: the final state, the text on the error stream and the
    exit status. *)
Record Outcome : Type := {
  final : World;
  stderr : string;
  status : Z
}.

Section Program.

Context {engine : template.Engine} {quoting : strconv.Quoting}.
Variable zoneinfo : list string.
Variable clock : time.Clock.

Definition time_Now (w : World) : time.Time * World :=
  (clock (ticks w), {| files := files w; ticks := S (ticks w); logged := logged w |}).

(** The function map of [renderOne] (lines 86-89): every call of
    [nowRFC3339] takes a reading of the clock. *)
Definition nowRFC3339 (k : nat) : string * nat := (time.RFC3339 (clock k), S k).

Definition funcs : template.FuncMap := [("nowRFC3339", nowRFC3339)].

(** [t.ExecuteTemplate(wr, name, data)] in the state [w]. *)
Definition execute (t : template.Template) (name : string) (data : option BaseData)
           (w : World) : string * option error * World :=
  let '(written, err, k) := template.ExecuteTemplate t name data (ticks w) in
  (written, err, {| files := files w; ticks := k; logged := logged w |}).

(** Lines 78-83: the matches of every shared pattern, then the page.  The
    error of [filepath.Glob] is dropped. *)
Definition templateFiles (fs : os.FS) (includesGlobs : list string) (pageFile : string)
  : list string :=
  fold_left (fun all g => all ++ fst (filepath.Glob fs g)) includesGlobs [] ++ [pageFile].

(** Lines 95-107: the default layout, unless the set has a block
    [layout_name] that executes without error to a text that is not blank. *)
Definition chooseLayout (t : template.Template) (w : World) : string * World :=
  let layout := "public" in
  if template.Lookup t "layout_name" then
    match execute t "layout_name" None w with
    | (b, None, w) =>
        let name := strings.TrimSpace b in
        (if bool_decide (name ≠ "") then name else layout, w)
    | (_, Some _, w) => (layout, w)
    end
  else (layout, w).

(** [renderOne] (lines 76-146).  The first error ends the render and leaves
    the state as it is at that point; when the final pass fails, the file
    keeps what was written before the failure.  Closing the file has no
    effect in the model. *)
Definition renderOne (srcDir outDir : string) (includesGlobs : list string)
           (pageFile buildTimestamp : string) (w : World) : World * option error :=
  let all := templateFiles (files w) includesGlobs pageFile in
  match template.ParseFiles funcs (files w) all with
  | Err err => (w, Some err)
  | Ok t =>
      let (layout, w) := chooseLayout t w in
      match filepath.Rel (filepath.Join [srcDir; "pages"]) pageFile with
      | Err err => (w, Some err)
      | Ok rel =>
          let outName := strings.TrimSuffix rel ".template.html" +:+ ".html" in
          let outPath := filepath.Join [outDir; outName] in
          let w := log_Printf ("Rendering " +:+ pageFile +:+ " -> " +:+ outPath +:+
                               " (layout: " +:+ layout +:+ ")") w in
          match os.MkdirAll (files w) (filepath.Dir outPath) with
          | Err err => (w, Some err)
          | Ok fs1 =>
              let w := set_files fs1 w in
              match os.Create (files w) outPath with
              | Err err => (w, Some err)
              | Ok fs2 =>
                  let w := set_files fs2 w in
                  let (now, w) := time_Now w in
                  let data := {| Year := time.Year now; BuildTimestamp := buildTimestamp |} in
                  match execute t layout (Some data) w with
                  | (written, Some err, w) =>
                      (set_files (os.Write (files w) outPath written) w,
                       Some (Wrapped (pageFile +:+ ": executing layout " +:+
                                      strconv.Quote layout +:+ ": " +:+ Error err) err))
                  | (written, None, w) =>
                      let w := set_files (os.Write (files w) outPath written) w in
                      (log_Printf ("Successfully wrote " +:+ outPath) w, None)
                  end
              end
          end
      end
  end.

(** [fatal]: the message goes to the error stream, path errors in their own
    format, and the process exits with status 1. *)
Definition fatal (w : World) (err : error) : Outcome :=
  {| final := w;
     stderr := match AsPathError err with
               | Some (_, path, e) => path +:+ ": " +:+ e +:+ newline
               | None => Error err +:+ newline
               end;
     status := 1 |}.

(** The loop of lines 67-71. *)
Fixpoint renderPages (srcDir outDir : string) (includesGlobs : list string)
         (pageFiles : list string) (buildTimestamp : string) (w : World)
  : World * option error :=
  match pageFiles with
  | [] => (w, None)
  | page :: rest =>
      match renderOne srcDir outDir includesGlobs page buildTimestamp w with
      | (w', Some err) => (w', Some err)
      | (w', None) => renderPages srcDir outDir includesGlobs rest buildTimestamp w'
      end
  end.

Definition defaultGlob : string := "pages/**/*.template.html".

(** [main] (lines 24-74).  The default timestamp is computed, and the
    clock read, before the flags are looked at. *)
Definition main (args : Flags) (w : World) : Outcome :=
  let srcDir := default "./src" (flag_src args) in
  let outDir := default "./site" (flag_out args) in
  let pagesGlob := default defaultGlob (flag_glob args) in
  match time.LoadLocation zoneinfo "America/Chicago" with
  | Err err => fatal w err
  | Ok _ =>
      let (now, w) := time_Now w in
      let defaultTimestamp := time.Chicago now in
      let buildTimestamp := default defaultTimestamp (flag_timestamp args) in
      let w := log_Printf "Starting static site generation..." w in
      let w := log_Printf ("Source directory: " +:+ srcDir) w in
      let w := log_Printf ("Output directory: " +:+ outDir) w in
      let w := log_Printf ("Build timestamp: " +:+ buildTimestamp) w in
      match os.MkdirAll (files w) outDir with
      | Err err => fatal w err
      | Ok fs1 =>
          let w := set_files fs1 w in
          let pagePattern := filepath.Join [srcDir; pagesGlob] in
          match filepath.Glob (files w) pagePattern with
          | (_, Some err) => fatal w err
          | (pageFiles, None) =>
              if Nat.eqb (length pageFiles) 0
              then fatal w (ErrMsg ("no page templates found: " +:+ pagePattern))
              else
                let w := log_Printf ("Found " +:+ strconv.Itoa (Z.of_nat (length pageFiles))
                                     +:+ " page template(s) to render") w in
                let includesGlobs :=
                  [filepath.Join [srcDir; "_includes"; "*.html"];
                   filepath.Join [srcDir; "_layouts"; "*.html"]] in
                match renderPages srcDir outDir includesGlobs pageFiles buildTimestamp w with
                | (w, Some err) => fatal w err
                | (w, None) =>
                    {| final := log_Printf "Static site generation completed successfully" w;
                       stderr := "";
                       status := 0 |}
                end
          end
      end
  end.

End Program.

(** ** A concrete engine: a fragment of [html/template]

    The instance below follows Go's [text/template/parse] and
    [html/template] on template sources built from plain text (free of
    markup, so that every action sits in HTML text context) and the actions
    [{{define "name"}}], [{{end}}], [{{.Field}}], [{{name}}] (a call of a
    function of the map) and [{{template "name"}}] with or without the dot
    as argument.  Any other action is outside the fragment and is refused
    by the parser of the model.  Error messages are abridged: they carry no
    template name, line or column. *)

Module gotemplate.

Inductive node : Type :=
| TextNode (text : string)
| FieldNode (name : string)
| IdentifierNode (name : string)
| TemplateNode (name : string) (dot : bool).

Inductive item : Type :=
| ItemText (text : string)
| ItemAction (text : string).

Definition quote : string := String "034" "".

(** [strconv.Quote], the text the verb [%q] prints.  A quote and a backslash
    get a backslash; a printable rune stands for itself; other runes are
    written as escapes.  [IsPrint] is the table of Go up to U+00FF; the
    runes above are taken to be printable. *)
Definition lowerhex (n : N) : ascii :=
  ascii_of_N (if (n <? 10)%N then 48 + n else 87 + n).

Definition hex2 (n : N) : string :=
  String (lowerhex (n / 16 mod 16)) (String (lowerhex (n mod 16)) "").

Definition hex4 (n : N) : string := hex2 (n / 256) +:+ hex2 n.

Definition IsPrint (r : N) : bool :=
  if (r <? 128)%N then (32 <=? r)%N && (r <? 127)%N
  else if (r <? 256)%N then (161 <=? r)%N && negb (r =? 173)%N
  else true.

Definition escapedRune (r : N) (encoded : string) : string :=
  if (r =? 34)%N || (r =? 92)%N then String "\" encoded
  else if IsPrint r then encoded
  else if (r =? 7)%N then "\a"
  else if (r =? 8)%N then "\b"
  else if (r =? 12)%N then "\f"
  else if (r =? 10)%N then "\n"
  else if (r =? 13)%N then "\r"
  else if (r =? 9)%N then "\t"
  else if (r =? 11)%N then "\v"
  else if (r <? 32)%N || (r =? 127)%N then "\x" +:+ hex2 r
  else if (r <? 65536)%N then "\u" +:+ hex4 r
  else "\U" +:+ hex4 (r / 65536) +:+ hex4 r.

Fixpoint quoteLoop (fuel : nat) (s : string) : string :=
  match fuel, s with
  | S fuel', String c _ =>
      let (r, width) := utf8.DecodeRuneInString s in
      (if Nat.eqb width 1 && (r =? utf8.RuneError)%N then "\x" +:+ hex2 (N_of_ascii c)
       else escapedRune r (substring 0 width s)) +:+
      quoteLoop fuel' (string_drop width s)
  | _, _ => ""
  end.

Definition quoteBody (s : string) : string := quoteLoop (String.length s) s.

Definition printq (s : string) : string := quote +:+ quoteBody s +:+ quote.

(** The lexer: text up to the next left delimiter, then an action up to the
    next right delimiter. *)
Fixpoint lex (inAction : bool) (acc : string) (s : string) : Result (list item) :=
  let emit (rest : Result (list item)) :=
    match rest with
    | Ok items =>
        if inAction then Ok (ItemAction (String.rev acc) :: items)
        else if bool_decide (acc = "") then Ok items
        else Ok (ItemText (String.rev acc) :: items)
    | Err e => Err e
    end in
  match s with
  | EmptyString =>
      if inAction then Err (ErrMsg "template: unclosed action") else emit (Ok [])
  | String c rest =>
      match rest with
      | String d rest' =>
          if negb inAction && byte_eqb c "{" && byte_eqb d "{" then emit (lex true "" rest')
          else if inAction && byte_eqb c "}" && byte_eqb d "}" then emit (lex false "" rest')
          else lex inAction (String c acc) rest
      | EmptyString => lex inAction (String c acc) rest
      end
  end.

Definition isAlnum (c : ascii) : bool :=
  strings.in_range 48 57 c || strings.in_range 65 90 c || strings.in_range 97 122 c ||
  byte_eqb c "_".

Definition isIdentifier (s : string) : bool :=
  match s with
  | String c _ => negb (strings.in_range 48 57 c) && forallb isAlnum (list_ascii_of_string s)
  | EmptyString => false
  end.

(** A string in double quotes with no quote or backslash inside, and what
    follows it. *)
Fixpoint quotedBody (s : string) : option (string * string) :=
  match s with
  | EmptyString => None
  | String c rest =>
      if byte_eqb c "034" then Some ("", rest)
      else if byte_eqb c "\" then None
      else match quotedBody rest with
           | Some (name, after) => Some (String c name, after)
           | None => None
           end
  end.

Definition quoted (s : string) : option (string * string) :=
  match s with
  | String c rest => if byte_eqb c "034" then quotedBody rest else None
  | EmptyString => None
  end.

Inductive action : Type :=
| ADefine (name : string)
| AEnd
| ANode (n : node).

Definition keyword (kw : string) (s : string) : option string :=
  if String.prefix (kw +:+ " ") s
  then Some (strings.TrimSpace (string_drop (String.length kw) s))
  else None.

Definition parseAction (fm : template.FuncMap) (text : string) : Result action :=
  let s := strings.TrimSpace text in
  let bad := Err (ErrMsg ("template: unexpected action {{" +:+ text +:+ "}}")) in
  if bool_decide (s = "end") then Ok AEnd
  else match keyword "define" s with
  | Some arg =>
      match quoted arg with
      | Some (name, "") => Ok (ADefine name)
      | _ => bad
      end
  | None =>
  match keyword "template" s with
  | Some arg =>
      match quoted arg with
      | Some (name, after) =>
          if bool_decide (after = "") then Ok (ANode (TemplateNode name false))
          else if bool_decide (strings.TrimSpace after = ".") && strings.asciiSpace
                    (match after with String c _ => c | EmptyString => "x"%char end)
          then Ok (ANode (TemplateNode name true))
          else bad
      | None => bad
      end
  | None =>
  match s with
  | String "." field =>
      if isIdentifier field then Ok (ANode (FieldNode field)) else bad
  | _ =>
      if isIdentifier s then
        if bool_decide (s ∈ fm.*1) then Ok (ANode (IdentifierNode s))
        else Err (ErrMsg ("template: function " +:+ printq s +:+ " not defined"))
      else bad
  end end end.

(** [parse.IsEmptyTree]: only blank text. *)
Definition IsEmptyTree (body : list node) : bool :=
  forallb (fun n => match n with
                    | TextNode text => bool_decide (strings.TrimSpace text = "")
                    | _ => false
                    end) body.

Definition trees : Type := list (string * list node).

Definition tree_lookup {A : Type} (name : string) (l : list (string * A)) : option A :=
  snd <$> find (fun p => bool_decide (p.1 = name)) l.

Definition tree_set {A : Type} (name : string) (a : A) (l : list (string * A))
  : list (string * A) :=
  match tree_lookup name l with
  | Some _ => map (fun p => if bool_decide (p.1 = name) then (name, a) else p) l
  | None => l ++ [(name, a)]
  end.

(** [Tree.add]: within one parsed text a name may be given a body that is not
    empty only once. *)
Definition add (name : string) (body : list node) (ts : trees) : Result trees :=
  match tree_lookup name ts with
  | None => Ok (tree_set name body ts)
  | Some old =>
      if IsEmptyTree old then Ok (tree_set name body ts)
      else if IsEmptyTree body then Ok ts
      else Err (ErrMsg ("template: multiple definition of template " +:+ printq name))
  end.

(** The parser state: the open definition with its nodes (latest first), the
    nodes of the top level (latest first), and the trees added so far. *)
Fixpoint parseItems (fm : template.FuncMap) (name : string) (items : list item)
         (open : option (string * list node)) (top : list node) (ts : trees)
  : Result trees :=
  let push (n : node) (rest : list item) :=
    match open with
    | Some (d, body) => parseItems fm name rest (Some (d, n :: body)) top ts
    | None => parseItems fm name rest None (n :: top) ts
    end in
  match items with
  | [] =>
      match open with
      | Some _ => Err (ErrMsg "template: unexpected EOF")
      | None => add name (rev top) ts
      end
  | ItemText text :: rest => push (TextNode text) rest
  | ItemAction text :: rest =>
      match parseAction fm text with
      | Err e => Err e
      | Ok (ANode n) => push n rest
      | Ok (ADefine d) =>
          match open with
          | Some _ => Err (ErrMsg "template: unexpected <define> in command")
          | None => parseItems fm name rest (Some (d, [])) top ts
          end
      | Ok AEnd =>
          match open with
          | Some (d, body) =>
              match add d (rev body) ts with
              | Ok ts' => parseItems fm name rest None top ts'
              | Err e => Err e
              end
          | None => Err (ErrMsg "template: unexpected {{end}}")
          end
      end
  end.

(** [parse.Parse]: the trees of one text, the top level under [name]. *)
Definition Parse (fm : template.FuncMap) (name text : string) : Result trees :=
  match lex false "" text with
  | Err e => Err e
  | Ok items => parseItems fm name items None [] []
  end.

(** The set of named templates; [None] is a name without a tree, as [root]
    is before a text is parsed under it. *)
Record Template : Type := {
  funcmap : template.FuncMap;
  tmpl : list (string * option (list node))
}.

(** [Template.associate] and [AddParseTree]: a new tree replaces the old one
    of the same name, except that an empty tree leaves an existing tree
    alone. *)
Definition associate (set : list (string * option (list node))) (name : string)
           (body : list node) : list (string * option (list node)) :=
  match tree_lookup name set with
  | Some (Some _) => if IsEmptyTree body then set else tree_set name (Some body) set
  | _ => tree_set name (Some body) set
  end.

Definition New (name : string) (fm : template.FuncMap) : Template :=
  {| funcmap := fm; tmpl := [(name, None)] |}.

Fixpoint parseFiles (fs : os.FS) (t : Template) (filenames : list string)
  : Result Template :=
  match filenames with
  | [] => Ok t
  | filename :: rest =>
      match os.ReadFile fs filename with
      | Err e => Err e
      | Ok text =>
          match Parse (funcmap t) (filepath.Base filename) text with
          | Err e => Err e
          | Ok ts =>
              parseFiles fs
                {| funcmap := funcmap t;
                   tmpl := fold_left (fun set p => associate set p.1 p.2) ts (tmpl t) |}
                rest
          end
      end
  end.

Definition ParseFiles (fm : template.FuncMap) (fs : os.FS) (filenames : list string)
  : Result Template :=
  match filenames with
  | [] => Err (ErrMsg "html/template: no files named in call to ParseFiles")
  | _ => parseFiles fs (New "root" fm) filenames
  end.

Definition Lookup (t : Template) (name : string) : bool :=
  bool_decide (is_Some (tree_lookup name (tmpl t))).

(** The escaper visits every template the executed one can reach and
    refuses a call of a name without a tree before anything is written. *)
Fixpoint escapeTemplate (fuel : nat) (t : Template) (visited : list string)
         (name : string) : Result (list string) :=
  match fuel with
  | O => Ok visited
  | S fuel' =>
      if bool_decide (name ∈ visited) then Ok visited
      else match tree_lookup name (tmpl t) with
           | Some (Some body) =>
               fold_left
                 (fun acc n =>
                    match acc, n with
                    | Ok v, TemplateNode callee _ => escapeTemplate fuel' t v callee
                    | _, _ => acc
                    end)
                 body (Ok (name :: visited))
           | Some None =>
               Err (ErrMsg ("html/template: " +:+ printq name +:+
                            " is an incomplete or empty template"))
           | None =>
               Err (ErrMsg ("html/template: no such template " +:+ printq name))
           end
  end.

(** The escaper of HTML text context. *)
Fixpoint htmlEscaper (s : string) : string :=
  match s with
  | EmptyString => ""
  | String c rest =>
      (if byte_eqb c "000" then String "239" (String "191" (String "189" ""))
       else if byte_eqb c "034" then "&#34;"
       else if byte_eqb c "&" then "&amp;"
       else if byte_eqb c "'" then "&#39;"
       else if byte_eqb c "+" then "&#43;"
       else if byte_eqb c "<" then "&lt;"
       else if byte_eqb c ">" then "&gt;"
       else String c "") +:+ htmlEscaper rest
  end.

Definition evalField (name : string) (data : option BaseData) : Result string :=
  match data with
  | None =>
      Err (ErrMsg ("template: nil data; no entry for key " +:+ printq name))
  | Some d =>
      if bool_decide (name = "Year") then Ok (strconv.Itoa (Year d))
      else if bool_decide (name = "BuildTimestamp") then Ok (htmlEscaper (BuildTimestamp d))
      else Err (ErrMsg ("template: can't evaluate field " +:+ name +:+
                        " in type main.BaseData"))
  end.

(** The limit is 100000. *)
Definition maxExecDepth : nat := 1000 * 100.

(** Execution: the bytes written so far come back with the error; [k]
    counts the readings of the clock. *)
Fixpoint walkTemplate (fuel : nat) (t : Template) (name : string)
         (data : option BaseData) (k : nat) : string * option error * nat :=
  match fuel with
  | O => ("", Some (ErrMsg "template: exceeded maximum template depth (100000)"), k)
  | S fuel' =>
      match tree_lookup name (tmpl t) with
      | Some (Some body) =>
          (fix walk (nodes : list node) (k : nat) : string * option error * nat :=
             match nodes with
             | [] => ("", None, k)
             | n :: rest =>
                 let step :=
                   match n with
                   | TextNode text => (text, None, k)
                   | FieldNode field =>
                       match evalField field data with
                       | Ok s => (s, None, k)
                       | Err e => ("", Some e, k)
                       end
                   | IdentifierNode f =>
                       match tree_lookup f (funcmap t) with
                       | Some fn => (htmlEscaper (fst (fn k)), None, snd (fn k))
                       | None =>
                           ("", Some (ErrMsg ("template: " +:+ f +:+
                                              " is not a defined function")), k)
                       end
                   | TemplateNode callee dot =>
                       walkTemplate fuel' t callee (if dot then data else None) k
                   end in
                 match step with
                 | (out, Some e, k') => (out, Some e, k')
                 | (out, None, k') =>
                     let '(out', e, k'') := walk rest k' in (out +:+ out', e, k'')
                 end
             end) body k
      | _ => ("", Some (ErrMsg ("template: no template " +:+ printq name)), k)
      end
  end.

Definition ExecuteTemplate (t : Template) (name : string) (data : option BaseData)
           (k : nat) : string * option error * nat :=
  match tree_lookup name (tmpl t) with
  | None =>
      ("", Some (ErrMsg ("html/template: " +:+ printq name +:+ " is undefined")), k)
  | Some None =>
      ("", Some (ErrMsg ("html/template: " +:+ printq name +:+
                         " is an incomplete template")), k)
  | Some (Some _) =>
      match escapeTemplate (S (length (tmpl t))) t [] name with
      | Err e => ("", Some e, k)
      | Ok _ => walkTemplate (S maxExecDepth) t name data k
      end
  end.

Definition engine : template.Engine :=
  {| template.Template := Template;
     template.ParseFiles := ParseFiles;
     template.Lookup := Lookup;
     template.ExecuteTemplate := ExecuteTemplate |}.

Definition quoting : strconv.Quoting :=
  {| strconv.Quote := printq |}.

End gotemplate.

(** * Vocabulary of the statements *)

(** ** Paths *)

Definition nosep (e : string) : Prop := filepath.hasSeparator e = false.

(** A path element that [Clean] keeps and never backs over. *)
Definition plain (e : string) : Prop :=
  e <> "" /\ e <> "." /\ e <> ".." /\ nosep e.

(** The stacks [Clean] builds: plain elements above a run of [..], which a
    rooted path never has. *)
Inductive wf_stack (r : bool) : list string -> Prop :=
| wf_nil : wf_stack r []
| wf_dotdot out : r = false -> Forall (eq "..") out -> wf_stack r (".." :: out)
| wf_plain e out : plain e -> wf_stack r out -> wf_stack r (e :: out).

(** ** File trees *)

(** [fs'] is [fs] with new directories and nothing else: every entry of
    [fs] is kept as it is, and no regular file appears. *)
Definition only_new_dirs (fs fs' : os.FS) : Prop :=
  forall k, fs' !! k = fs !! k \/ (fs !! k = None /\ fs' !! k = Some os.Directory).

(** The directory a walk of [MkdirAll] stands in exists. *)
Definition standing (r : bool) (fs : os.FS) (out : list string) : Prop :=
  os.implied (filepathlite.path_of r out) = true \/
  fs !! filepathlite.path_of r out = Some os.Directory.

(** ** Runs *)

(** The output path of a page whose path relative to the pages root is
    [rel] (lines 114-115). *)
Definition outputPath (outDir rel : string) : string :=
  filepath.Join [outDir; strings.TrimSuffix rel ".template.html" +:+ ".html"].

(** The flags with their defaults, as [main] reads them. *)
Definition srcDirOf (args : Flags) : string := default "./src" (flag_src args).
Definition outDirOf (args : Flags) : string := default "./site" (flag_out args).
Definition pagePatternOf (args : Flags) : string :=
  filepath.Join [srcDirOf args; default defaultGlob (flag_glob args)].
Definition includesGlobsOf (args : Flags) : list string :=
  [filepath.Join [srcDirOf args; "_includes"; "*.html"];
   filepath.Join [srcDirOf args; "_layouts"; "*.html"]].

Section Vocabulary.

Context {engine : template.Engine}.
Variable clock : time.Clock.

(** The state after one more reading of the clock. *)
Definition tick (w : World) : World := snd (time_Now clock w).

(** The template set of a render that starts in [w] (lines 78-93). *)
Definition parsed (includesGlobs : list string) (pageFile : string) (w : World)
  : Result template.Template :=
  template.ParseFiles (funcs clock) (files w)
    (templateFiles (files w) includesGlobs pageFile).

(** The layout a render chooses and the state it has reached once the
    layout is chosen (lines 95-107). *)
Definition layoutOf (t : template.Template) (w : World) : string := fst (chooseLayout t w).
Definition resolved (t : template.Template) (w : World) : World := snd (chooseLayout t w).

(** The data of a final pass whose year is the reading number [k]. *)
Definition renderData (buildTimestamp : string) (k : nat) : BaseData :=
  {| Year := time.Year (clock k); BuildTimestamp := buildTimestamp |}.

(** The final pass of a render that starts in [w] (line 137): the year is
    read first, then the chosen layout is executed. *)
Definition finalPass (buildTimestamp : string) (t : template.Template) (w : World)
  : string * option error * nat :=
  template.ExecuteTemplate t (layoutOf t w)
    (Some (renderData buildTimestamp (ticks (resolved t w))))
    (S (ticks (resolved t w))).

Definition buildTimestampOf (args : Flags) (w : World) : string :=
  default (time.Chicago (clock (ticks w))) (flag_timestamp args).

(** The state of [main] once the startup lines are logged. *)
Definition started (args : Flags) (w : World) : World :=
  log_Printf ("Build timestamp: " +:+ buildTimestampOf args w)
    (log_Printf ("Output directory: " +:+ outDirOf args)
       (log_Printf ("Source directory: " +:+ srcDirOf args)
          (log_Printf "Starting static site generation..." (tick w)))).

End Vocabulary.

(** ** Log lines *)

Definition renderingLine (pageFile outPath layout : string) : string :=
  "Rendering " +:+ pageFile +:+ " -> " +:+ outPath +:+ " (layout: " +:+ layout +:+ ")".

Definition wroteLine (outPath : string) : string := "Successfully wrote " +:+ outPath.

Definition foundLine (n : nat) : string :=
  "Found " +:+ strconv.Itoa (Z.of_nat n) +:+ " page template(s) to render".

Definition completedLine : string := "Static site generation completed successfully".

(** ** Readings of the clock *)

(** Two clocks give the same RFC 3339 text at every reading from number [a]
    up to, not including, number [b]; they give the same calendar year at
    reading number [k]. *)
Definition same_text (c1 c2 : time.Clock) (a b : nat) : bool :=
  forallb (fun j => String.eqb (time.RFC3339 (c1 j)) (time.RFC3339 (c2 j))) (seq a (b - a)).

Definition same_year (c1 c2 : time.Clock) (k : nat) : bool :=
  Z.eqb (time.Year (c1 k)) (time.Year (c2 k)).

(** An engine that reads the clock through the function map and in no other
    way.  Built from the same files with the function maps of two clocks,
    two sets parse alike and have the same names; an execution never
    returns a count of readings below the one it started with; and it runs
    alike in both sets when the clocks give the same text at the readings
    it takes in the first. *)
Definition calls_only (engine : template.Engine) : Prop :=
  forall (c1 c2 : time.Clock) (fs : os.FS) (filenames : list string),
    match template.ParseFiles (funcs c1) fs filenames,
          template.ParseFiles (funcs c2) fs filenames with
    | Ok t1, Ok t2 =>
        forall name data k,
          template.Lookup t2 name = template.Lookup t1 name /\
          k <= snd (template.ExecuteTemplate t1 name data k) /\
          (same_text c1 c2 k (snd (template.ExecuteTemplate t1 name data k)) = true ->
           template.ExecuteTemplate t2 name data k = template.ExecuteTemplate t1 name data k)
    | Err e1, Err e2 => e2 = e1
    | _, _ => False
    end.

Section Readings.

Context {engine : template.Engine} {quoting : strconv.Quoting}.
Variable zoneinfo : list string.
Variables c1 c2 : time.Clock.

(** The readings a render with the clock [c1] uses are the same on [c2]:
    the text of every reading taken while the override block runs, then,
    if the render gets as far as the final pass, the year of the reading
    taken for [BaseData] and the text of every reading taken while the
    layout runs. *)
Definition render_agrees (srcDir outDir : string) (includesGlobs : list string)
           (pageFile buildTimestamp : string) (w : World) : bool :=
  match parsed c1 includesGlobs pageFile w with
  | Err _ => true
  | Ok t =>
      same_text c1 c2 (ticks w) (ticks (resolved t w)) &&
      match filepath.Rel (filepath.Join [srcDir; "pages"]) pageFile with
      | Err _ => true
      | Ok rel =>
          match os.MkdirAll (files w) (filepath.Dir (outputPath outDir rel)) with
          | Err _ => true
          | Ok fs1 =>
              match os.Create fs1 (outputPath outDir rel) with
              | Err _ => true
              | Ok _ =>
                  same_year c1 c2 (ticks (resolved t w)) &&
                  same_text c1 c2 (S (ticks (resolved t w)))
                    (snd (finalPass c1 buildTimestamp t w))
              end
          end
      end
  end.

(** The same for the pages the loop of [main] renders, one after the other,
    up to the first that fails. *)
Fixpoint pages_agree (srcDir outDir : string) (includesGlobs : list string)
         (pageFiles : list string) (buildTimestamp : string) (w : World) : bool :=
  match pageFiles with
  | [] => true
  | page :: rest =>
      render_agrees srcDir outDir includesGlobs page buildTimestamp w &&
      match renderOne c1 srcDir outDir includesGlobs page buildTimestamp w with
      | (w', None) => pages_agree srcDir outDir includesGlobs rest buildTimestamp w'
      | (_, Some _) => true
      end
  end.

(** The same for a run: the build timestamp, which is the text of the first
    reading where the flag is not given, and the readings of the renders. *)
Definition run_agrees (args : Flags) (w : World) : bool :=
  match time.LoadLocation zoneinfo "America/Chicago" with
  | Err _ => true
  | Ok _ =>
      String.eqb (buildTimestampOf c1 args w) (buildTimestampOf c2 args w) &&
      match os.MkdirAll (files w) (outDirOf args) with
      | Err _ => true
      | Ok fs1 =>
          match filepath.Glob fs1 (pagePatternOf args) with
          | (_, Some _) => true
          | (pageFiles, None) =>
              pages_agree (srcDirOf args) (outDirOf args) (includesGlobsOf args) pageFiles
                (buildTimestampOf c1 args w)
                (log_Printf (foundLine (length pageFiles))
                   (set_files fs1 (started c1 args w)))
          end
      end
  end.

End Readings.

(** The walk over the nodes of one tree, as [walkTemplate] makes it, with
    the execution of a called template as a parameter. *)
Definition walkNodes (call : string -> option BaseData -> nat -> string * option error * nat)
           (fm : template.FuncMap) (data : option BaseData)
  : list gotemplate.node -> nat -> string * option error * nat :=
  fix walk (nodes : list gotemplate.node) (k : nat) : string * option error * nat :=
    match nodes with
    | [] => ("", None, k)
    | n :: rest =>
        let step :=
          match n with
          | gotemplate.TextNode text => (text, None, k)
          | gotemplate.FieldNode field =>
              match gotemplate.evalField field data with
              | Ok s => (s, None, k)
              | Err e => ("", Some e, k)
              end
          | gotemplate.IdentifierNode f =>
              match gotemplate.tree_lookup f fm with
              | Some fn => (gotemplate.htmlEscaper (fst (fn k)), None, snd (fn k))
              | None =>
                  ("", Some (ErrMsg ("template: " +:+ f +:+
                                     " is not a defined function")), k)
              end
          | gotemplate.TemplateNode callee dot => call callee (if dot then data else None) k
          end in
        match step with
        | (out, Some e, k') => (out, Some e, k')
        | (out, None, k') =>
            let '(out', e, k'') := walk rest k' in (out +:+ out', e, k'')
        end
    end.

(** Two sets with the same trees under function maps with the same names. *)
Definition alike (t1 t2 : gotemplate.Template) : Prop :=
  gotemplate.tmpl t2 = gotemplate.tmpl t1 /\
  (gotemplate.funcmap t2).*1 = (gotemplate.funcmap t1).*1.

(** ** Effects on the tree *)

(** [fs'] is [fs] except for new directories and for regular files at the
    paths [outs]: no entry is removed, and no regular file elsewhere is
    created or changed. *)
Definition changes_only (outs : list string) (fs fs' : os.FS) : Prop :=
  forall k, fs' !! k = fs !! k \/
            (fs !! k = None /\ fs' !! k = Some os.Directory) \/
            (k ∈ outs /\ exists content, fs' !! k = Some (os.File content)).

(** The output paths of the pages whose path [filepath.Rel] resolves. *)
Definition outputsOf (srcDir outDir : string) (pages : list string) : list string :=
  omap (fun page => match filepath.Rel (filepath.Join [srcDir; "pages"]) page with
                    | Ok rel => Some (outputPath outDir rel)
                    | Err _ => None
                    end) pages.

(** The page files of a run: the matches of the page pattern in the tree
    that has the output root. *)
Definition discovered (args : Flags) (w : World) : list string :=
  match os.MkdirAll (files w) (outDirOf args) with
  | Ok fs1 => fst (filepath.Glob fs1 (pagePatternOf args))
  | Err _ => []
  end.

(** ** Template texts *)

(** A byte of printable ASCII other than the space. *)
Definition solidByte (c : ascii) : bool :=
  negb (strings.asciiSpace c) && (N_of_ascii c <? 128)%N.

Definition startsSolid (s : string) : bool :=
  match s with
  | String c _ => solidByte c
  | EmptyString => false
  end.

(** A text that starts and ends with such a byte. *)
Definition solid (s : string) : bool := startsSolid s && startsSolid (String.rev s).

(** A text of ASCII white space only. *)
Definition blank (s : string) : bool := forallb strings.asciiSpace (list_ascii_of_string s).

(** A template text without a left brace: the lexer reads it as text. *)
Definition plainText (s : string) : bool :=
  forallb (fun c => negb (byte_eqb c "{")) (list_ascii_of_string s).

(** An action text without a right brace. *)
Definition closedText (s : string) : bool :=
  forallb (fun c => negb (byte_eqb c "}")) (list_ascii_of_string s).

(** A template name that can stand between double quotes as it is. *)
Definition plainName (s : string) : bool :=
  forallb (fun c => negb (byte_eqb c "}") && negb (byte_eqb c "034") && negb (byte_eqb c "\"))
          (list_ascii_of_string s).

(** The nodes of a body of plain text. *)
Definition textBody (b : string) : list gotemplate.node :=
  if bool_decide (b = "") then [] else [gotemplate.TextNode b].

(** The shared files of a render (lines 78-82) and the set they make, on
    the concrete engine. *)
Definition sharedFiles (fs : os.FS) (includesGlobs : list string) : list string :=
  fold_left (fun all g => all ++ fst (filepath.Glob fs g)) includesGlobs [].

Definition sharedSet (clock : time.Clock) (includesGlobs : list string) (w : World)
  : Result gotemplate.Template :=
  gotemplate.parseFiles (files w) (gotemplate.New "root" (funcs clock))
    (sharedFiles (files w) includesGlobs).

(** The text of the action that opens the definition of [n]. *)
Definition defineText (n : string) : string :=
  "define " +:+ gotemplate.quote +:+ n +:+ gotemplate.quote.

(** ** Sample sites

    Template sources, trees and runs on the concrete engine. *)

Module Examples.

Definition block (name body : string) : string :=
  "{{define " +:+ gotemplate.quote +:+ name +:+ gotemplate.quote +:+ "}}" +:+
  body +:+ "{{end}}".

Definition include (name : string) : string :=
  "{{template " +:+ gotemplate.quote +:+ name +:+ gotemplate.quote +:+ " .}}".

(** A clock that stands still. *)
Definition clockOf (year : Z) (chicago : string) : time.Clock :=
  fun _ => {| time.Year := year;
              time.RFC3339 := "2024-06-01T12:00:00-05:00";
              time.Chicago := chicago |}.

(** The same clock one second later. *)
Definition later (year : Z) (chicago : string) : time.Clock :=
  fun _ => {| time.Year := year;
              time.RFC3339 := "2024-06-01T12:00:01-05:00";
              time.Chicago := chicago |}.

Definition zones : list string := ["America/Chicago"].

Definition start (fs : os.FS) : World := {| files := fs; ticks := 0; logged := [] |}.

(** Every flag at its default except the build timestamp. *)
Definition flags : Flags :=
  {| flag_src := None; flag_out := None; flag_glob := None;
     flag_timestamp := Some "2024-01-01 00:00:00 CST" |}.

(** One layout file: the layout [public] and a default [content]. *)
Definition shared : list (string * os.node) :=
  [("src", os.Directory); ("src/_layouts", os.Directory); ("src/pages", os.Directory);
   ("src/_layouts/base.html",
    os.File (block "public" ("Site: " +:+ include "content") +:+
             block "content" "nothing yet"))].

Definition tree (extra : list (string * os.node)) : os.FS := list_to_map (shared ++ extra).

Definition blog : os.FS :=
  tree [("src/pages/blog", os.Directory);
        ("src/pages/blog/post.template.html", os.File (block "content" "Post of {{.Year}}"))].

(** A page whose override block fails: it reads a field of no data. *)
Definition fallback : os.FS :=
  tree [("src/pages/blog", os.Directory);
        ("src/pages/blog/fallback.template.html",
         os.File (block "layout_name" "{{.Missing}}" +:+ block "content" "Home"))].

(** A page whose content fails in the final pass. *)
Definition broken : os.FS :=
  tree [("src/pages/blog", os.Directory);
        ("src/pages/blog/broken.template.html",
         os.File (block "content" "Broken {{.Missing}}"))].

(** A page that defines one name twice. *)
Definition twice : os.FS :=
  tree [("src/pages/blog", os.Directory);
        ("src/pages/blog/twice.template.html",
         os.File (block "content" "first" +:+ block "content" "second"))].

(** A page file beside the pages root. *)
Definition drafts : os.FS :=
  tree [("src/drafts", os.Directory);
        ("src/drafts/x.template.html", os.File (block "content" "Draft"))].

(** A page file with a rooted path. *)
Definition rootedPage : os.FS :=
  tree [("/srv", os.Directory);
        ("/srv/x.template.html", os.File (block "content" "Elsewhere"))].

(** A page file without the page-template suffix. *)
Definition plainHtml : os.FS :=
  tree [("src/pages/foo.html", os.File (block "content" "Foo"))].

(** One page, directly in the pages root. *)
Definition home : os.FS :=
  tree [("src/pages/index.template.html", os.File (block "content" "Home"))].

(** Pages zero, one and two directories below the pages root. *)
Definition nested : os.FS :=
  tree [("src/pages/index.template.html", os.File (block "content" "Home"));
        ("src/pages/blog", os.Directory);
        ("src/pages/blog/post.template.html", os.File (block "content" "Post"));
        ("src/pages/blog/2024", os.Directory);
        ("src/pages/blog/2024/jan.template.html", os.File (block "content" "January"))].

(** Three pages in one directory; the second fails in the final pass. *)
Definition series : os.FS :=
  tree [("src/pages/blog", os.Directory);
        ("src/pages/blog/alpha.template.html", os.File (block "content" "Alpha"));
        ("src/pages/blog/broken.template.html",
         os.File (block "content" "Broken {{.Missing}}"));
        ("src/pages/blog/post.template.html", os.File (block "content" "Post"))].

(** The output root is taken by a regular file. *)
Definition blocked : os.FS :=
  tree [("site", os.File "taken");
        ("src/pages/blog", os.Directory);
        ("src/pages/blog/post.template.html", os.File (block "content" "Post"))].

(** The output path of the page is taken by a directory. *)
Definition occupied : os.FS :=
  tree [("site", os.Directory); ("site/blog", os.Directory);
        ("site/blog/post.html", os.Directory);
        ("src/pages/blog", os.Directory);
        ("src/pages/blog/post.template.html", os.File (block "content" "Post"))].

(** A page that names its layout on a line of its own. *)
Definition spaced : os.FS :=
  tree [("src/pages/blog", os.Directory);
        ("src/pages/blog/dash.template.html",
         os.File (block "layout_name" ((newline +:+ "  ") +:+ "dashboard" +:+ (" " +:+ newline)) +:+
                  block "content" "Dash"))].

(** The flags of [flags] with a page pattern. *)
Definition flagsGlob (g : string) : Flags :=
  {| flag_src := None; flag_out := None; flag_glob := Some g;
     flag_timestamp := Some "2024-01-01 00:00:00 CST" |}.

Definition noPages : os.FS := tree [].

(** The value of a step that succeeds. *)
Definition value {A : Type} (d : A) (r : Result A) : A :=
  match r with
  | Ok a => a
  | Err _ => d
  end.

(** [renderOne] as [main] calls it under [flags]. *)
Definition render (clock : time.Clock) (page : string) (fs : os.FS) : World * option error :=
  renderOne (engine := gotemplate.engine) (quoting := gotemplate.quoting) clock
    "./src" "./site" (includesGlobsOf flags) page "2024-01-01 00:00:00 CST" (start fs).

Definition run (zoneinfo : list string) (clock : time.Clock) (fs : os.FS) : Outcome :=
  main (engine := gotemplate.engine) (quoting := gotemplate.quoting) zoneinfo clock
    flags (start fs).

End Examples.

(** Closed goals are settled by evaluation. *)
Ltac by_computation :=
  lazymatch goal with
  | |- ?l = ?r => tryif has_evar r then (vm_compute; reflexivity)
                  else vm_cast_no_check (@eq_refl _ r)
  end.

(** * Properties *)

Import filepathlite.

(** ** Strings *)

Lemma string_app_nil_l (b : string) : "" +:+ b = b.
Proof. reflexivity. Qed.

Lemma string_app_cons (c : ascii) (a b : string) : String c a +:+ b = String c (a +:+ b).
Proof. reflexivity. Qed.

Lemma string_app_nil_r (a : string) : a +:+ "" = a.
Proof. induction a as [|c a IH]; [done | by rewrite string_app_cons, IH]. Qed.

Lemma string_app_assoc (a b c : string) : (a +:+ b) +:+ c = a +:+ (b +:+ c).
Proof. induction a as [|x a IH]; [done | by rewrite !string_app_cons, IH]. Qed.

Lemma string_length_app (a b : string) :
  String.length (a +:+ b) = String.length a + String.length b.
Proof. induction a as [|c a IH]; [done | rewrite string_app_cons; simpl; by rewrite IH]. Qed.

Lemma substring_all (b : string) : substring 0 (String.length b) b = b.
Proof. induction b as [|c b IH]; simpl; [done | by rewrite IH]. Qed.

Lemma substring_prefix (a b : string) :
  substring 0 (String.length a) (a +:+ b) = a.
Proof.
  induction a as [|c a IH].
  - rewrite string_app_nil_l. by destruct b.
  - rewrite string_app_cons. simpl. by rewrite IH.
Qed.

Lemma substring_suffix (a b : string) :
  substring (String.length a) (String.length b) (a +:+ b) = b.
Proof.
  induction a as [|c a IH].
  - rewrite string_app_nil_l. apply substring_all.
  - rewrite string_app_cons. simpl. apply IH.
Qed.

Lemma HasSuffix_app (a suffix : string) : strings.HasSuffix (a +:+ suffix) suffix = true.
Proof.
  unfold strings.HasSuffix. rewrite string_length_app.
  replace (String.length a + String.length suffix - String.length suffix)
    with (String.length a) by lia.
  rewrite substring_suffix, String.eqb_refl, andb_true_r.
  apply Nat.leb_le. lia.
Qed.

Lemma TrimSuffix_app (a suffix : string) : strings.TrimSuffix (a +:+ suffix) suffix = a.
Proof.
  unfold strings.TrimSuffix. rewrite HasSuffix_app, string_length_app.
  replace (String.length a + String.length suffix - String.length suffix)
    with (String.length a) by lia.
  apply substring_prefix.
Qed.

Lemma TrimSuffix_absent (s suffix : string) :
  strings.HasSuffix s suffix = false -> strings.TrimSuffix s suffix = s.
Proof. unfold strings.TrimSuffix. by intros ->. Qed.

Lemma substring_split (s : string) : forall k, k <= String.length s ->
  s = substring 0 k s +:+ substring k (String.length s - k) s.
Proof.
  induction s as [|c s IH]; intros k Hk.
  - simpl in Hk. by replace k with 0 by lia.
  - destruct k as [|k].
    + simpl. by rewrite substring_all.
    + simpl in *. rewrite string_app_cons. f_equal. apply IH. lia.
Qed.

Lemma HasSuffix_true s suffix :
  strings.HasSuffix s suffix = true -> s = strings.TrimSuffix s suffix +:+ suffix.
Proof.
  intros H. unfold strings.TrimSuffix. rewrite H. unfold strings.HasSuffix in H.
  apply andb_true_iff in H as [Hle Heq]. apply Nat.leb_le in Hle.
  apply String.eqb_eq in Heq.
  rewrite (substring_split s (String.length s - String.length suffix)) at 1 by lia.
  f_equal. rewrite <- Heq at 3. f_equal. lia.
Qed.


(** ** Trimming *)

Lemma rev_app_app (a b acc : string) :
  String.rev_app (a +:+ b) acc = String.rev_app b (String.rev_app a acc).
Proof.
  revert acc. induction a as [|c a IH]; intros acc; [done|].
  rewrite string_app_cons. simpl. apply IH.
Qed.

Lemma rev_app_rev (a acc : string) : String.rev_app a acc = String.rev a +:+ acc.
Proof.
  unfold String.rev. revert acc. induction a as [|c a IH]; intros acc; [done|]. simpl.
  rewrite IH, (IH (String c "")), string_app_assoc. done.
Qed.

Lemma string_rev_app (a b : string) : String.rev (a +:+ b) = String.rev b +:+ String.rev a.
Proof. unfold String.rev at 1. rewrite rev_app_app, rev_app_rev. done. Qed.

Lemma string_rev_involutive (a : string) : String.rev (String.rev a) = a.
Proof.
  induction a as [|c a IH]; [done|].
  change (String c a) with (String c "" +:+ a) at 1.
  rewrite string_rev_app, string_rev_app, IH. done.
Qed.

Lemma string_rev_length (a : string) : String.length (String.rev a) = String.length a.
Proof.
  induction a as [|c a IH]; [done|].
  change (String c a) with (String c "" +:+ a) at 1.
  rewrite string_rev_app, string_length_app, IH. simpl. lia.
Qed.

Lemma solidByte_not (c d : ascii) :
  solidByte c = true -> (128 <=? N_of_ascii d)%N = true -> byte_eqb c d = false.
Proof.
  unfold solidByte. intros [_ Ha%N.ltb_lt]%andb_true_iff Hn%N.leb_le.
  unfold byte_eqb. apply Ascii.eqb_neq. intros ->. lia.
Qed.

Lemma in_range_solid (c : ascii) (lo hi : N) :
  solidByte c = true -> (128 <= lo)%N -> strings.in_range lo hi c = false.
Proof.
  unfold solidByte, strings.in_range. intros [_ Ha%N.ltb_lt]%andb_true_iff Hlo.
  apply andb_false_iff. left. apply N.leb_gt. lia.
Qed.

Lemma leadingSpace_solid c s : solidByte c = true -> strings.leadingSpace (String c s) = 0.
Proof.
  intros Hc. pose proof Hc as [Hs _]%andb_true_iff. apply negb_true_iff in Hs.
  unfold strings.leadingSpace. rewrite Hs.
  rewrite (solidByte_not c "194" Hc), (solidByte_not c "225" Hc), (solidByte_not c "226" Hc),
    (solidByte_not c "227" Hc) by done.
  simpl. by repeat case_match.
Qed.

Lemma leadingSpace_three c2 c1 c0 :
  solidByte c0 = true ->
  Nat.eqb (strings.leadingSpace (String c2 (String c1 (String c0 "")))) 3 = false.
Proof.
  intros Hc. unfold strings.leadingSpace.
  rewrite (solidByte_not c0 "128" Hc), (solidByte_not c0 "168" Hc), (solidByte_not c0 "169" Hc),
    (solidByte_not c0 "175" Hc), (solidByte_not c0 "159" Hc), (in_range_solid c0 128 138 Hc) by (done || lia).
  rewrite !andb_false_r. simpl. by repeat case_match.
Qed.

Lemma trailingSpace_solid c r : solidByte c = true -> strings.trailingSpace (String c r) = 0.
Proof.
  intros Hc. pose proof Hc as [Hs _]%andb_true_iff. apply negb_true_iff in Hs.
  unfold strings.trailingSpace. rewrite Hs.
  rewrite (solidByte_not c "133" Hc), (solidByte_not c "160" Hc) by done.
  destruct r as [|c1 [|c2 r]]; [done| by rewrite andb_false_r |].
  rewrite andb_false_r. cbn [orb]. by rewrite leadingSpace_three.
Qed.

Lemma leadingSpace_blank c s : strings.asciiSpace c = true -> strings.leadingSpace (String c s) = 1.
Proof. intros H. unfold strings.leadingSpace. by rewrite H. Qed.

Lemma trailingSpace_blank c s :
  strings.asciiSpace c = true -> strings.trailingSpace (String c s) = 1.
Proof. intros H. unfold strings.trailingSpace. by rewrite H. Qed.

Lemma trimLeftSpace_blank l : forall fuel s,
  blank l = true -> String.length l <= fuel ->
  strings.trimLeftSpace fuel (l +:+ s) = strings.trimLeftSpace (fuel - String.length l) s.
Proof.
  induction l as [|c l IH]; intros fuel s Hb Hf.
  - rewrite string_app_nil_l. simpl. by rewrite Nat.sub_0_r.
  - unfold blank in Hb. simpl in Hb, Hf. apply andb_true_iff in Hb as [Hc Hl].
    destruct fuel as [|fuel]; [lia|]. rewrite string_app_cons. 
    cbn [strings.trimLeftSpace]. rewrite (leadingSpace_blank c _ Hc).
    cbn [string_drop]. rewrite IH by (done || lia). done.
Qed.

Lemma trimLeftSpace_solid fuel s :
  startsSolid s = true -> strings.trimLeftSpace fuel s = s.
Proof.
  destruct s as [|c s]; [done|]. simpl. intros Hc.
  destruct fuel; [done|]. cbn [strings.trimLeftSpace]. by rewrite leadingSpace_solid.
Qed.

Lemma trimRightSpaceRev_blank l : forall fuel s,
  blank l = true -> String.length l <= fuel ->
  strings.trimRightSpaceRev fuel (l +:+ s)
  = strings.trimRightSpaceRev (fuel - String.length l) s.
Proof.
  induction l as [|c l IH]; intros fuel s Hb Hf.
  - rewrite string_app_nil_l. simpl. by rewrite Nat.sub_0_r.
  - unfold blank in Hb. simpl in Hb, Hf. apply andb_true_iff in Hb as [Hc Hl].
    destruct fuel as [|fuel]; [lia|]. rewrite string_app_cons.
    cbn [strings.trimRightSpaceRev]. rewrite (trailingSpace_blank c _ Hc).
    cbn [string_drop]. rewrite IH by (done || lia). done.
Qed.

Lemma trimRightSpaceRev_solid fuel s :
  startsSolid s = true -> strings.trimRightSpaceRev fuel s = s.
Proof.
  destruct s as [|c s]; [done|]. simpl. intros Hc.
  destruct fuel; [done|]. cbn [strings.trimRightSpaceRev]. by rewrite trailingSpace_solid.
Qed.

Lemma blank_rev l : blank l = true -> blank (String.rev l) = true.
Proof.
  unfold blank. induction l as [|c l IH]; [done|]. simpl. intros [Hc Hl]%andb_true_iff.
  change (String c l) with (String c "" +:+ l). rewrite string_rev_app.
  assert (Happ : forall a b, list_ascii_of_string (a +:+ b)
                             = list_ascii_of_string a ++ list_ascii_of_string b).
  { intros a b. induction a as [|x a IHa]; [done|]. rewrite string_app_cons. simpl.
    by rewrite IHa. }
  rewrite Happ, forallb_app, IH by done. simpl. by rewrite Hc.
Qed.

(** [TrimSpace] removes the white space around a text with solid ends and
    nothing else. *)
Lemma TrimSpace_strip l name r :
  blank l = true -> blank r = true -> solid name = true ->
  strings.TrimSpace (l +:+ name +:+ r) = name.
Proof.
  intros Hl Hr [Hs He]%andb_true_iff. unfold strings.TrimSpace.
  rewrite trimLeftSpace_blank by (done || rewrite string_length_app; lia).
  rewrite trimLeftSpace_solid.
  2:{ destruct name; [done|]. by rewrite string_app_cons. }
  rewrite string_rev_app.
  rewrite trimRightSpaceRev_blank.
  - rewrite trimRightSpaceRev_solid by done. apply string_rev_involutive.
  - by apply blank_rev.
  - rewrite string_rev_length, string_length_app. lia.
Qed.

Lemma TrimSpace_solid s : solid s = true -> strings.TrimSpace s = s.
Proof.
  intros H. rewrite <- (TrimSpace_strip "" s "") at 2 by done.
  by rewrite string_app_nil_l, string_app_nil_r.
Qed.

(** ** Paths *)

Lemma nosep_cons c e : nosep (String c e) <-> byte_eqb c Separator = false /\ nosep e.
Proof.
  unfold nosep, filepath.hasSeparator. simpl.
  rewrite orb_false_iff. done.
Qed.

Lemma split_sep_cons_sep s : split_sep (String Separator s) = "" :: split_sep s.
Proof. reflexivity. Qed.

Lemma split_sep_nonempty s : split_sep s <> [].
Proof.
  destruct s as [|c s]; simpl; [done|].
  destruct (byte_eqb c Separator); [done|]. by destruct (split_sep s).
Qed.

Lemma split_sep_nosep s : Forall nosep (split_sep s).
Proof.
  induction s as [|c s IH]; simpl.
  - by constructor.
  - destruct (byte_eqb c Separator) eqn:Hc.
    + by constructor.
    + destruct (split_sep s) as [|x xs]; inversion IH; subst; constructor;
        try done; apply nosep_cons; done.
Qed.

Lemma split_sep_app a b :
  split_sep (a +:+ "/" +:+ b) = split_sep a ++ split_sep b.
Proof.
  induction a as [|c a IH].
  - reflexivity.
  - rewrite string_app_cons. simpl. rewrite IH.
    destruct (byte_eqb c Separator); [done|].
    pose proof (split_sep_nonempty a). by destruct (split_sep a).
Qed.

Lemma split_sep_single e : nosep e -> split_sep e = [e].
Proof.
  induction e as [|c e IH]; [done|].
  intros [Hc He]%nosep_cons. simpl. rewrite Hc, IH; done.
Qed.

Lemma join_sep_cons x y l : join_sep (x :: y :: l) = x +:+ "/" +:+ join_sep (y :: l).
Proof. reflexivity. Qed.

Lemma split_join l : l <> [] -> Forall nosep l -> split_sep (join_sep l) = l.
Proof.
  induction l as [|x [|y l] IH]; [done| |].
  - intros _ H. inversion H; subst. by apply split_sep_single.
  - intros _ H. inversion H; subst. rewrite join_sep_cons, split_sep_app.
    rewrite split_sep_single by done. simpl. f_equal. by apply IH.
Qed.

Lemma join_sep_app l1 l2 :
  l1 <> [] -> l2 <> [] -> join_sep (l1 ++ l2) = join_sep l1 +:+ "/" +:+ join_sep l2.
Proof.
  induction l1 as [|x [|y l1] IH]; [done| |]; intros _ H2.
  - destruct l2; [done|]. reflexivity.
  - change ((x :: y :: l1) ++ l2) with (x :: y :: (l1 ++ l2)).
    rewrite !join_sep_cons. change (y :: l1 ++ l2) with ((y :: l1) ++ l2).
    rewrite IH by done. by rewrite !string_app_assoc.
Qed.

Lemma wf_stack_dotdots r out : r = false -> Forall (eq "..") out -> wf_stack r out.
Proof. intros Hr H. induction H as [|x l <- H IH]; by constructor. Qed.

Lemma wf_stack_tail r e out : wf_stack r (e :: out) -> wf_stack r out.
Proof. inversion 1; subst; [by apply wf_stack_dotdots | done]. Qed.

Lemma wf_stack_nosep r out : wf_stack r out -> Forall (fun e => e <> "" /\ e <> "." /\ nosep e) out.
Proof.
  induction 1 as [|out Hr H|e out (?&?&?&?) H IH].
  - constructor.
  - constructor; [done|]. eapply Forall_impl; [exact H|]. by intros ? <-.
  - by constructor.
Qed.

Lemma clean_step_plain r out e : plain e -> clean_step r out e = e :: out.
Proof.
  intros (H1&H2&H3&_). unfold clean_step.
  rewrite !bool_decide_eq_false_2 by done. done.
Qed.

Lemma clean_step_wf r out e : nosep e -> wf_stack r out -> wf_stack r (clean_step r out e).
Proof.
  intros He Hout. unfold clean_step.
  destruct (bool_decide (e = "")) eqn:H1; [done|].
  destruct (bool_decide (e = ".")) eqn:H2; [done|]. simpl.
  apply bool_decide_eq_false in H1, H2.
  destruct (bool_decide (e = "..")) eqn:H3.
  - apply bool_decide_eq_true in H3. subst e.
    destruct out as [|top out'].
    + destruct r eqn:Hr; [constructor | by constructor].
    + destruct (bool_decide (top = "..")) eqn:H4.
      * apply bool_decide_eq_true in H4. subst top.
        inversion Hout as [|? ? Hf|? ? Hp ?]; subst.
        -- constructor; [done|]. by constructor.
        -- by destruct Hp as (?&?&?&?).
      * by apply wf_stack_tail in Hout.
  - apply bool_decide_eq_false in H3. by constructor.
Qed.

Lemma clean_elems_wf r out elems :
  Forall nosep elems -> wf_stack r out -> wf_stack r (clean_elems r out elems).
Proof.
  unfold clean_elems. intros H. revert out.
  induction H as [|e elems He H IH]; simpl; [done|].
  intros out Hout. apply IH. by apply clean_step_wf.
Qed.

Lemma clean_elems_app r out l1 l2 :
  clean_elems r out (l1 ++ l2) = clean_elems r (clean_elems r out l1) l2.
Proof. unfold clean_elems. apply fold_left_app. Qed.

Lemma clean_elems_rev r out : wf_stack r out -> clean_elems r [] (rev out) = out.
Proof.
  induction out as [|e out IH]; [done|].
  intros H. simpl. rewrite clean_elems_app, IH by (by eapply wf_stack_tail).
  unfold clean_elems. simpl.
  inversion H as [|? Hr Hf|? ? Hp ?]; subst.
  - unfold clean_step. simpl. destruct out as [|top out']; [done|].
    inversion Hf; subst. by rewrite bool_decide_eq_true_2.
  - by apply clean_step_plain.
Qed.

Lemma clean_elems_plain r out names :
  Forall plain names -> clean_elems r out names = rev names ++ out.
Proof.
  intros H. revert out. induction H as [|e names He H IH]; intros out; [done|].
  unfold clean_elems in *. simpl. rewrite clean_step_plain by done.
  rewrite IH. by rewrite <- app_assoc.
Qed.

Lemma rooted_app a b : a <> "" -> rooted (a +:+ b) = rooted a.
Proof. destruct a; [done|]. by rewrite string_app_cons. Qed.

Lemma nosep_not_rooted e : nosep e -> rooted e = false.
Proof. destruct e as [|c e]; [done|]. by intros [? _]%nosep_cons. Qed.

Lemma join_sep_head x l : exists rest, join_sep (x :: l) = x +:+ rest.
Proof.
  destruct l as [|y l].
  - exists "". simpl. by rewrite string_app_nil_r.
  - eexists. apply join_sep_cons.
Qed.

Lemma string_app_eq_nil a b : a +:+ b = "" -> a = "".
Proof. by destruct a. Qed.

Lemma join_sep_not_empty l :
  l <> [] -> Forall (fun e => e <> "" /\ e <> "." /\ nosep e) l -> join_sep l <> "".
Proof.
  destruct l as [|x l]; [done|]. intros _ H. inversion H as [|? ? (Hx&_) _]; subst.
  destruct (join_sep_head x l) as [rest ->]. intros Heq%string_app_eq_nil. done.
Qed.

Lemma join_sep_not_dot l :
  l <> [] -> Forall (fun e => e <> "" /\ e <> "." /\ nosep e) l -> join_sep l <> ".".
Proof.
  intros Hl H Heq.
  assert (Hs : split_sep (join_sep l) = l).
  { apply split_join; [done|]. eapply Forall_impl; [exact H|]. by intros ? (?&?&?). }
  rewrite Heq in Hs. simpl in Hs. subst l.
  inversion H as [|? ? (?&?&?) _]. done.
Qed.

Lemma join_sep_not_rooted l :
  l <> [] -> Forall (fun e => e <> "" /\ e <> "." /\ nosep e) l -> rooted (join_sep l) = false.
Proof.
  destruct l as [|x l]; [done|]. intros _ H. inversion H as [|? ? (Hx&?&?) _]; subst.
  destruct (join_sep_head x l) as [rest ->]. rewrite rooted_app by done.
  by apply nosep_not_rooted.
Qed.

Lemma wf_rev r out :
  wf_stack r out -> Forall (fun e => e <> "" /\ e <> "." /\ nosep e) (rev out).
Proof. intros H. apply Forall_rev. by apply wf_stack_nosep in H. Qed.

Lemma rev_not_nil {A} (l : list A) : l <> [] -> rev l <> [].
Proof. destruct l; [done|]. simpl. intros _ H. by apply app_eq_nil in H as [_ ?]. Qed.

Lemma path_of_not_empty r out : wf_stack r out -> path_of r out <> "".
Proof.
  intros H. unfold path_of. destruct r; [done|].
  destruct out as [|e out]; [done|].
  apply join_sep_not_empty; [by apply rev_not_nil | by eapply wf_rev].
Qed.

Lemma rooted_path_of r out : wf_stack r out -> rooted (path_of r out) = r.
Proof.
  intros H. unfold path_of. destruct r; [done|].
  destruct out as [|e out]; [done|].
  apply join_sep_not_rooted; [by apply rev_not_nil | by eapply wf_rev].
Qed.

Lemma Forall_nosep_of l :
  Forall (fun e => e <> "" /\ e <> "." /\ nosep e) l -> Forall nosep l.
Proof. intros H. eapply Forall_impl; [exact H|]. by intros ? (?&?&?). Qed.

(** Splitting the path of a stack and cleaning again gives the stack back. *)
Lemma clean_split_path_of r out :
  wf_stack r out -> clean_elems r [] (split_sep (path_of r out)) = out.
Proof.
  intros H. unfold path_of. destruct r.
  - change ("/" +:+ join_sep (rev out)) with (String Separator (join_sep (rev out))).
    rewrite split_sep_cons_sep.
    destruct out as [|e out]; [done|].
    rewrite split_join; [| by apply rev_not_nil | by eapply Forall_nosep_of, wf_rev].
    change (clean_elems true [] ("" :: rev (e :: out)))
      with (clean_elems true [] (rev (e :: out))).
    by apply clean_elems_rev.
  - destruct out as [|e out]; [done|].
    rewrite split_join; [| by apply rev_not_nil | by eapply Forall_nosep_of, wf_rev].
    by apply clean_elems_rev.
Qed.

Lemma path_of_inj r out1 out2 :
  wf_stack r out1 -> wf_stack r out2 -> path_of r out1 = path_of r out2 -> out1 = out2.
Proof.
  intros H1 H2 Heq.
  rewrite <- (clean_split_path_of r out1), <- (clean_split_path_of r out2) by done.
  by rewrite Heq.
Qed.

Lemma Clean_path_of r out : wf_stack r out -> Clean (path_of r out) = path_of r out.
Proof.
  intros H. unfold Clean.
  rewrite bool_decide_eq_false_2 by (by apply path_of_not_empty).
  by rewrite rooted_path_of, clean_split_path_of.
Qed.

(** Every cleaned path is the path of a well-formed stack. *)
Lemma Clean_stack path :
  exists r out, wf_stack r out /\ Clean path = path_of r out.
Proof.
  unfold Clean. destruct (bool_decide (path = "")).
  - exists false, []. split; [constructor | done].
  - exists (rooted path), (clean_elems (rooted path) [] (split_sep path)). split; [|done].
    apply clean_elems_wf; [apply split_sep_nosep | constructor].
Qed.

Lemma Clean_idempotent path : Clean (Clean path) = Clean path.
Proof.
  destruct (Clean_stack path) as (r & out & H & ->). by apply Clean_path_of.
Qed.

Lemma Clean_not_empty path : Clean path <> "".
Proof. destruct (Clean_stack path) as (r & out & H & ->). by apply path_of_not_empty. Qed.

(** A cleaned path followed by plain elements. *)
Lemma Clean_descend r out names :
  wf_stack r out -> names <> [] -> Forall plain names ->
  Clean (path_of r out +:+ "/" +:+ join_sep names) = path_of r (rev names ++ out).
Proof.
  intros H Hn Hp. unfold Clean.
  rewrite bool_decide_eq_false_2.
  2:{ intros Heq%string_app_eq_nil. by apply path_of_not_empty in Heq. }
  rewrite rooted_app by (by apply path_of_not_empty).
  rewrite rooted_path_of by done. f_equal.
  rewrite split_sep_app, clean_elems_app, clean_split_path_of by done.
  rewrite split_join; [by apply clean_elems_plain | done |].
  eapply Forall_impl; [exact Hp|]. by intros ? (?&?&?&?).
Qed.

Lemma wf_stack_push r out names :
  wf_stack r out -> Forall plain names -> wf_stack r (rev names ++ out).
Proof.
  intros H Hp. revert out H. induction Hp as [|e names He Hp IH]; intros out H; [done|].
  simpl. rewrite <- app_assoc. simpl. apply IH. by constructor.
Qed.

Lemma elems_of_path_of r out :
  wf_stack r out -> out <> [] \/ r = true -> filepath.elems_of (path_of r out) = rev out.
Proof.
  intros H Hne. unfold path_of. destruct r.
  - change ("/" +:+ join_sep (rev out)) with (String Separator (join_sep (rev out))).
    unfold filepath.elems_of. simpl.
    destruct out as [|e out]; [done|].
    rewrite bool_decide_eq_false_2.
    + apply split_join; [by apply rev_not_nil | by eapply Forall_nosep_of, wf_rev].
    + apply join_sep_not_empty; [by apply rev_not_nil | by eapply wf_rev].
  - destruct Hne as [Hne|]; [|done]. destruct out as [|e out]; [done|].
    assert (Hr : rooted (join_sep (rev (e :: out))) = false)
      by (apply join_sep_not_rooted; [by apply rev_not_nil | by eapply wf_rev]).
    assert (He : join_sep (rev (e :: out)) <> "")
      by (apply join_sep_not_empty; [by apply rev_not_nil | by eapply wf_rev]).
    unfold filepath.elems_of.
    destruct (join_sep (rev (e :: out))) as [|c s] eqn:Hj; [done|].
    simpl in Hr. unfold byte_eqb in *. rewrite Hr. rewrite <- Hj.
    apply split_join; [by apply rev_not_nil | by eapply Forall_nosep_of, wf_rev].
Qed.

Lemma strip_common_prefix l names :
  filepath.strip_common l (l ++ names) = ([], names).
Proof.
  induction l as [|x l IH]; simpl.
  - by destruct names.
  - by rewrite bool_decide_eq_true_2.
Qed.

(** [Rel] from a directory to a path below it gives the path below. *)
Lemma Rel_descendant base names :
  names <> [] -> Forall plain names ->
  filepath.Rel base (Clean base +:+ "/" +:+ join_sep names) = Ok (join_sep names).
Proof.
  intros Hn Hp. unfold filepath.Rel.
  destruct (Clean_stack base) as (r & out & H & Hb). rewrite Hb.
  rewrite Clean_descend by done.
  pose proof (wf_stack_push r out names H Hp) as H'.
  rewrite bool_decide_eq_false_2.
  2:{ intros Heq%path_of_inj; [|done..].
      apply (f_equal length) in Heq. rewrite length_app, length_rev in Heq.
      destruct names; [done | simpl in Heq; lia]. }
  assert (Hne : rev names ++ out <> []).
  { destruct names as [|n names]; [done|]. simpl. rewrite <- app_assoc.
    intros Habs. by apply app_eq_nil in Habs as [_ ?]. }
  rewrite (rooted_path_of r (rev names ++ out)) by done.
  assert (Hbase : rooted (if bool_decide (path_of r out = ".") then "" else path_of r out) = r
                  /\ filepath.elems_of (if bool_decide (path_of r out = ".") then ""
                                        else path_of r out) = rev out).
  { case_bool_decide as Hdot.
    - assert (r = false) as -> by (by rewrite <- (rooted_path_of r out H), Hdot).
      destruct out as [|e out]; [done|]. exfalso. revert Hdot. unfold path_of.
      apply join_sep_not_dot; [by apply rev_not_nil | by eapply wf_rev].
    - split; [by apply rooted_path_of|].
      destruct out as [|e out].
      + destruct r; [by apply elems_of_path_of; auto | done].
      + apply elems_of_path_of; auto. }
  destruct Hbase as [-> ->]. rewrite Bool.eqb_reflx. simpl.
  rewrite elems_of_path_of by auto. rewrite rev_app_distr, rev_involutive.
  rewrite strip_common_prefix. done.
Qed.

(** [Rel] refuses a rooted path against one that is not. *)
Lemma Rel_mixed base targ :
  rooted (Clean targ) = negb (rooted (Clean base)) ->
  filepath.Rel base targ
  = Err (ErrMsg ("Rel: can't make " +:+ targ +:+ " relative to " +:+ base)).
Proof.
  intros Hr. unfold filepath.Rel.
  rewrite bool_decide_eq_false_2.
  2:{ intros Heq. rewrite Heq in Hr. by destruct (rooted (Clean base)). }
  assert (rooted (if bool_decide (Clean base = ".") then "" else Clean base)
          = rooted (Clean base)) as ->.
  { case_bool_decide as Hdot; [by rewrite Hdot | done]. }
  rewrite Hr. by destruct (rooted (Clean base)).
Qed.

Lemma Join_two_clean a b : b <> "" -> exists y, filepath.Join [a; b] = Clean y.
Proof.
  intros Hb. simpl. case_bool_decide; [|by eexists].
  rewrite bool_decide_eq_false_2 by done. by eexists.
Qed.

Lemma Join_two_fixed a b : b <> "" -> Clean (filepath.Join [a; b]) = filepath.Join [a; b].
Proof.
  intros Hb. destruct (Join_two_clean a b Hb) as [y ->]. apply Clean_idempotent.
Qed.


Lemma strip_common_diverge l x b y t :
  x <> y -> filepath.strip_common (l ++ x :: b) (l ++ y :: t) = (x :: b, y :: t).
Proof.
  intros Hne. induction l as [|z l IH]; simpl.
  - by rewrite bool_decide_eq_false_2.
  - by rewrite bool_decide_eq_true_2.
Qed.

(** Every error of [Rel] carries the same message. *)
Lemma Rel_error base targ e :
  filepath.Rel base targ = Err e ->
  e = ErrMsg ("Rel: can't make " +:+ targ +:+ " relative to " +:+ base).
Proof.
  unfold filepath.Rel. intros H.
  repeat (case_match; simplify_eq); done.
Qed.

(** [Join] of a directory and a path of plain elements: the stack of the
    directory with the elements on top. *)
Lemma Join_descend a :
  exists r out, wf_stack r out /\
    forall names, names <> [] -> Forall plain names ->
      filepath.Join [a; join_sep names] = path_of r (rev names ++ out).
Proof.
  destruct (decide (a = "")) as [->|Ha].
  - exists false, []. split; [constructor|]. intros names Hn Hp.
    assert (Hj : join_sep names = path_of false (rev names)).
    { unfold path_of. rewrite rev_involutive.
      destruct names as [|n names]; [done|]. simpl.
      destruct (rev names ++ [n]) eqn:E; [|done]. by destruct (rev names). }
    cbn [filepath.Join]. rewrite bool_decide_eq_true_2 by done.
    rewrite bool_decide_eq_false_2.
    2:{ apply join_sep_not_empty; [done|].
        eapply Forall_impl; [exact Hp|]. by intros x (? & ? & ? & ?). }
    rewrite app_nil_r. cbn [join_sep String.concat]. 
    change (String.concat "/" names) with (join_sep names).
    replace (String.concat "/" [join_sep names]) with (join_sep names) by done.
    rewrite Hj. apply Clean_path_of.
    rewrite <- (app_nil_r (rev names)). apply wf_stack_push; [constructor | done].
  - exists (rooted a), (clean_elems (rooted a) [] (split_sep a)).
    assert (Hwf : wf_stack (rooted a) (clean_elems (rooted a) [] (split_sep a))).
    { apply clean_elems_wf; [apply split_sep_nosep | constructor]. }
    split; [done|]. intros names Hn Hp.
    cbn [filepath.Join]. rewrite bool_decide_eq_false_2 by done.
    change (join_sep [a; join_sep names]) with (a +:+ "/" +:+ join_sep names).
    unfold Clean. rewrite bool_decide_eq_false_2.
    2:{ intros H. by apply string_app_eq_nil in H. }
    rewrite rooted_app by done. rewrite split_sep_app, clean_elems_app.
    rewrite split_join; [|done|].
    2:{ eapply Forall_impl; [exact Hp|]. by intros x (? & ? & ? & ?). }
    by rewrite clean_elems_plain.
Qed.

(** From the pages root to a path beside it: one step up, then down. *)
Lemma Rel_beside srcDir names :
  names <> [] -> Forall plain names -> head names <> Some "pages" ->
  filepath.Rel (filepath.Join [srcDir; "pages"]) (filepath.Join [srcDir; join_sep names])
  = Ok ("../" +:+ join_sep names).
Proof.
  intros Hn Hp Hh.
  destruct (Join_descend srcDir) as (r & out & Hwf & HJ).
  assert (Hpages : Forall plain ["pages"]).
  { constructor; [|done]. repeat split; done. }
  pose proof (HJ ["pages"] ltac:(done) Hpages) as Hb. cbn [join_sep String.concat] in Hb.
  change (String.concat "/" ["pages"]) with "pages" in Hb.
  rewrite Hb, (HJ names Hn Hp). clear Hb HJ. simpl rev. simpl app at 1.
  pose proof (wf_stack_push r out names Hwf Hp) as Hwt.
  assert (Hwb : wf_stack r ("pages" :: out)) by (constructor; [by inversion Hpages | done]).
  unfold filepath.Rel. rewrite !Clean_path_of by done.
  rewrite bool_decide_eq_false_2.
  2:{ intros Heq%path_of_inj; [|done..].
      change ("pages" :: out) with (["pages"] ++ out) in Heq.
      apply app_inv_tail in Heq. apply (f_equal (@rev string)) in Heq.
      rewrite rev_involutive in Heq. subst names. by apply Hh. }
  rewrite bool_decide_eq_false_2.
  2:{ unfold path_of. destruct r.
      - intros H. apply (f_equal rooted) in H. done.
      - apply join_sep_not_dot; [by apply rev_not_nil | by eapply wf_rev]. }
  rewrite !rooted_path_of by done. rewrite Bool.eqb_reflx. cbn [negb].
  rewrite !elems_of_path_of; [|done|left|done|by left].
  2:{ destruct names as [|n names]; [done|]. simpl. rewrite <- app_assoc.
      intros Habs. by apply app_eq_nil in Habs as [_ ?]. }
  rewrite rev_app_distr, rev_involutive. simpl rev.
  destruct names as [|n names]; [done|].
  rewrite strip_common_diverge by (intros <-; by apply Hh).
  rewrite bool_decide_eq_false_2 by done. cbn [fst length replicate app].
  f_equal.
  assert (Hj : join_sep (".." :: n :: names) = path_of false (rev (n :: names) ++ [".."])).
  { unfold path_of. rewrite rev_app_distr, rev_involutive. simpl.
    destruct (rev names ++ [n]) eqn:E; [by destruct (rev names)|].
    simpl. by destruct (_ ++ _). }
  change ("../" +:+ join_sep (n :: names)) with (join_sep (".." :: n :: names)).
  rewrite Hj. apply Clean_path_of. apply wf_stack_push; [|done].
  by apply wf_dotdot.
Qed.

(** ** File trees *)

Lemma only_new_dirs_refl fs : only_new_dirs fs fs.
Proof. intros k. by left. Qed.

Lemma only_new_dirs_trans fs1 fs2 fs3 :
  only_new_dirs fs1 fs2 -> only_new_dirs fs2 fs3 -> only_new_dirs fs1 fs3.
Proof.
  intros H12 H23 k. destruct (H12 k) as [E1|[E1 E1']], (H23 k) as [E2|[E2 E2']].
  - left. congruence.
  - right. split; congruence.
  - right. split; congruence.
  - congruence.
Qed.

Lemma only_new_dirs_insert fs key :
  fs !! key = None -> only_new_dirs fs (<[key := os.Directory]> fs).
Proof.
  intros Hk k. destruct (decide (key = k)) as [<-|Hne].
  - right. by rewrite lookup_insert_eq.
  - left. by rewrite lookup_insert_ne.
Qed.

Lemma mkdir_elems_frame r elems : forall fs out walked fs',
  os.mkdir_elems r fs out walked elems = Ok fs' -> only_new_dirs fs fs'.
Proof.
  induction elems as [|e es IH]; intros fs out walked fs'; simpl.
  - intros [= <-]. apply only_new_dirs_refl.
  - destruct (os.implied _); [by apply IH|].
    destruct (fs !! _) as [[|content]|] eqn:Hk; [by apply IH | done |].
    intros H%IH. eapply only_new_dirs_trans; [|exact H].
    by apply only_new_dirs_insert.
Qed.

Lemma mkdir_elems_standing r elems : forall fs out walked fs',
  os.mkdir_elems r fs out walked elems = Ok fs' ->
  standing r fs out -> standing r fs' (clean_elems r out elems).
Proof.
  induction elems as [|e es IH]; intros fs out walked fs'; simpl.
  - by intros [= <-].
  - destruct (os.implied _) eqn:Hi.
    { intros H _. eapply IH; [exact H|]. by left. }
    destruct (fs !! _) as [[|content]|] eqn:Hk; [|done|].
    + intros H _. eapply IH; [exact H|]. by right.
    + intros H _. eapply IH; [exact H|]. right. by rewrite lookup_insert_eq.
Qed.

Lemma MkdirAll_frame fs path fs' : os.MkdirAll fs path = Ok fs' -> only_new_dirs fs fs'.
Proof.
  unfold os.MkdirAll. case_bool_decide; [done|]. apply mkdir_elems_frame.
Qed.

(** After a successful [MkdirAll] the path is a directory. *)
Lemma MkdirAll_dir fs path fs' :
  os.MkdirAll fs path = Ok fs' -> os.Stat fs' path = Some os.Directory.
Proof.
  unfold os.MkdirAll, os.Stat. case_bool_decide as Hp; [done|].
  intros H%mkdir_elems_standing.
  - unfold Clean. rewrite bool_decide_eq_false_2 by done.
    destruct H as [->|H]; [done|]. rewrite H. by destruct (os.implied _).
  - left. by destruct (rooted path).
Qed.

Lemma Stat_only_new_dirs fs fs' path :
  only_new_dirs fs fs' ->
  os.Stat fs path = Some os.Directory -> os.Stat fs' path = Some os.Directory.
Proof.
  intros H. unfold os.Stat. case_bool_decide; [done|].
  destruct (os.implied _); [done|].
  destruct (H (Clean path)) as [->|[-> _]]; done.
Qed.

(** Regular files are neither added nor changed. *)
Lemma only_new_dirs_files fs fs' k content :
  only_new_dirs fs fs' -> fs' !! k = Some (os.File content) <-> fs !! k = Some (os.File content).
Proof.
  intros H. destruct (H k) as [->|[E1 E2]]; [done|]. rewrite E1, E2. done.
Qed.

Lemma Create_result fs name fs' :
  os.Create fs name = Ok fs' ->
  fs' = <[Clean name := os.File ""]> fs /\ os.Stat fs name <> Some os.Directory.
Proof.
  unfold os.Create. case_bool_decide; [done|].
  destruct (os.Stat fs name) as [[|c]|] eqn:Hs; [done| |];
    destruct (os.Stat fs (Dir (Clean name))) as [[|c']|]; try done;
    intros [= <-]; done.
Qed.

Lemma Stat_insert_file fs name content path :
  name <> "" ->
  os.Stat fs name <> Some os.Directory ->
  os.Stat fs path = Some os.Directory ->
  os.Stat (<[Clean name := os.File content]> fs) path = Some os.Directory.
Proof.
  unfold os.Stat. intros Hn. rewrite (bool_decide_eq_false_2 (name = "")) by done.
  case_bool_decide; [done|].
  destruct (os.implied (Clean path)) eqn:Hi; [done|].
  intros Hname Hpath. destruct (decide (Clean name = Clean path)) as [Heq|Hne].
  - rewrite Heq, Hi in Hname. done.
  - by rewrite lookup_insert_ne.
Qed.

Lemma Create_keeps_dirs fs name fs' path :
  os.Create fs name = Ok fs' ->
  os.Stat fs path = Some os.Directory -> os.Stat fs' path = Some os.Directory.
Proof.
  intros H. pose proof H as [-> Hs]%Create_result.
  apply Stat_insert_file; [|done].
  unfold os.Create in H. by case_bool_decide.
Qed.

Lemma Write_after_Create fs name fs' content path :
  os.Create fs name = Ok fs' ->
  os.Stat fs path = Some os.Directory ->
  os.Stat (os.Write fs' name content) path = Some os.Directory.
Proof.
  intros H. pose proof H as [-> Hs]%Create_result. unfold os.Write.
  rewrite insert_insert_eq. apply Stat_insert_file; [|done].
  unfold os.Create in H. by case_bool_decide.
Qed.

Lemma Write_lookup fs name content :
  os.Write fs name content !! Clean name = Some (os.File content).
Proof. unfold os.Write. apply lookup_insert_eq. Qed.

(** ** The template set of the concrete engine *)

Lemma tree_lookup_set {A} name (a : A) l :
  gotemplate.tree_lookup name (gotemplate.tree_set name a l) = Some a.
Proof.
  unfold gotemplate.tree_set.
  destruct (gotemplate.tree_lookup name l) as [old|] eqn:Hl.
  - unfold gotemplate.tree_lookup in *. induction l as [|[n x] l IH]; [done|].
    simpl in *. case_bool_decide as Hn; simpl.
    + by rewrite bool_decide_eq_true_2.
    + rewrite bool_decide_eq_false_2 by done. by apply IH.
  - unfold gotemplate.tree_lookup in *. induction l as [|[n x] l IH]; simpl.
    + by rewrite bool_decide_eq_true_2.
    + simpl in Hl. case_bool_decide; [done|]. by apply IH.
Qed.


(** ** The lexer and the parser on blocks of plain text *)

Lemma lex_text_byte c acc s :
  byte_eqb c "{" = false ->
  gotemplate.lex false acc (String c s) = gotemplate.lex false (String c acc) s.
Proof. intros Hc. simpl. rewrite Hc. by destruct s. Qed.

Lemma lex_action_byte c acc s :
  byte_eqb c "}" = false ->
  gotemplate.lex true acc (String c s) = gotemplate.lex true (String c acc) s.
Proof. intros Hc. simpl. rewrite Hc. by destruct s. Qed.

Lemma lex_text_run b : forall acc rest,
  plainText b = true ->
  gotemplate.lex false acc (b +:+ "{{" +:+ rest)
  = match gotemplate.lex true "" rest with
    | Ok items =>
        if bool_decide (String.rev_app b acc = "") then Ok items
        else Ok (gotemplate.ItemText (String.rev (String.rev_app b acc)) :: items)
    | Err e => Err e
    end.
Proof.
  induction b as [|c b IH]; intros acc rest Hb.
  - rewrite string_app_nil_l. done.
  - unfold plainText in Hb. simpl in Hb. apply andb_true_iff in Hb as [Hc Hb].
    apply negb_true_iff in Hc. rewrite string_app_cons, lex_text_byte by done.
    by rewrite IH.
Qed.

Lemma lex_action_run a : forall acc rest,
  closedText a = true ->
  gotemplate.lex true acc (a +:+ "}}" +:+ rest)
  = match gotemplate.lex false "" rest with
    | Ok items => Ok (gotemplate.ItemAction (String.rev (String.rev_app a acc)) :: items)
    | Err e => Err e
    end.
Proof.
  induction a as [|c a IH]; intros acc rest Ha.
  - rewrite string_app_nil_l. done.
  - unfold closedText in Ha. simpl in Ha. apply andb_true_iff in Ha as [Hc Ha].
    apply negb_true_iff in Hc. rewrite string_app_cons, lex_action_byte by done.
    by rewrite IH.
Qed.

Lemma list_ascii_app (a b : string) :
  list_ascii_of_string (a +:+ b) = list_ascii_of_string a ++ list_ascii_of_string b.
Proof.
  induction a as [|x a IH]; [done|]. rewrite string_app_cons. simpl. by rewrite IH.
Qed.

Lemma plainName_closed n : plainName n = true -> closedText n = true.
Proof.
  unfold plainName, closedText. induction n as [|c n IH]; [done|]. simpl.
  intros [[[Hc _]%andb_true_iff _]%andb_true_iff Hn]%andb_true_iff.
  by rewrite Hc, IH.
Qed.

Lemma defineText_closed n : plainName n = true -> closedText (defineText n) = true.
Proof.
  intros Hn%plainName_closed. unfold closedText, defineText in *.
  rewrite !list_ascii_app, !forallb_app, Hn. done.
Qed.

Lemma block_unfold n b rest :
  Examples.block n b +:+ rest
  = "" +:+ "{{" +:+ (defineText n +:+ "}}" +:+ (b +:+ "{{" +:+ ("end" +:+ "}}" +:+ rest))).
Proof. unfold Examples.block, defineText. rewrite !string_app_assoc. reflexivity. Qed.

Lemma rev_rev_app a : String.rev (String.rev_app a "") = a.
Proof. apply string_rev_involutive. Qed.

Lemma rev_app_empty b : String.rev_app b "" = "" <-> b = "".
Proof.
  split; [|by intros ->]. intros H. apply (f_equal String.rev) in H.
  by rewrite rev_rev_app in H.
Qed.

Lemma lex_block n b rest :
  plainName n = true -> plainText b = true ->
  gotemplate.lex false "" (Examples.block n b +:+ rest)
  = match gotemplate.lex false "" rest with
    | Ok items =>
        Ok (gotemplate.ItemAction (defineText n) ::
            (if bool_decide (b = "") then [] else [gotemplate.ItemText b]) ++
            gotemplate.ItemAction "end" :: items)
    | Err e => Err e
    end.
Proof.
  intros Hn Hb. rewrite block_unfold.
  rewrite lex_text_run by done.
  rewrite lex_action_run by by apply defineText_closed.
  rewrite lex_text_run by done.
  rewrite lex_action_run by done.
  destruct (gotemplate.lex false "" rest) as [items|e]; [|done].
  rewrite !rev_rev_app. cbn [String.rev_app].
  rewrite (bool_decide_eq_true_2 (@eq string "" "")) by done.
  destruct (decide (b = "")) as [->|Hne].
  - cbn [String.rev_app]. by rewrite !bool_decide_eq_true_2.
  - rewrite (bool_decide_eq_false_2 (b = "")) by done.
    rewrite (bool_decide_eq_false_2 (String.rev_app b "" = "")) by (by rewrite rev_app_empty).
    done.
Qed.

Lemma quotedBody_plain n after :
  plainName n = true ->
  gotemplate.quotedBody (n +:+ gotemplate.quote +:+ after) = Some (n, after).
Proof.
  unfold plainName. induction n as [|c n IH]; [done|]. simpl.
  intros [[[_ Hq%negb_true_iff]%andb_true_iff Hb%negb_true_iff]%andb_true_iff Hn]%andb_true_iff.
  by rewrite Hq, Hb, IH.
Qed.

Lemma parseAction_define fm n :
  plainName n = true ->
  gotemplate.parseAction fm (defineText n) = Ok (gotemplate.ADefine n).
Proof.
  intros Hn. unfold gotemplate.parseAction.
  assert (Hs : solid (defineText n) = true).
  { unfold solid, defineText. rewrite !string_rev_app. done. }
  rewrite (TrimSpace_solid _ Hs).
  rewrite bool_decide_eq_false_2 by (unfold defineText; rewrite string_app_cons; congruence).
  unfold gotemplate.keyword.
  replace (String.prefix ("define" +:+ " ") (defineText n)) with true by done.
  replace (string_drop (String.length "define") (defineText n))
    with (" " +:+ (gotemplate.quote +:+ n +:+ gotemplate.quote) +:+ "") 
    by (by rewrite string_app_nil_r).
  rewrite TrimSpace_strip; [| done | done |].
  2:{ unfold solid. rewrite !string_rev_app. done. }
  unfold gotemplate.quoted.
  change (gotemplate.quote +:+ n +:+ gotemplate.quote)
    with (String "034" (n +:+ gotemplate.quote +:+ "")).
  cbn [byte_eqb Ascii.eqb Bool.eqb]. cbv iota.
  by rewrite quotedBody_plain.
Qed.

Lemma parseAction_end fm : gotemplate.parseAction fm "end" = Ok gotemplate.AEnd.
Proof. reflexivity. Qed.

Lemma IsEmptyTree_textBody b :
  gotemplate.IsEmptyTree (textBody b) = bool_decide (strings.TrimSpace b = "").
Proof.
  unfold textBody. case_bool_decide as Hb.
  - subst b. done.
  - simpl. by rewrite andb_true_r.
Qed.

Lemma textBody_not_blank b : strings.TrimSpace b <> "" -> textBody b = [gotemplate.TextNode b].
Proof.
  intros H. unfold textBody. rewrite bool_decide_eq_false_2; [done|]. by intros ->.
Qed.

Lemma parseItems_block fm name n b rest top ts :
  plainName n = true ->
  gotemplate.parseItems fm name
    (gotemplate.ItemAction (defineText n) ::
     (if bool_decide (b = "") then [] else [gotemplate.ItemText b]) ++
     gotemplate.ItemAction "end" :: rest) None top ts
  = match gotemplate.add n (textBody b) ts with
    | Ok ts' => gotemplate.parseItems fm name rest None top ts'
    | Err e => Err e
    end.
Proof.
  intros Hn. cbn [gotemplate.parseItems]. rewrite parseAction_define by done.
  unfold textBody. case_bool_decide; cbn [app gotemplate.parseItems];
    rewrite parseAction_end; done.
Qed.

Lemma tree_lookup_one {A} n m (a : A) :
  gotemplate.tree_lookup n [(m, a)] = if bool_decide (m = n) then Some a else None.
Proof. unfold gotemplate.tree_lookup. simpl. by case_bool_decide. Qed.

Lemma add_first n body : gotemplate.add n body [] = Ok [(n, body)].
Proof. reflexivity. Qed.

(** One text that gives a name two bodies that are not blank does not
    parse. *)
Lemma Parse_twice fm name n b1 b2 rest :
  plainName n = true -> plainText b1 = true -> plainText b2 = true ->
  strings.TrimSpace b1 <> "" -> strings.TrimSpace b2 <> "" ->
  exists e, gotemplate.Parse fm name (Examples.block n b1 +:+ Examples.block n b2 +:+ rest)
            = Err e.
Proof.
  intros Hn H1 H2 N1 N2. unfold gotemplate.Parse.
  rewrite !lex_block by done.
  destruct (gotemplate.lex false "" rest) as [items|e]; [|by eexists].
  rewrite parseItems_block, add_first by done.
  rewrite parseItems_block by done.
  unfold gotemplate.add. rewrite tree_lookup_one, bool_decide_eq_true_2 by done.
  rewrite !IsEmptyTree_textBody, !bool_decide_eq_false_2 by done.
  by eexists.
Qed.

Lemma tree_lookup_set_ne {A} n m (a : A) l :
  m <> n -> gotemplate.tree_lookup n (gotemplate.tree_set m a l) = gotemplate.tree_lookup n l.
Proof.
  intros Hne. unfold gotemplate.tree_set.
  destruct (gotemplate.tree_lookup m l) as [x|] eqn:Hm.
  - clear Hm. unfold gotemplate.tree_lookup. f_equal.
    induction l as [|[k v] l IH]; [done|]. simpl.
    destruct (decide (k = m)) as [->|Hk].
    + rewrite (bool_decide_eq_true_2 (m = m)) by done. simpl.
      rewrite !bool_decide_eq_false_2 by done. exact IH.
    + rewrite (bool_decide_eq_false_2 (k = m)) by done. simpl.
      case_bool_decide; [done | exact IH].
  - clear Hm. unfold gotemplate.tree_lookup. f_equal.
    induction l as [|[k v] l IH]; simpl.
    + by rewrite bool_decide_eq_false_2.
    + by case_bool_decide.
Qed.

Lemma associate_lookup set n old body :
  gotemplate.tree_lookup n set = Some (Some old) ->
  gotemplate.tree_lookup n (gotemplate.associate set n body)
  = Some (Some (if gotemplate.IsEmptyTree body then old else body)).
Proof.
  intros H. unfold gotemplate.associate. rewrite H.
  destruct (gotemplate.IsEmptyTree body); [done | apply tree_lookup_set].
Qed.

Lemma associate_lookup_ne set n m body :
  m <> n ->
  gotemplate.tree_lookup n (gotemplate.associate set m body) = gotemplate.tree_lookup n set.
Proof.
  intros Hne. unfold gotemplate.associate.
  destruct (gotemplate.tree_lookup m set) as [[x|]|];
    [destruct (gotemplate.IsEmptyTree body); [done|] | |]; by apply tree_lookup_set_ne.
Qed.

(** A text that is one block of plain text parses; merged into a set that
    has the name, it replaces the tree of the name unless its body is
    blank. *)
Lemma Parse_block fm name n b :
  plainName n = true -> plainText b = true ->
  exists ts,
    gotemplate.Parse fm name (Examples.block n b) = Ok ts /\
    forall set old,
      gotemplate.tree_lookup n set = Some (Some old) ->
      gotemplate.tree_lookup n (fold_left (fun set p => gotemplate.associate set p.1 p.2) ts set)
      = Some (Some (if bool_decide (strings.TrimSpace b = "") then old
                    else [gotemplate.TextNode b])).
Proof.
  intros Hn Hb. unfold gotemplate.Parse.
  rewrite <- (string_app_nil_r (Examples.block n b)), lex_block by done.
  change (gotemplate.lex false "" "") with (@Ok (list gotemplate.item) []). cbv iota beta.
  rewrite parseItems_block, add_first by done.
  cbn [gotemplate.parseItems rev]. unfold gotemplate.add. rewrite tree_lookup_one.
  pose proof (IsEmptyTree_textBody b) as He.
  destruct (decide (n = name)) as [->|Hne].
  - rewrite bool_decide_eq_true_2 by done. rewrite He. case_bool_decide as Hblank.
    + eexists. split; [done|]. intros set old Hl.
      unfold gotemplate.tree_set. rewrite tree_lookup_one, bool_decide_eq_true_2 by done.
      cbn [map]. rewrite bool_decide_eq_true_2 by done. cbn [fold_left fst snd].
      by rewrite (associate_lookup _ _ old).
    + cbn [gotemplate.IsEmptyTree forallb]. eexists. split; [done|]. intros set old Hl.
      cbn [fold_left fst snd]. rewrite (associate_lookup _ _ old) by done.
      rewrite He. by rewrite textBody_not_blank.
  - rewrite bool_decide_eq_false_2 by done.
    unfold gotemplate.tree_set. rewrite tree_lookup_one, bool_decide_eq_false_2 by done.
    cbn [app]. eexists. split; [done|]. intros set old Hl. cbn [fold_left fst snd].
    rewrite associate_lookup_ne by done. rewrite (associate_lookup _ _ old) by done.
    rewrite He. case_bool_decide; [done|]. by rewrite textBody_not_blank.
Qed.

Lemma parseFiles_app fs l1 : forall t l2,
  gotemplate.parseFiles fs t (l1 ++ l2)
  = match gotemplate.parseFiles fs t l1 with
    | Ok t1 => gotemplate.parseFiles fs t1 l2
    | Err e => Err e
    end.
Proof.
  induction l1 as [|f l1 IH]; intros t l2; [done|]. simpl.
  destruct (os.ReadFile fs f); [|done].
  destruct (gotemplate.Parse _ _ _); [|done]. apply IH.
Qed.

(** On the concrete engine the set of a render is the shared set with the
    page parsed into it. *)
Lemma parsed_shared clock globs page w :
  parsed (engine := gotemplate.engine) clock globs page w
  = match sharedSet clock globs w with
    | Ok t0 => gotemplate.parseFiles (files w) t0 [page]
    | Err e => Err e
    end.
Proof.
  unfold parsed, sharedSet, templateFiles. fold (sharedFiles (files w) globs).
  cbn [template.ParseFiles gotemplate.engine]. unfold gotemplate.ParseFiles.
  rewrite <- parseFiles_app. by destruct (sharedFiles (files w) globs).
Qed.

Lemma ExecuteTemplate_text t n b data k :
  gotemplate.tree_lookup n (gotemplate.tmpl t) = Some (Some [gotemplate.TextNode b]) ->
  gotemplate.ExecuteTemplate t n data k = (b, None, k).
Proof.
  intros H. unfold gotemplate.ExecuteTemplate. rewrite H.
  cbn [gotemplate.escapeTemplate]. rewrite bool_decide_eq_false_2 by apply not_elem_of_nil.
  rewrite H. cbn [fold_left]. cbn [gotemplate.walkTemplate]. rewrite H.
  by rewrite string_app_nil_r.
Qed.

(** ** [renderOne], step by step *)

Section Claims.

Context {engine : template.Engine} {quoting : strconv.Quoting}.
Variable zoneinfo : list string.
Variable clock : time.Clock.

Lemma chooseLayout_frame (t : template.Template) (w : World) :
  files (snd (chooseLayout t w)) = files w /\ logged (snd (chooseLayout t w)) = logged w.
Proof.
  unfold chooseLayout, execute. destruct (template.Lookup t "layout_name"); [|done].
  destruct (template.ExecuteTemplate _ _ _ _) as [[b [e|]] k]; done.
Qed.

Lemma renderOne_parse_error srcDir outDir globs page ts w e :
  parsed clock globs page w = Err e ->
  renderOne clock srcDir outDir globs page ts w = (w, Some e).
Proof. unfold parsed, renderOne. by intros ->. Qed.

Lemma renderOne_rel_error srcDir outDir globs page ts w t e :
  parsed clock globs page w = Ok t ->
  filepath.Rel (filepath.Join [srcDir; "pages"]) page = Err e ->
  renderOne clock srcDir outDir globs page ts w = (resolved t w, Some e).
Proof.
  unfold parsed, renderOne, resolved. intros -> ->.
  by destruct (chooseLayout t w).
Qed.

(** A render that gets as far as the final pass: the file holds what the
    layout wrote, and an error of the pass comes back wrapped. *)
Lemma renderOne_executes srcDir outDir globs page ts w t rel fs1 fs2 :
  parsed clock globs page w = Ok t ->
  filepath.Rel (filepath.Join [srcDir; "pages"]) page = Ok rel ->
  os.MkdirAll (files w) (filepath.Dir (outputPath outDir rel)) = Ok fs1 ->
  os.Create fs1 (outputPath outDir rel) = Ok fs2 ->
  files (fst (renderOne clock srcDir outDir globs page ts w))
    = os.Write fs2 (outputPath outDir rel) (fst (fst (finalPass clock ts t w))) /\
  snd (renderOne clock srcDir outDir globs page ts w)
    = match snd (fst (finalPass clock ts t w)) with
      | Some err =>
          Some (Wrapped (page +:+ ": executing layout " +:+ strconv.Quote (layoutOf t w)
                         +:+ ": " +:+ Error err) err)
      | None => None
      end.
Proof.
  unfold parsed, renderOne, outputPath, finalPass, renderData, layoutOf, resolved.
  intros -> -> Hmk Hcr.
  pose proof (chooseLayout_frame t w) as [Hfiles _].
  destruct (chooseLayout t w) as [layout w1]. simpl in *.
  rewrite Hfiles, Hmk. simpl. rewrite Hcr. unfold execute. simpl.
  destruct (template.ExecuteTemplate _ _ _ _) as [[written [err|]] k]; simpl; done.
Qed.

(** The four cases of the layout resolution. *)
Lemma chooseLayout_cases (t : template.Template) (w : World) :
  (template.Lookup t "layout_name" = false -> layoutOf t w = "public") /\
  (forall b k, template.Lookup t "layout_name" = true ->
               template.ExecuteTemplate t "layout_name" None (ticks w) = (b, None, k) ->
               strings.TrimSpace b <> "" -> layoutOf t w = strings.TrimSpace b) /\
  (forall b k, template.Lookup t "layout_name" = true ->
               template.ExecuteTemplate t "layout_name" None (ticks w) = (b, None, k) ->
               strings.TrimSpace b = "" -> layoutOf t w = "public") /\
  (forall b e k, template.Lookup t "layout_name" = true ->
                 template.ExecuteTemplate t "layout_name" None (ticks w) = (b, Some e, k) ->
                 layoutOf t w = "public").
Proof.
  unfold layoutOf, chooseLayout, execute. repeat split.
  - by intros ->.
  - intros b k -> -> Hb. simpl. by rewrite bool_decide_eq_true_2.
  - intros b k -> -> Hb. simpl. rewrite bool_decide_eq_false_2; [done | by intros []].
  - by intros b e k -> ->.
Qed.

(** Without an override block the layout is chosen without a reading. *)
Lemma chooseLayout_absent (t : template.Template) (w : World) :
  template.Lookup t "layout_name" = false -> chooseLayout t w = ("public", w).
Proof. unfold chooseLayout. by intros ->. Qed.

Lemma renderOne_keeps_dirs srcDir outDir globs page ts w path :
  os.Stat (files w) path = Some os.Directory ->
  os.Stat (files (fst (renderOne clock srcDir outDir globs page ts w))) path
  = Some os.Directory.
Proof.
  intros Hd. unfold renderOne.
  destruct (template.ParseFiles _ _ _) as [t|e]; [|done].
  pose proof (chooseLayout_frame t w) as [Hfiles _].
  destruct (chooseLayout t w) as [layout w1]. simpl in Hfiles.
  rewrite <- Hfiles in Hd.
  destruct (filepath.Rel _ _) as [rel|e]; [|done]. simpl.
  destruct (os.MkdirAll _ _) as [fs1|e] eqn:Hmk; [|done]. simpl.
  apply MkdirAll_frame in Hmk.
  pose proof (Stat_only_new_dirs _ _ _ Hmk Hd) as Hd1.
  destruct (os.Create _ _) as [fs2|e] eqn:Hcr; [|done]. unfold execute. simpl.
  destruct (template.ExecuteTemplate _ _ _ _) as [[written [err|]] k]; simpl;
    by eapply Write_after_Create.
Qed.

Lemma renderPages_keeps_dirs srcDir outDir globs pages ts path : forall w,
  os.Stat (files w) path = Some os.Directory ->
  os.Stat (files (fst (renderPages clock srcDir outDir globs pages ts w))) path
  = Some os.Directory.
Proof.
  induction pages as [|page rest IH]; intros w Hd; [done|]. simpl.
  pose proof (renderOne_keeps_dirs srcDir outDir globs page ts w path Hd) as H1.
  destruct (renderOne _ _ _ _ _ _ _) as [w' [err|]]; simpl in *; [done|].
  by apply IH.
Qed.

(** C1 (layout resolution).  For every template set [t] a render builds,
    the layout it goes on with, [layoutOf], is [public] when [t] has no
    block [layout_name]; it is the trimmed text of that block when the
    block executes without error on no data to a text that is not blank; it
    is [public] again when that text is blank or the execution fails.  A
    failure of the override block is not an error of the render: where the
    output path is resolved and the file created, the file holds what the
    final pass over that layout wrote, and when the final pass succeeds
    [renderOne] returns no error. *)
Theorem layout_resolution srcDir outDir globs page ts w t :
  parsed clock globs page w = Ok t ->
  (template.Lookup t "layout_name" = false -> layoutOf t w = "public") /\
  (forall b k, template.Lookup t "layout_name" = true ->
               template.ExecuteTemplate t "layout_name" None (ticks w) = (b, None, k) ->
               strings.TrimSpace b <> "" -> layoutOf t w = strings.TrimSpace b) /\
  (forall b k, template.Lookup t "layout_name" = true ->
               template.ExecuteTemplate t "layout_name" None (ticks w) = (b, None, k) ->
               strings.TrimSpace b = "" -> layoutOf t w = "public") /\
  (forall b e k, template.Lookup t "layout_name" = true ->
                 template.ExecuteTemplate t "layout_name" None (ticks w) = (b, Some e, k) ->
                 layoutOf t w = "public") /\
  (forall rel fs1 fs2,
     filepath.Rel (filepath.Join [srcDir; "pages"]) page = Ok rel ->
     os.MkdirAll (files w) (filepath.Dir (outputPath outDir rel)) = Ok fs1 ->
     os.Create fs1 (outputPath outDir rel) = Ok fs2 ->
     files (fst (renderOne clock srcDir outDir globs page ts w))
       = os.Write fs2 (outputPath outDir rel) (fst (fst (finalPass clock ts t w))) /\
     (snd (fst (finalPass clock ts t w)) = None ->
      snd (renderOne clock srcDir outDir globs page ts w) = None)).
Proof.
  intros Hp.
  destruct (chooseLayout_cases t w) as (H1 & H2 & H3 & H4).
  split; [exact H1|]. split; [exact H2|]. split; [exact H3|]. split; [exact H4|].
  intros rel fs1 fs2 Hrel Hmk Hcr.
  destruct (renderOne_executes srcDir outDir globs page ts w t rel fs1 fs2
              Hp Hrel Hmk Hcr) as [Hf He].
  split; [exact Hf|]. intros Hnone. rewrite He. by rewrite Hnone.
Qed.

(** C2 (output path).  A page file below the pages root, [names] being its
    elements below [<src>/pages] and the last of them ending in
    [.template.html], in a set without a block [layout_name]: [filepath.Rel]
    gives the path of the page below the root, and after the render the
    path made of the output root and that relative path, its suffix
    replaced by [.html], holds what the layout [public] wrote. *)
Theorem output_path_mirrors_page srcDir outDir globs names stem ts w t fs1 fs2 :
  names <> [] -> Forall plain names ->
  join_sep names = stem +:+ ".template.html" ->
  parsed clock globs (filepath.Join [srcDir; "pages"] +:+ "/" +:+ join_sep names) w = Ok t ->
  template.Lookup t "layout_name" = false ->
  os.MkdirAll (files w) (filepath.Dir (filepath.Join [outDir; stem +:+ ".html"])) = Ok fs1 ->
  os.Create fs1 (filepath.Join [outDir; stem +:+ ".html"]) = Ok fs2 ->
  filepath.Rel (filepath.Join [srcDir; "pages"])
               (filepath.Join [srcDir; "pages"] +:+ "/" +:+ join_sep names)
    = Ok (join_sep names) /\
  files (fst (renderOne clock srcDir outDir globs
                (filepath.Join [srcDir; "pages"] +:+ "/" +:+ join_sep names) ts w))
    !! filepath.Join [outDir; stem +:+ ".html"]
  = Some (os.File (fst (fst (template.ExecuteTemplate t "public"
                               (Some (renderData clock ts (ticks w))) (S (ticks w)))))).
Proof.
  intros Hn Hplain Hstem Hp Hlook Hmk Hcr.
  assert (Hrel : filepath.Rel (filepath.Join [srcDir; "pages"])
                   (filepath.Join [srcDir; "pages"] +:+ "/" +:+ join_sep names)
                 = Ok (join_sep names)).
  { pose proof (Rel_descendant (filepath.Join [srcDir; "pages"]) names Hn Hplain) as H.
    by rewrite Join_two_fixed in H. }
  split; [exact Hrel|].
  assert (Hout : outputPath outDir (join_sep names)
                 = filepath.Join [outDir; stem +:+ ".html"]).
  { unfold outputPath. by rewrite Hstem, TrimSuffix_app. }
  rewrite <- Hout in Hmk, Hcr.
  destruct (renderOne_executes srcDir outDir globs _ ts w t _ fs1 fs2
              Hp Hrel Hmk Hcr) as [Hf _].
  rewrite Hf. unfold finalPass, layoutOf, resolved.
  rewrite (chooseLayout_absent t w Hlook). simpl.
  rewrite Hout.
  match goal with
  | |- os.Write _ ?p ?x !! _ = _ => pose proof (Write_lookup fs2 p x) as HW
  end.
  rewrite Join_two_fixed in HW; [exact HW|].
  intros H. apply (f_equal String.length) in H.
  rewrite string_length_app in H. simpl in H. lia.
Qed.

(** C4 (path resolution), as amended.  The only check [renderOne] makes on
    the page path is the error of [filepath.Rel].  Whenever [Rel] fails,
    whatever the reason, [renderOne] returns that error, whose message
    names the two paths, and leaves the tree and the log as they were; [Rel]
    fails in particular when exactly one of the page path and the pages
    root is rooted.  Whenever [Rel] succeeds, with or without leading [..]
    elements in its result, the render is not refused: the output path is
    derived from that result, and where its directory and the file can be
    created the file holds what the final pass wrote.  A path beside the
    pages root, [names] below the source directory, is such a case: [Rel]
    gives [../names]. *)
Theorem path_resolution_error srcDir outDir globs page ts w t :
  parsed clock globs page w = Ok t ->
  (forall e,
     filepath.Rel (filepath.Join [srcDir; "pages"]) page = Err e ->
     e = ErrMsg ("Rel: can't make " +:+ page +:+ " relative to " +:+
                 filepath.Join [srcDir; "pages"]) /\
     snd (renderOne clock srcDir outDir globs page ts w) = Some e /\
     files (fst (renderOne clock srcDir outDir globs page ts w)) = files w /\
     logged (fst (renderOne clock srcDir outDir globs page ts w)) = logged w) /\
  (rooted (Clean page) = negb (rooted (Clean (filepath.Join [srcDir; "pages"]))) ->
   filepath.Rel (filepath.Join [srcDir; "pages"]) page
   = Err (ErrMsg ("Rel: can't make " +:+ page +:+ " relative to " +:+
                  filepath.Join [srcDir; "pages"]))) /\
  (forall rel fs1 fs2,
     filepath.Rel (filepath.Join [srcDir; "pages"]) page = Ok rel ->
     os.MkdirAll (files w) (filepath.Dir (outputPath outDir rel)) = Ok fs1 ->
     os.Create fs1 (outputPath outDir rel) = Ok fs2 ->
     files (fst (renderOne clock srcDir outDir globs page ts w))
       = os.Write fs2 (outputPath outDir rel) (fst (fst (finalPass clock ts t w))) /\
     (snd (fst (finalPass clock ts t w)) = None ->
      snd (renderOne clock srcDir outDir globs page ts w) = None)) /\
  (forall names,
     names <> [] -> Forall plain names -> head names <> Some "pages" ->
     filepath.Rel (filepath.Join [srcDir; "pages"]) (filepath.Join [srcDir; join_sep names])
     = Ok ("../" +:+ join_sep names)).
Proof.
  intros Hp. split; [|split; [|split]].
  - intros e Hrel.
    rewrite (renderOne_rel_error srcDir outDir globs page ts w t e Hp Hrel).
    split; [by apply Rel_error in Hrel|]. split; [done|]. apply chooseLayout_frame.
  - apply Rel_mixed.
  - intros rel fs1 fs2 Hrel Hmk Hcr.
    destruct (renderOne_executes srcDir outDir globs page ts w t rel fs1 fs2
                Hp Hrel Hmk Hcr) as [Hf He].
    split; [exact Hf|]. intros Hnone. rewrite He. by rewrite Hnone.
  - apply Rel_beside.
Qed.

(** C8 (fatal layout execution).  When the final pass over the chosen
    layout fails, [renderOne] returns an error whose message is the page
    file path, the words [executing layout], the layout name as [%q]
    prints it, and the message of the cause, which stays reachable for
    [errors.As]. *)
Theorem layout_failure_names_page_and_layout
        srcDir outDir globs page ts w t rel fs1 fs2 written err k :
  parsed clock globs page w = Ok t ->
  filepath.Rel (filepath.Join [srcDir; "pages"]) page = Ok rel ->
  os.MkdirAll (files w) (filepath.Dir (outputPath outDir rel)) = Ok fs1 ->
  os.Create fs1 (outputPath outDir rel) = Ok fs2 ->
  finalPass clock ts t w = (written, Some err, k) ->
  exists e,
    snd (renderOne clock srcDir outDir globs page ts w) = Some e /\
    Error e = page +:+ ": executing layout " +:+ strconv.Quote (layoutOf t w) +:+
              ": " +:+ Error err /\
    AsPathError e = AsPathError err.
Proof.
  intros Hp Hrel Hmk Hcr Hex.
  destruct (renderOne_executes srcDir outDir globs page ts w t rel fs1 fs2
              Hp Hrel Hmk Hcr) as [_ He].
  rewrite Hex in He. simpl in He. eexists. split; [exact He|]. done.
Qed.

(** C9 (suffix edge case).  For a page whose relative path does not end in
    [.template.html] the output name is that path with [.html] appended,
    and the rendered file is written there.  [TrimSuffix] is total: it
    removes the suffix where it is present and returns its argument where
    it is not. *)
Theorem suffix_absent_appends srcDir outDir globs page ts w t rel fs1 fs2 :
  parsed clock globs page w = Ok t ->
  filepath.Rel (filepath.Join [srcDir; "pages"]) page = Ok rel ->
  strings.HasSuffix rel ".template.html" = false ->
  os.MkdirAll (files w) (filepath.Dir (filepath.Join [outDir; rel +:+ ".html"])) = Ok fs1 ->
  os.Create fs1 (filepath.Join [outDir; rel +:+ ".html"]) = Ok fs2 ->
  strings.TrimSuffix rel ".template.html" +:+ ".html" = rel +:+ ".html" /\
  files (fst (renderOne clock srcDir outDir globs page ts w))
    !! filepath.Join [outDir; rel +:+ ".html"]
  = Some (os.File (fst (fst (finalPass clock ts t w)))) /\
  (forall s, strings.HasSuffix s ".template.html" = true ->
             s = strings.TrimSuffix s ".template.html" +:+ ".template.html") /\
  (forall s, strings.HasSuffix s ".template.html" = false ->
             strings.TrimSuffix s ".template.html" = s).
Proof.
  intros Hp Hrel Hs Hmk Hcr.
  assert (Hout : outputPath outDir rel = filepath.Join [outDir; rel +:+ ".html"]).
  { unfold outputPath. by rewrite TrimSuffix_absent. }
  rewrite <- Hout in Hmk, Hcr.
  destruct (renderOne_executes srcDir outDir globs page ts w t rel fs1 fs2
              Hp Hrel Hmk Hcr) as [Hf _].
  split; [|split; [|split]].
  - by rewrite TrimSuffix_absent.
  - rewrite Hf, Hout.
    match goal with
    | |- os.Write _ ?p ?x !! _ = _ => pose proof (Write_lookup fs2 p x) as HW
    end.
    rewrite Join_two_fixed in HW; [exact HW|].
    intros H. apply (f_equal String.length) in H.
    rewrite string_length_app in H. simpl in H. lia.
  - intros s. apply HasSuffix_true.
  - intros s. apply TrimSuffix_absent.
Qed.

Lemma LoadLocation_installed name :
  name ∈ zoneinfo -> exists l, time.LoadLocation zoneinfo name = Ok l.
Proof.
  intros H. unfold time.LoadLocation.
  destruct (_ || _); [by eexists|]. destruct (bool_decide (name = "Local")); [by eexists|].
  rewrite bool_decide_eq_true_2 by done. by eexists.
Qed.

(** [main] up to discovery. *)
Lemma main_discovery args w fs1 :
  "America/Chicago" ∈ zoneinfo ->
  os.MkdirAll (files w) (outDirOf args) = Ok fs1 ->
  main zoneinfo clock args w
  = let w1 := set_files fs1 (started clock args w) in
    match filepath.Glob fs1 (pagePatternOf args) with
    | (_, Some err) => fatal w1 err
    | (pageFiles, None) =>
        if Nat.eqb (length pageFiles) 0
        then fatal w1 (ErrMsg ("no page templates found: " +:+ pagePatternOf args))
        else
          match renderPages clock (srcDirOf args) (outDirOf args) (includesGlobsOf args)
                  pageFiles (buildTimestampOf clock args w)
                  (log_Printf ("Found " +:+ strconv.Itoa (Z.of_nat (length pageFiles))
                               +:+ " page template(s) to render") w1) with
          | (w2, Some err) => fatal w2 err
          | (w2, None) =>
              {| final := log_Printf "Static site generation completed successfully" w2;
                 stderr := ""; status := 0 |}
          end
    end.
Proof.
  intros [l Hz]%LoadLocation_installed Hmk. unfold main. rewrite Hz. simpl.
  unfold outDirOf in Hmk. rewrite Hmk. reflexivity.
Qed.

(** C7 (empty discovery).  A run that reaches page discovery and whose
    pattern matches no file ends with status 1 and the message
    [no page templates found: <pattern>]; nothing has been rendered (the
    state is the one left by startup) and the regular files of the tree are
    exactly those it had at the start. *)
Theorem empty_discovery_aborts args w fs1 :
  "America/Chicago" ∈ zoneinfo ->
  os.MkdirAll (files w) (outDirOf args) = Ok fs1 ->
  filepath.Glob fs1 (pagePatternOf args) = ([], None) ->
  status (main zoneinfo clock args w) = 1%Z /\
  stderr (main zoneinfo clock args w)
  = "no page templates found: " +:+ pagePatternOf args +:+ newline /\
  final (main zoneinfo clock args w) = set_files fs1 (started clock args w) /\
  (forall k content,
     files (final (main zoneinfo clock args w)) !! k = Some (os.File content)
     <-> files w !! k = Some (os.File content)).
Proof.
  intros Hz Hmk Hg. rewrite (main_discovery args w fs1 Hz Hmk). simpl. rewrite Hg. simpl.
  split; [done|]. split; [done|]. split; [done|].
  intros k content. apply only_new_dirs_files. by eapply MkdirAll_frame.
Qed.

(** C10 (output root at startup), as amended.  In a run that gets past the
    load of the time zone and whose [MkdirAll] of the output root succeeds
    with the tree [fs1]: the output root is a directory of [fs1], which
    differs from the initial tree by new directories only; [fs1] is the
    tree that discovery reads and from which the first render starts; and
    the output root is still a directory when the run ends, also when it
    ends with a Discovery error, in which case the final tree is [fs1]. *)
Theorem output_root_created_at_startup args w fs1 :
  "America/Chicago" ∈ zoneinfo ->
  os.MkdirAll (files w) (outDirOf args) = Ok fs1 ->
  os.Stat fs1 (outDirOf args) = Some os.Directory /\
  only_new_dirs (files w) fs1 /\
  os.Stat (files (final (main zoneinfo clock args w))) (outDirOf args)
  = Some os.Directory /\
  (filepath.Glob fs1 (pagePatternOf args) = ([], None) ->
   files (final (main zoneinfo clock args w)) = fs1) /\
  (forall pageFiles,
     filepath.Glob fs1 (pagePatternOf args) = (pageFiles, None) -> pageFiles <> [] ->
     exists w1,
       files w1 = fs1 /\
       final (main zoneinfo clock args w)
       = match renderPages clock (srcDirOf args) (outDirOf args) (includesGlobsOf args)
                 pageFiles (buildTimestampOf clock args w) w1 with
         | (w2, Some _) => w2
         | (w2, None) => log_Printf "Static site generation completed successfully" w2
         end).
Proof.
  intros Hz Hmk. pose proof (MkdirAll_dir _ _ _ Hmk) as Hdir.
  split; [exact Hdir|]. split; [by apply MkdirAll_frame in Hmk|].
  rewrite (main_discovery args w fs1 Hz Hmk). cbv zeta.
  destruct (filepath.Glob fs1 (pagePatternOf args)) as [pageFiles [err|]] eqn:Hg.
  { split; [done|]. split; done. }
  - destruct pageFiles as [|page rest].
    + split; [done|]. split; [done|]. by intros ? [= <-].
    + remember (page :: rest) as pf eqn:Hpf.
      replace (Nat.eqb (length pf) 0) with false by (by subst pf).
      match goal with
      | |- context [renderPages ?c ?s ?o ?g pf ?t ?w0] =>
          pose proof (renderPages_keeps_dirs s o g pf t (outDirOf args) w0 Hdir) as Hk;
          destruct (renderPages c s o g pf t w0) as [w2 [err|]] eqn:Hr
      end.
      * split; [exact Hk|]. split; [intros [= E]; by rewrite E in Hpf|].
        intros pf' [= <-] _. eexists. split; [|by rewrite Hr]. done.
      * split; [exact Hk|]. split; [intros [= E]; by rewrite E in Hpf|].
        intros pf' [= <-] _. eexists. split; [|by rewrite Hr]. done.
Qed.

End Claims.


(** ** Runs, step by step *)

Section Runs.

Context {engine : template.Engine} {quoting : strconv.Quoting}.
Variable zoneinfo : list string.
Variable clock : time.Clock.

(** [renderOne] once the set is built and the path resolved. *)
Lemma renderOne_steps srcDir outDir globs page ts w t rel :
  parsed clock globs page w = Ok t ->
  filepath.Rel (filepath.Join [srcDir; "pages"]) page = Ok rel ->
  renderOne clock srcDir outDir globs page ts w
  = let outPath := outputPath outDir rel in
    let w1 := log_Printf (renderingLine page outPath (layoutOf t w)) (resolved t w) in
    match os.MkdirAll (files w) (filepath.Dir outPath) with
    | Err e => (w1, Some e)
    | Ok fs1 =>
        match os.Create fs1 outPath with
        | Err e => (set_files fs1 w1, Some e)
        | Ok fs2 =>
            let w3 := {| files := os.Write fs2 outPath (fst (fst (finalPass clock ts t w)));
                         ticks := snd (finalPass clock ts t w);
                         logged := logged w1 |} in
            match snd (fst (finalPass clock ts t w)) with
            | Some err =>
                (w3, Some (Wrapped (page +:+ ": executing layout " +:+
                                    strconv.Quote (layoutOf t w) +:+ ": " +:+ Error err) err))
            | None => (log_Printf (wroteLine outPath) w3, None)
            end
        end
    end.
Proof.
  unfold parsed, renderOne, outputPath, finalPass, renderData, layoutOf, resolved,
    renderingLine, wroteLine.
  intros -> ->.
  pose proof (chooseLayout_frame t w) as [Hfiles Hlog].
  destruct (chooseLayout t w) as [layout w1]. simpl in *.
  rewrite Hfiles.
  destruct (os.MkdirAll _ _) as [fs1|e]; [|done]. simpl.
  destruct (os.Create _ _) as [fs2|e]; [|done]. unfold execute. simpl.
  destruct (template.ExecuteTemplate _ _ _ _) as [[written [err|]] k]; simpl; done.
Qed.

(** [main], step by step. *)
Lemma main_steps args w :
  main zoneinfo clock args w
  = match time.LoadLocation zoneinfo "America/Chicago" with
    | Err err => fatal w err
    | Ok _ =>
        match os.MkdirAll (files w) (outDirOf args) with
        | Err err => fatal (started clock args w) err
        | Ok fs1 =>
            let w1 := set_files fs1 (started clock args w) in
            match filepath.Glob fs1 (pagePatternOf args) with
            | (_, Some err) => fatal w1 err
            | (pageFiles, None) =>
                if Nat.eqb (length pageFiles) 0
                then fatal w1 (ErrMsg ("no page templates found: " +:+ pagePatternOf args))
                else
                  match renderPages clock (srcDirOf args) (outDirOf args)
                          (includesGlobsOf args) pageFiles (buildTimestampOf clock args w)
                          (log_Printf (foundLine (length pageFiles)) w1) with
                  | (w2, Some err) => fatal w2 err
                  | (w2, None) =>
                      {| final := log_Printf completedLine w2; stderr := ""; status := 0 |}
                  end
            end
        end
    end.
Proof.
  unfold main. destruct (time.LoadLocation _ _); [|done]. simpl.
  unfold outDirOf. destruct (os.MkdirAll _ _); reflexivity.
Qed.

End Runs.

Lemma same_text_spec c1 c2 a b :
  same_text c1 c2 a b = true <->
  forall j, a <= j < b -> time.RFC3339 (c1 j) = time.RFC3339 (c2 j).
Proof.
  unfold same_text. rewrite forallb_forall. split.
  - intros H j Hj. apply String.eqb_eq, H, in_seq. lia.
  - intros H j Hj%in_seq. apply String.eqb_eq, H. lia.
Qed.

Section Clocks.

Context {engine : template.Engine} {quoting : strconv.Quoting}.
Variable zoneinfo : list string.
Variables c1 c2 : time.Clock.
Hypothesis Hengine : calls_only engine.

Lemma parsed_clocks globs page w :
  match parsed c1 globs page w, parsed c2 globs page w with
  | Ok t1, Ok t2 =>
      forall name data k,
        template.Lookup t2 name = template.Lookup t1 name /\
        k <= snd (template.ExecuteTemplate t1 name data k) /\
        (same_text c1 c2 k (snd (template.ExecuteTemplate t1 name data k)) = true ->
         template.ExecuteTemplate t2 name data k = template.ExecuteTemplate t1 name data k)
  | Err e1, Err e2 => e2 = e1
  | _, _ => False
  end.
Proof. apply Hengine. Qed.

Lemma resolved_ticks (t : template.Template) (w : World) :
  ticks (resolved t w)
  = if template.Lookup t "layout_name"
    then snd (template.ExecuteTemplate t "layout_name" None (ticks w))
    else ticks w.
Proof.
  unfold resolved, chooseLayout, execute.
  destruct (template.Lookup t "layout_name"); [|done].
  by destruct (template.ExecuteTemplate _ _ _ _) as [[b [e|]] k].
Qed.

Lemma chooseLayout_clocks globs page w t1 t2 :
  parsed c1 globs page w = Ok t1 -> parsed c2 globs page w = Ok t2 ->
  same_text c1 c2 (ticks w) (ticks (resolved t1 w)) = true ->
  chooseLayout t2 w = chooseLayout t1 w.
Proof.
  intros H1 H2 Hs. pose proof (parsed_clocks globs page w) as H. rewrite H1, H2 in H.
  destruct (H "layout_name" None (ticks w)) as (Hl & _ & He).
  rewrite resolved_ticks in Hs. unfold chooseLayout, execute. rewrite Hl.
  destruct (template.Lookup t1 "layout_name"); [|done]. by rewrite He.
Qed.

Lemma renderOne_clocks srcDir outDir globs page ts w :
  render_agrees c1 c2 srcDir outDir globs page ts w = true ->
  renderOne c2 srcDir outDir globs page ts w = renderOne c1 srcDir outDir globs page ts w.
Proof.
  unfold render_agrees. pose proof (parsed_clocks globs page w) as H.
  destruct (parsed c1 globs page w) as [t1|e1] eqn:H1,
           (parsed c2 globs page w) as [t2|e2] eqn:H2; try done.
  2:{ intros _. subst e2.
      by rewrite (renderOne_parse_error c1 _ _ _ _ _ _ _ H1),
                 (renderOne_parse_error c2 _ _ _ _ _ _ _ H2). }
  intros [Hs Hrest]%andb_true_iff.
  pose proof (chooseLayout_clocks globs page w t1 t2 H1 H2 Hs) as Hc.
  assert (Hlay : layoutOf t2 w = layoutOf t1 w) by (unfold layoutOf; by rewrite Hc).
  assert (Hres : resolved t2 w = resolved t1 w) by (unfold resolved; by rewrite Hc).
  destruct (filepath.Rel (filepath.Join [srcDir; "pages"]) page) as [rel|e] eqn:Hrel.
  2:{ by rewrite (renderOne_rel_error c1 _ _ _ _ _ _ _ _ H1 Hrel),
                 (renderOne_rel_error c2 _ _ _ _ _ _ _ _ H2 Hrel), Hres. }
  rewrite (renderOne_steps c1 _ _ _ _ _ _ _ _ H1 Hrel),
          (renderOne_steps c2 _ _ _ _ _ _ _ _ H2 Hrel). cbv zeta.
  rewrite Hlay, Hres.
  destruct (os.MkdirAll _ _) as [fs1|e]; [|done].
  destruct (os.Create _ _) as [fs2|e]; [|done].
  apply andb_true_iff in Hrest as [Hy%Z.eqb_eq Ht].
  assert (Hfin : finalPass c2 ts t2 w = finalPass c1 ts t1 w).
  { unfold finalPass in *. rewrite Hlay, Hres. unfold renderData. rewrite <- Hy.
    destruct (H (layoutOf t1 w)
                (Some {| Year := time.Year (c1 (ticks (resolved t1 w)));
                         BuildTimestamp := ts |})
                (S (ticks (resolved t1 w)))) as (_ & _ & He).
    apply He. exact Ht. }
  by rewrite Hfin.
Qed.

Lemma renderPages_clocks srcDir outDir globs pages ts : forall w,
  pages_agree c1 c2 srcDir outDir globs pages ts w = true ->
  renderPages c2 srcDir outDir globs pages ts w
  = renderPages c1 srcDir outDir globs pages ts w.
Proof.
  induction pages as [|page rest IH]; intros w; [done|]. simpl.
  intros [Hr Hrest]%andb_true_iff. rewrite (renderOne_clocks _ _ _ _ _ _ Hr).
  destruct (renderOne c1 _ _ _ _ _ _) as [w' [err|]]; [done|]. by apply IH.
Qed.

End Clocks.

(** ** The concrete engine reads the clock through the function map only *)

Lemma parseAction_names fm1 fm2 text :
  fm1.*1 = fm2.*1 -> gotemplate.parseAction fm1 text = gotemplate.parseAction fm2 text.
Proof. intros H. unfold gotemplate.parseAction. by rewrite H. Qed.

Lemma parseItems_names fm1 fm2 name items : forall open top ts,
  fm1.*1 = fm2.*1 ->
  gotemplate.parseItems fm1 name items open top ts
  = gotemplate.parseItems fm2 name items open top ts.
Proof.
  induction items as [|[text|text] items IH]; intros open top ts H; [done| |].
  - simpl. destruct open as [[d body]|]; by apply IH.
  - simpl. rewrite (parseAction_names fm1 fm2 text H).
    destruct (gotemplate.parseAction fm2 text) as [[d| |n]|e]; [| | |done].
    + destruct open; [done | by apply IH].
    + destruct open as [[d body]|]; [|done].
      destruct (gotemplate.add _ _ _); [by apply IH | done].
    + destruct open as [[d body]|]; by apply IH.
Qed.

Lemma Parse_names fm1 fm2 name text :
  fm1.*1 = fm2.*1 -> gotemplate.Parse fm1 name text = gotemplate.Parse fm2 name text.
Proof.
  intros H. unfold gotemplate.Parse.
  destruct (gotemplate.lex _ _ _); [by apply parseItems_names | done].
Qed.

Lemma parseFiles_alike fs filenames : forall t1 t2,
  alike t1 t2 ->
  match gotemplate.parseFiles fs t1 filenames, gotemplate.parseFiles fs t2 filenames with
  | Ok r1, Ok r2 =>
      gotemplate.tmpl r2 = gotemplate.tmpl r1 /\
      gotemplate.funcmap r1 = gotemplate.funcmap t1 /\
      gotemplate.funcmap r2 = gotemplate.funcmap t2
  | Err e1, Err e2 => e2 = e1
  | _, _ => False
  end.
Proof.
  induction filenames as [|f rest IH]; intros t1 t2 [Ht Hf]; [done|]. simpl.
  destruct (os.ReadFile fs f) as [text|e]; [|done].
  rewrite (Parse_names (gotemplate.funcmap t2) (gotemplate.funcmap t1)) by done.
  destruct (gotemplate.Parse _ _ _) as [ts|e]; [|done].
  rewrite Ht.
  exact (IH {| gotemplate.funcmap := gotemplate.funcmap t1;
               gotemplate.tmpl := fold_left (fun set p => gotemplate.associate set p.1 p.2)
                                    ts (gotemplate.tmpl t1) |}
            {| gotemplate.funcmap := gotemplate.funcmap t2;
               gotemplate.tmpl := fold_left (fun set p => gotemplate.associate set p.1 p.2)
                                    ts (gotemplate.tmpl t1) |}
            (conj eq_refl Hf)).
Qed.

Lemma escapeTemplate_alike t1 t2 fuel : forall visited name,
  gotemplate.tmpl t2 = gotemplate.tmpl t1 ->
  gotemplate.escapeTemplate fuel t2 visited name
  = gotemplate.escapeTemplate fuel t1 visited name.
Proof.
  induction fuel as [|fuel IH]; intros visited name Ht; [done|]. simpl. rewrite Ht.
  case_bool_decide; [done|].
  destruct (gotemplate.tree_lookup name (gotemplate.tmpl t1)) as [[body|]|]; [|done..].
  generalize (@Ok (list string) (name :: visited)).
  induction body as [|n rest IHb]; intros acc; [done|]. simpl.
  destruct acc as [v|e], n; try apply IHb. rewrite IH by done. apply IHb.
Qed.

Lemma same_text_sub c1 c2 a b a' b' :
  same_text c1 c2 a b = true -> a <= a' -> b' <= b -> same_text c1 c2 a' b' = true.
Proof. rewrite !same_text_spec. intros H ? ? j Hj. apply H. lia. Qed.

Lemma funcs_lookup c f :
  gotemplate.tree_lookup f (funcs c)
  = if bool_decide ("nowRFC3339" = f) then Some (nowRFC3339 c) else None.
Proof. apply tree_lookup_one. Qed.

Lemma walkTemplate_step fuel t name data k :
  gotemplate.walkTemplate (S fuel) t name data k
  = match gotemplate.tree_lookup name (gotemplate.tmpl t) with
    | Some (Some body) =>
        walkNodes (gotemplate.walkTemplate fuel t) (gotemplate.funcmap t) data body k
    | _ => ("", Some (ErrMsg ("template: no template " +:+ gotemplate.printq name)), k)
    end.
Proof. reflexivity. Qed.

Lemma walkNodes_clocks c1 c2 call1 call2 data nodes :
  (forall name data k,
     k <= snd (call1 name data k) /\
     (same_text c1 c2 k (snd (call1 name data k)) = true ->
      call2 name data k = call1 name data k)) ->
  forall k,
    k <= snd (walkNodes call1 (funcs c1) data nodes k) /\
    (same_text c1 c2 k (snd (walkNodes call1 (funcs c1) data nodes k)) = true ->
     walkNodes call2 (funcs c2) data nodes k = walkNodes call1 (funcs c1) data nodes k).
Proof.
  intros Hcall. induction nodes as [|n rest IH]; intros k; [by split|].
  cbn [walkNodes].
  assert (Hseq : forall (s1 s2 : string * option error * nat),
             k <= snd s1 ->
             (same_text c1 c2 k (snd s1) = true -> s2 = s1) ->
             let r1 := match s1 with
                       | (out, Some e, k') => (out, Some e, k')
                       | (out, None, k') =>
                           let '(out', e, k'') := walkNodes call1 (funcs c1) data rest k' in
                           (out +:+ out', e, k'')
                       end in
             let r2 := match s2 with
                       | (out, Some e, k') => (out, Some e, k')
                       | (out, None, k') =>
                           let '(out', e, k'') := walkNodes call2 (funcs c2) data rest k' in
                           (out +:+ out', e, k'')
                       end in
             k <= snd r1 /\ (same_text c1 c2 k (snd r1) = true -> r2 = r1)).
  { intros [[out [e|]] k1] s2 Hk Hs; cbn [snd] in *.
    - split; [done|]. by intros ->%Hs.
    - destruct (IH k1) as [Hk1 He1].
      destruct (walkNodes call1 (funcs c1) data rest k1) as [[out' e'] k2] eqn:Hw.
      cbn [snd] in *. split; [lia|]. intros Hall.
      rewrite Hs by (eapply same_text_sub; [exact Hall | lia..]).
      rewrite He1 by (eapply same_text_sub; [exact Hall | lia..]). done. }
  destruct n as [text|field|f|callee dot].
  - by apply (Hseq (text, None, k) (text, None, k)).
  - apply (Hseq (match gotemplate.evalField field data with
                 | Ok s => (s, None, k)
                 | Err e => ("", Some e, k)
                 end)
                (match gotemplate.evalField field data with
                 | Ok s => (s, None, k)
                 | Err e => ("", Some e, k)
                 end)); [|done].
    by destruct (gotemplate.evalField field data).
  - rewrite !funcs_lookup. case_bool_decide.
    + apply (Hseq (gotemplate.htmlEscaper (fst (nowRFC3339 c1 k)), None, snd (nowRFC3339 c1 k))
                  (gotemplate.htmlEscaper (fst (nowRFC3339 c2 k)), None, snd (nowRFC3339 c2 k)));
        [cbn; lia|]. cbn [nowRFC3339 fst snd].
      intros Hs. erewrite same_text_spec in Hs. by rewrite (Hs k) by lia.
    + by apply (Hseq ("", Some (ErrMsg ("template: " +:+ f +:+ " is not a defined function")), k)
                     ("", Some (ErrMsg ("template: " +:+ f +:+ " is not a defined function")), k)).
  - apply (Hseq (call1 callee (if dot then data else None) k)
                (call2 callee (if dot then data else None) k)); apply Hcall.
Qed.

Lemma walkTemplate_clocks c1 c2 T fuel : forall name data k,
  k <= snd (gotemplate.walkTemplate fuel
              {| gotemplate.funcmap := funcs c1; gotemplate.tmpl := T |} name data k) /\
  (same_text c1 c2 k
     (snd (gotemplate.walkTemplate fuel
             {| gotemplate.funcmap := funcs c1; gotemplate.tmpl := T |} name data k)) = true ->
   gotemplate.walkTemplate fuel
     {| gotemplate.funcmap := funcs c2; gotemplate.tmpl := T |} name data k
   = gotemplate.walkTemplate fuel
       {| gotemplate.funcmap := funcs c1; gotemplate.tmpl := T |} name data k).
Proof.
  induction fuel as [|fuel IH]; intros name data k; [by split|].
  rewrite !walkTemplate_step. cbn [gotemplate.tmpl gotemplate.funcmap].
  destruct (gotemplate.tree_lookup name T) as [[body|]|]; [|by split..].
  by apply walkNodes_clocks.
Qed.

Lemma ParseFiles_funcs c fs filenames t :
  gotemplate.ParseFiles (funcs c) fs filenames = Ok t -> gotemplate.funcmap t = funcs c.
Proof.
  unfold gotemplate.ParseFiles. destruct filenames as [|f rest]; [done|].
  pose proof (parseFiles_alike fs (f :: rest) (gotemplate.New "root" (funcs c))
                (gotemplate.New "root" (funcs c)) (conj eq_refl eq_refl)) as H.
  intros Hp. rewrite Hp in H. by destruct H as (_ & -> & _).
Qed.

(** The concrete engine reads the clock only through the function map. *)
Lemma gotemplate_calls_only : calls_only gotemplate.engine.
Proof.
  intros c1 c2 fs filenames. cbn [template.ParseFiles gotemplate.engine].
  pose proof (ParseFiles_funcs c1 fs filenames) as Hf1.
  pose proof (ParseFiles_funcs c2 fs filenames) as Hf2.
  unfold gotemplate.ParseFiles in *.
  destruct filenames as [|f rest]; [done|].
  pose proof (parseFiles_alike fs (f :: rest) (gotemplate.New "root" (funcs c1))
                (gotemplate.New "root" (funcs c2)) (conj eq_refl eq_refl)) as H.
  destruct (gotemplate.parseFiles fs (gotemplate.New "root" (funcs c1)) (f :: rest))
    as [[fm1 T1]|e1]; destruct (gotemplate.parseFiles fs (gotemplate.New "root" (funcs c2))
                                 (f :: rest)) as [[fm2 T2]|e2]; try done.
  destruct H as (HT & _ & _). cbn [gotemplate.tmpl] in HT. subst T2.
  specialize (Hf1 _ eq_refl). specialize (Hf2 _ eq_refl).
  cbn [gotemplate.funcmap] in Hf1, Hf2. subst fm1 fm2.
  intros name data k.
  cbn [template.Lookup template.ExecuteTemplate template.Template gotemplate.engine].
  split; [done|].
  unfold gotemplate.ExecuteTemplate. cbn [gotemplate.tmpl].
  destruct (gotemplate.tree_lookup name T1) as [[body|]|]; [|by split..].
  rewrite (escapeTemplate_alike
             {| gotemplate.funcmap := funcs c1; gotemplate.tmpl := T1 |}
             {| gotemplate.funcmap := funcs c2; gotemplate.tmpl := T1 |}) by done.
  destruct (gotemplate.escapeTemplate _ _ _ _); [|by split].
  apply walkTemplate_clocks.
Qed.


(** ** Logs, trees and exits of whole runs *)

Section Outcomes.

Context {engine : template.Engine} {quoting : strconv.Quoting}.
Variable zoneinfo : list string.
Variable clock : time.Clock.

Lemma completed_not_rendering page outPath layout :
  completedLine <> renderingLine page outPath layout.
Proof. unfold completedLine, renderingLine. rewrite !string_app_cons. congruence. Qed.

Lemma completed_not_wrote outPath : completedLine <> wroteLine outPath.
Proof. unfold completedLine, wroteLine. rewrite !string_app_cons. congruence. Qed.

Lemma completed_not_found n : completedLine <> foundLine n.
Proof. unfold completedLine, foundLine. rewrite !string_app_cons. congruence. Qed.

(** The lines a render adds to the log. *)
Lemma renderOne_logged srcDir outDir globs page ts w :
  logged (fst (renderOne clock srcDir outDir globs page ts w))
  = logged w ++
    match parsed clock globs page w,
          filepath.Rel (filepath.Join [srcDir; "pages"]) page with
    | Ok t, Ok rel =>
        renderingLine page (outputPath outDir rel) (layoutOf t w) ::
        match snd (renderOne clock srcDir outDir globs page ts w) with
        | None => [wroteLine (outputPath outDir rel)]
        | Some _ => []
        end
    | _, _ => []
    end.
Proof.
  destruct (parsed clock globs page w) as [t|e] eqn:Hp.
  2: { rewrite (renderOne_parse_error clock srcDir outDir globs page ts w e Hp).
       simpl. by rewrite app_nil_r. }
  destruct (filepath.Rel _ _) as [rel|e] eqn:Hrel.
  2: { rewrite (renderOne_rel_error clock srcDir outDir globs page ts w t e Hp Hrel).
       simpl. unfold resolved. rewrite (proj2 (chooseLayout_frame t w)).
       by rewrite app_nil_r. }
  rewrite (renderOne_steps clock srcDir outDir globs page ts w t rel Hp Hrel). cbv zeta.
  assert (Hl : logged (resolved t w) = logged w) by apply chooseLayout_frame.
  destruct (os.MkdirAll _ _) as [fs1|e]; [|by simpl; rewrite Hl].
  destruct (os.Create _ _) as [fs2|e]; [|by simpl; rewrite Hl].
  destruct (snd (fst (finalPass clock ts t w))) as [err|]; simpl; rewrite Hl; [done|].
  by rewrite <- app_assoc.
Qed.

Lemma renderOne_log_grows srcDir outDir globs page ts w :
  exists lines,
    logged (fst (renderOne clock srcDir outDir globs page ts w)) = logged w ++ lines /\
    (completedLine ∉ lines) /\
    (snd (renderOne clock srcDir outDir globs page ts w) = None -> length lines = 2).
Proof.
  rewrite renderOne_logged. eexists. split; [done|].
  destruct (parsed clock globs page w) as [t|e] eqn:Hp.
  2: { rewrite (renderOne_parse_error clock srcDir outDir globs page ts w e Hp).
       split; [set_solver | done]. }
  destruct (filepath.Rel _ _) as [rel|e] eqn:Hrel.
  2: { rewrite (renderOne_rel_error clock srcDir outDir globs page ts w t e Hp Hrel).
       split; [set_solver | done]. }
  pose proof (completed_not_rendering page (outputPath outDir rel) (layoutOf t w)) as Hr.
  pose proof (completed_not_wrote (outputPath outDir rel)) as Hw.
  destruct (snd (renderOne _ _ _ _ _ _ _)); (split; [|done]);
    rewrite ?elem_of_cons, elem_of_nil; tauto.
Qed.

Lemma renderPages_log_grows srcDir outDir globs pages ts : forall w,
  exists lines,
    logged (fst (renderPages clock srcDir outDir globs pages ts w)) = logged w ++ lines /\
    (completedLine ∉ lines) /\
    (snd (renderPages clock srcDir outDir globs pages ts w) = None ->
     length lines = 2 * length pages).
Proof.
  induction pages as [|page rest IH]; intros w.
  { exists []. simpl. rewrite app_nil_r. split; [done|]. split; [set_solver | done]. }
  simpl.
  destruct (renderOne_log_grows srcDir outDir globs page ts w) as (l1 & H1 & N1 & L1).
  destruct (renderOne clock srcDir outDir globs page ts w) as [w' [err|]]; simpl in *.
  { exists l1. done. }
  destruct (IH w') as (l2 & H2 & N2 & L2).
  exists (l1 ++ l2). rewrite H2, H1, app_assoc. split; [done|].
  split; [rewrite elem_of_app; tauto|]. intros Hn. rewrite length_app, L1, L2 by done. lia.
Qed.

Lemma fatal_message w err : exists msg, stderr (fatal w err) = msg +:+ newline.
Proof.
  unfold fatal. simpl. destruct (AsPathError err) as [[[op path] e]|].
  - exists (path +:+ ": " +:+ e). by rewrite !string_app_assoc.
  - by eexists.
Qed.

Lemma started_logged args w :
  logged (started clock args w)
  = logged w ++ ["Starting static site generation...";
                 "Source directory: " +:+ srcDirOf args;
                 "Output directory: " +:+ outDirOf args;
                 "Build timestamp: " +:+ buildTimestampOf clock args w].
Proof. unfold started. simpl. by rewrite <- !app_assoc. Qed.

Lemma completed_not_startup args w :
  completedLine ∉ ["Starting static site generation...";
                   "Source directory: " +:+ srcDirOf args;
                   "Output directory: " +:+ outDirOf args;
                   "Build timestamp: " +:+ buildTimestampOf clock args w].
Proof.
  unfold completedLine. rewrite !elem_of_cons, elem_of_nil, !string_app_cons.
  intros [H|[H|[H|[H|[]]]]]; congruence.
Qed.


(** ** What a run changes *)

Lemma changes_only_refl outs fs : changes_only outs fs fs.
Proof. intros k. by left. Qed.

Lemma changes_only_dirs outs fs fs' : only_new_dirs fs fs' -> changes_only outs fs fs'.
Proof. intros H k. destruct (H k) as [?|?]; [by left | by right; left]. Qed.

Lemma changes_only_trans o1 o2 fs1 fs2 fs3 :
  changes_only o1 fs1 fs2 -> changes_only o2 fs2 fs3 -> changes_only (o1 ++ o2) fs1 fs3.
Proof.
  intros H12 H23 k.
  destruct (H23 k) as [E|[[N D]|[Hin [c Hc]]]].
  - rewrite E. destruct (H12 k) as [?|[?|[Hin [c Hc]]]]; [by left | by right; left |].
    right; right. split; [apply elem_of_app; by left | by exists c].
  - destruct (H12 k) as [E|[[? E]|[_ [c Hc]]]]; [|congruence..].
    right; left. by rewrite <- E.
  - right; right. split; [apply elem_of_app; by right | by exists c].
Qed.

Lemma changes_only_keeps_files outs fs fs' k c :
  changes_only outs fs fs' -> fs !! k = Some (os.File c) ->
  exists c', fs' !! k = Some (os.File c').
Proof.
  intros H Hk. destruct (H k) as [E|[[N _]|[_ Hc]]]; [|congruence|done].
  exists c. by rewrite E.
Qed.

Lemma outName_not_empty rel : strings.TrimSuffix rel ".template.html" +:+ ".html" <> "".
Proof.
  intros H. apply (f_equal String.length) in H.
  rewrite string_length_app in H. simpl in H. lia.
Qed.

Lemma outputPath_clean outDir rel : Clean (outputPath outDir rel) = outputPath outDir rel.
Proof. unfold outputPath. apply Join_two_fixed, outName_not_empty. Qed.

Lemma outputsOf_cons srcDir outDir page rest :
  outputsOf srcDir outDir (page :: rest)
  = outputsOf srcDir outDir [page] ++ outputsOf srcDir outDir rest.
Proof. unfold outputsOf. simpl. by destruct (filepath.Rel _ _). Qed.

Lemma outputsOf_resolved srcDir outDir page rel :
  filepath.Rel (filepath.Join [srcDir; "pages"]) page = Ok rel ->
  outputsOf srcDir outDir [page] = [outputPath outDir rel].
Proof. intros H. unfold outputsOf. cbn [omap list_omap]. by rewrite H. Qed.

Lemma renderOne_changes srcDir outDir globs page ts w :
  changes_only (outputsOf srcDir outDir [page]) (files w)
    (files (fst (renderOne clock srcDir outDir globs page ts w))).
Proof.
  destruct (parsed clock globs page w) as [t|e] eqn:Hp.
  2: { rewrite (renderOne_parse_error clock srcDir outDir globs page ts w e Hp).
       apply changes_only_refl. }
  assert (Hf : files (resolved t w) = files w) by apply chooseLayout_frame.
  destruct (filepath.Rel (filepath.Join [srcDir; "pages"]) page) as [rel|e] eqn:Hrel.
  2: { rewrite (renderOne_rel_error clock srcDir outDir globs page ts w t e Hp Hrel).
       simpl. rewrite Hf. apply changes_only_refl. }
  rewrite (renderOne_steps clock srcDir outDir globs page ts w t rel Hp Hrel). cbv zeta.
  destruct (os.MkdirAll _ _) as [fs1|e] eqn:Hmk.
  2: { simpl. rewrite Hf. apply changes_only_refl. }
  apply MkdirAll_frame in Hmk.
  destruct (os.Create _ _) as [fs2|e] eqn:Hcr.
  2: { simpl. by apply changes_only_dirs. }
  apply Create_result in Hcr as [-> _].
  assert (Hw : forall written,
             changes_only (outputsOf srcDir outDir [page]) (files w)
               (os.Write (<[Clean (outputPath outDir rel) := os.File ""]> fs1)
                         (outputPath outDir rel) written)).
  { intros written k. unfold os.Write.
    destruct (decide (k = Clean (outputPath outDir rel))) as [->|Hne].
    - right; right. split.
      + rewrite (outputsOf_resolved _ _ _ _ Hrel), outputPath_clean. apply list_elem_of_here.
      + exists written. apply lookup_insert_eq.
    - rewrite !lookup_insert_ne by done.
      destruct (Hmk k) as [?|?]; [by left | by right; left]. }
  destruct (snd (fst (finalPass clock ts t w))); simpl; apply Hw.
Qed.

Lemma renderPages_changes srcDir outDir globs pages ts : forall w,
  changes_only (outputsOf srcDir outDir pages) (files w)
    (files (fst (renderPages clock srcDir outDir globs pages ts w))).
Proof.
  induction pages as [|page rest IH]; intros w; [apply changes_only_refl|].
  rewrite outputsOf_cons. simpl.
  pose proof (renderOne_changes srcDir outDir globs page ts w) as H1.
  destruct (renderOne clock srcDir outDir globs page ts w) as [w' [err|]]; simpl in *.
  - intros k. destruct (H1 k) as [?|[?|[Hin ?]]]; [by left | by right; left |].
    right; right. split; [apply elem_of_app; by left | done].
  - eapply changes_only_trans; [exact H1 | apply IH].
Qed.

(** A render that returns no error has built the set, resolved the path and
    left the bytes of the final pass at the output path. *)
Lemma renderOne_success srcDir outDir globs page ts w :
  snd (renderOne clock srcDir outDir globs page ts w) = None ->
  exists t rel,
    parsed clock globs page w = Ok t /\
    filepath.Rel (filepath.Join [srcDir; "pages"]) page = Ok rel /\
    snd (fst (finalPass clock ts t w)) = None /\
    files (fst (renderOne clock srcDir outDir globs page ts w)) !! outputPath outDir rel
    = Some (os.File (fst (fst (finalPass clock ts t w)))).
Proof.
  destruct (parsed clock globs page w) as [t|e] eqn:Hp.
  2: { by rewrite (renderOne_parse_error clock srcDir outDir globs page ts w e Hp). }
  destruct (filepath.Rel (filepath.Join [srcDir; "pages"]) page) as [rel|e] eqn:Hrel.
  2: { by rewrite (renderOne_rel_error clock srcDir outDir globs page ts w t e Hp Hrel). }
  rewrite (renderOne_steps clock srcDir outDir globs page ts w t rel Hp Hrel). cbv zeta.
  destruct (os.MkdirAll _ _) as [fs1|e]; [|done].
  destruct (os.Create _ _) as [fs2|e]; [|done].
  destruct (snd (fst (finalPass clock ts t w))) eqn:Hfin; [done|]. intros _.
  exists t, rel. split; [done|]. split; [done|]. split; [done|]. simpl.
  match goal with
  | |- os.Write _ ?p ?x !! _ = _ => pose proof (Write_lookup fs2 p x) as HW
  end.
  by rewrite outputPath_clean in HW.
Qed.

Lemma renderPages_success srcDir outDir globs pages ts : forall w,
  snd (renderPages clock srcDir outDir globs pages ts w) = None ->
  Forall (fun page =>
            exists rel content,
              filepath.Rel (filepath.Join [srcDir; "pages"]) page = Ok rel /\
              files (fst (renderPages clock srcDir outDir globs pages ts w))
                !! outputPath outDir rel = Some (os.File content)) pages.
Proof.
  induction pages as [|page rest IH]; intros w; [done|]. simpl.
  pose proof (renderOne_success srcDir outDir globs page ts w) as H1.
  destruct (renderOne clock srcDir outDir globs page ts w) as [w' [err|]]; [done|].
  simpl in H1. intros Hn. destruct (H1 eq_refl) as (t & rel & _ & Hrel & _ & Hfile).
  constructor; [|by apply IH].
  destruct (changes_only_keeps_files _ _ _ _ _
              (renderPages_changes srcDir outDir globs rest ts w') Hfile) as [c' Hc'].
  by exists rel, c'.
Qed.

(** The loop over a list of pages in two parts. *)
Lemma renderPages_app srcDir outDir globs pre post ts : forall w,
  renderPages clock srcDir outDir globs (pre ++ post) ts w
  = match renderPages clock srcDir outDir globs pre ts w with
    | (w', Some err) => (w', Some err)
    | (w', None) => renderPages clock srcDir outDir globs post ts w'
    end.
Proof.
  induction pre as [|page rest IH]; intros w; [done|]. simpl.
  destruct (renderOne clock srcDir outDir globs page ts w) as [w' [err|]]; [done|].
  apply IH.
Qed.

(** X2.  The log of a render (lines 117-118 and 141-142).  A render that returns
    no error adds two lines to the log, the [Rendering] line with the page,
    the output path and the layout, then the [Successfully wrote] line.  A
    render that fails before the output path is known (the set does not
    parse, or [filepath.Rel] fails) adds nothing; one that fails later adds
    the [Rendering] line alone. *)
Theorem render_log_protocol srcDir outDir globs page ts w :
  (snd (renderOne clock srcDir outDir globs page ts w) = None ->
   exists t rel,
     parsed clock globs page w = Ok t /\
     filepath.Rel (filepath.Join [srcDir; "pages"]) page = Ok rel /\
     logged (fst (renderOne clock srcDir outDir globs page ts w))
     = logged w ++ [renderingLine page (outputPath outDir rel) (layoutOf t w);
                    wroteLine (outputPath outDir rel)]) /\
  (forall e, parsed clock globs page w = Err e ->
             logged (fst (renderOne clock srcDir outDir globs page ts w)) = logged w) /\
  (forall t e, parsed clock globs page w = Ok t ->
               filepath.Rel (filepath.Join [srcDir; "pages"]) page = Err e ->
               logged (fst (renderOne clock srcDir outDir globs page ts w)) = logged w) /\
  (forall t rel e,
     parsed clock globs page w = Ok t ->
     filepath.Rel (filepath.Join [srcDir; "pages"]) page = Ok rel ->
     snd (renderOne clock srcDir outDir globs page ts w) = Some e ->
     logged (fst (renderOne clock srcDir outDir globs page ts w))
     = logged w ++ [renderingLine page (outputPath outDir rel) (layoutOf t w)]).
Proof.
  pose proof (renderOne_logged srcDir outDir globs page ts w) as Hl.
  split; [|split; [|split]].
  - intros Hn. destruct (renderOne_success _ _ _ _ _ _ Hn) as (t & rel & Hp & Hrel & _).
    exists t, rel. rewrite Hp, Hrel, Hn in Hl. done.
  - intros e Hp. rewrite Hp in Hl. by rewrite app_nil_r in Hl.
  - intros t e Hp Hrel. rewrite Hp, Hrel in Hl. by rewrite app_nil_r in Hl.
  - intros t rel e Hp Hrel He. by rewrite Hp, Hrel, He in Hl.
Qed.

(** X3.  The effect of a render on the tree (lines 120-139).  [renderOne]
    removes nothing and creates or changes no regular file other than the
    output file of its page: every other path is as before or a new
    directory.  After a render without error the output file holds exactly
    the bytes of the final pass, whatever was there before. *)
Theorem render_changes_only_its_output srcDir outDir globs page ts w :
  changes_only (outputsOf srcDir outDir [page]) (files w)
    (files (fst (renderOne clock srcDir outDir globs page ts w))) /\
  (snd (renderOne clock srcDir outDir globs page ts w) = None ->
   exists t rel,
     parsed clock globs page w = Ok t /\
     filepath.Rel (filepath.Join [srcDir; "pages"]) page = Ok rel /\
     outputsOf srcDir outDir [page] = [outputPath outDir rel] /\
     files (fst (renderOne clock srcDir outDir globs page ts w)) !! outputPath outDir rel
     = Some (os.File (fst (fst (finalPass clock ts t w))))).
Proof.
  split; [apply renderOne_changes|]. intros Hn.
  destruct (renderOne_success _ _ _ _ _ _ Hn) as (t & rel & Hp & Hrel & _ & Hf).
  exists t, rel. split; [done|]. split; [done|]. split; [|done].
  by apply outputsOf_resolved.
Qed.

(** X4.  The effect of a run on the tree ([main], lines 44-71).  Whatever the
    outcome, a run removes nothing, and the only regular files it creates
    or changes are output files of discovered pages; every other path is as
    before or a new directory.  In particular no source file is touched
    unless an output path falls on it. *)
Theorem run_changes_only_outputs args w :
  changes_only (outputsOf (srcDirOf args) (outDirOf args) (discovered args w))
    (files w) (files (final (main zoneinfo clock args w))).
Proof.
  rewrite main_steps. unfold discovered.
  destruct (time.LoadLocation _ _) as [l|e]; [|apply changes_only_refl].
  destruct (os.MkdirAll _ _) as [fs1|e] eqn:Hmk; [|apply changes_only_refl].
  apply MkdirAll_frame in Hmk. cbv zeta.
  destruct (filepath.Glob _ _) as [pageFiles [e|]]; [by apply changes_only_dirs|].
  destruct (Nat.eqb _ _); [by apply changes_only_dirs|].
  match goal with
  | |- context [renderPages ?c ?s ?o ?g ?p ?t ?w0] =>
      pose proof (renderPages_changes s o g p t w0) as Hr;
      destruct (renderPages c s o g p t w0) as [w2 [err|]]
  end; cbn [fst final fatal files log_Printf set_files] in *;
  (apply (changes_only_trans [] _ (files w) fs1); [by apply changes_only_dirs | exact Hr]).
Qed.

(** X5.  The loop of [main] stops at the first failure (lines 67-71).  When the
    pages before [page] render without error and [page] fails with [e], the
    run ends as [fatal] ends it on [e], in the state that render left: the
    pages after it are not rendered, and the output of every page before it
    is still in the tree. *)
Theorem first_failure_stops_the_run args w fs1 pre page post w1 w2 e :
  "America/Chicago" ∈ zoneinfo ->
  os.MkdirAll (files w) (outDirOf args) = Ok fs1 ->
  filepath.Glob fs1 (pagePatternOf args) = (pre ++ page :: post, None) ->
  renderPages clock (srcDirOf args) (outDirOf args) (includesGlobsOf args) pre
    (buildTimestampOf clock args w)
    (log_Printf (foundLine (length (pre ++ page :: post)))
       (set_files fs1 (started clock args w))) = (w1, None) ->
  renderOne clock (srcDirOf args) (outDirOf args) (includesGlobsOf args) page
    (buildTimestampOf clock args w) w1 = (w2, Some e) ->
  main zoneinfo clock args w = fatal w2 e /\
  Forall (fun p =>
            exists rel content,
              filepath.Rel (filepath.Join [srcDirOf args; "pages"]) p = Ok rel /\
              files w2 !! outputPath (outDirOf args) rel = Some (os.File content)) pre.
Proof.
  intros Hz Hmk Hg Hpre Hpage. split.
  - rewrite main_steps.
    destruct (LoadLocation_installed zoneinfo _ Hz) as [l ->]. rewrite Hmk. cbv zeta.
    rewrite Hg.
    replace (Nat.eqb (length (pre ++ page :: post)) 0) with false
      by (by rewrite length_app, Nat.add_comm).
    rewrite renderPages_app, Hpre. simpl. by rewrite Hpage.
  - pose proof (renderPages_success (srcDirOf args) (outDirOf args) (includesGlobsOf args)
                  pre (buildTimestampOf clock args w)
                  (log_Printf (foundLine (length (pre ++ page :: post)))
                     (set_files fs1 (started clock args w)))) as Hs.
    rewrite Hpre in Hs. specialize (Hs eq_refl). simpl in Hs.
    pose proof (renderOne_changes (srcDirOf args) (outDirOf args) (includesGlobsOf args)
                  page (buildTimestampOf clock args w) w1) as Hc.
    rewrite Hpage in Hc. simpl in Hc.
    eapply Forall_impl; [exact Hs|]. intros p (rel & c & Hrel & Hf).
    destruct (changes_only_keeps_files _ _ _ _ _ Hc Hf) as [c' Hc'].
    by exists rel, c'.
Qed.

(** X6.  A run that ends with status 0 ([main], lines 39-73) has logged, after
    the four startup lines, the number of discovered pages, then two lines
    for every page, then the completion line; it has discovered at least
    one page, and the output path of every discovered page holds a regular
    file. *)
Theorem successful_run args w :
  status (main zoneinfo clock args w) = 0%Z ->
  discovered args w <> [] /\
  (exists lines,
     length lines = 2 * length (discovered args w) /\
     logged (final (main zoneinfo clock args w))
     = logged w ++
       ["Starting static site generation...";
        "Source directory: " +:+ srcDirOf args;
        "Output directory: " +:+ outDirOf args;
        "Build timestamp: " +:+ buildTimestampOf clock args w;
        foundLine (length (discovered args w))] ++ lines ++ [completedLine]) /\
  Forall (fun page =>
            exists rel content,
              filepath.Rel (filepath.Join [srcDirOf args; "pages"]) page = Ok rel /\
              files (final (main zoneinfo clock args w)) !! outputPath (outDirOf args) rel
              = Some (os.File content)) (discovered args w).
Proof.
  rewrite main_steps. unfold discovered.
  destruct (time.LoadLocation _ _) as [l|e]; [|done].
  destruct (os.MkdirAll _ _) as [fs1|e]; [|done]. cbv zeta.
  destruct (filepath.Glob _ _) as [pageFiles [e|]]; [done|].
  destruct pageFiles as [|page rest]; [done|].
  remember (page :: rest) as pages eqn:Hpages.
  replace (Nat.eqb (length pages) 0) with false by (by subst pages).
  match goal with
  | |- context [renderPages ?c ?s ?o ?g ?p ?t ?w0] =>
      destruct (renderPages_log_grows s o g p t w0) as (lines & Hl & _ & Hlen);
      pose proof (renderPages_success s o g p t w0) as Hs;
      destruct (renderPages c s o g p t w0) as [w2 [err|]]
  end; [done|]. intros _. cbn [fst snd] in *.
  split; [by subst pages|]. split.
  - exists lines. split; [by apply Hlen|].
    cbn [final logged log_Printf set_files] in *. rewrite Hl, started_logged.
    by rewrite <- !app_assoc.
  - by apply Hs.
Qed.

End Outcomes.

(** ** Errors of the library calls *)

Lemma getEsc_error chunk e : filepath.getEsc chunk = Err e -> e = ErrBadPattern.
Proof.
  unfold filepath.getEsc. intros H.
  repeat (case_match; simplify_eq); done.
Qed.

Lemma matchRanges_error fuel : forall chunk r matched n e,
  filepath.matchRanges fuel chunk r matched n = Err e -> e = ErrBadPattern.
Proof.
  induction fuel as [|fuel IH]; intros chunk r matched n e H; simpl in H; [by simplify_eq|].
  repeat (case_match; simplify_eq); eauto using getEsc_error.
Qed.

Lemma matchChunkLoop_error fuel : forall chunk s failed e,
  filepath.matchChunkLoop fuel chunk s failed = Err e -> e = ErrBadPattern.
Proof.
  induction fuel as [|fuel IH]; intros chunk s failed e H; destruct chunk; simpl in H;
    try by simplify_eq.
  repeat (case_match; simplify_eq); eauto using matchRanges_error, getEsc_error.
Qed.

Lemma matchChunk_error chunk s e :
  filepath.matchChunk chunk s = Err e -> e = ErrBadPattern.
Proof. apply matchChunkLoop_error. Qed.

Lemma starLoop_error chunk last k name e :
  (forall t e, k t = Err e -> e = ErrBadPattern) ->
  filepath.starLoop chunk last k name = Err e -> e = ErrBadPattern.
Proof.
  intros Hk. induction name as [|c name IH]; simpl; intros H; [by simplify_eq|].
  repeat (case_match; simplify_eq); eauto using matchChunk_error.
Qed.

Lemma matchLoop_error fuel : forall pattern name e,
  filepath.matchLoop fuel pattern name = Err e -> e = ErrBadPattern.
Proof.
  induction fuel as [|fuel IH]; intros pattern name e H; destruct pattern; simpl in H;
    try by simplify_eq.
  repeat (case_match; simplify_eq);
    eauto using matchChunk_error, starLoop_error.
Qed.

Lemma Match_error pattern name e :
  filepath.Match pattern name = Err e -> e = ErrBadPattern.
Proof. apply matchLoop_error. Qed.

Lemma globNames_error dir pattern names : forall m m' e,
  filepath.globNames dir pattern names m = (m', Some e) -> e = ErrBadPattern.
Proof.
  induction names as [|n names IH]; intros m m' e H; simpl in H; [by simplify_eq|].
  destruct (filepath.Match pattern n) eqn:HM; [by eapply IH|].
  simplify_eq. by eapply Match_error.
Qed.

Lemma glob_error fs dir pattern m m' e :
  filepath.glob fs dir pattern m = (m', Some e) -> e = ErrBadPattern.
Proof.
  unfold filepath.glob. intros H.
  repeat (case_match; simplify_eq); by eapply globNames_error.
Qed.

Lemma globDirs_error fs file dirs : forall m m' e,
  filepath.globDirs fs file dirs m = (m', Some e) -> e = ErrBadPattern.
Proof.
  induction dirs as [|d dirs IH]; intros m m' e H; simpl in H; [by simplify_eq|].
  destruct (filepath.glob fs d file m) as [m1 [e1|]] eqn:Hg.
  - simplify_eq. by eapply glob_error.
  - by eapply IH.
Qed.

Lemma globWithLimit_error fs fuel : forall pattern m e,
  filepath.globWithLimit fs fuel pattern = (m, Some e) -> e = ErrBadPattern.
Proof.
  induction fuel as [|fuel IH]; intros pattern m e H; simpl in H; [by simplify_eq|].
  repeat (case_match; simplify_eq);
    eauto using Match_error, glob_error, globDirs_error.
Qed.

(** The only error of [filepath.Glob] is [ErrBadPattern]. *)
Lemma Glob_error fs pattern m e :
  filepath.Glob fs pattern = (m, Some e) -> e = ErrBadPattern.
Proof. apply globWithLimit_error. Qed.

(** A pattern that [Match] refuses is refused by [Glob] before it reads the
    tree. *)
Lemma Glob_bad_pattern fs pattern e :
  filepath.Match pattern "" = Err e -> filepath.Glob fs pattern = ([], Some e).
Proof.
  intros H. unfold filepath.Glob.
  assert (Hf : filepath.pathSeparatorsLimit <> 0) by (unfold filepath.pathSeparatorsLimit; lia).
  destruct filepath.pathSeparatorsLimit as [|fuel]; [done|].
  cbn [filepath.globWithLimit]. by rewrite H.
Qed.

Lemma mkdir_elems_error r elems : forall fs out walked e,
  os.mkdir_elems r fs out walked elems = Err e ->
  exists path, e = PathError "mkdir" path ENOTDIR.
Proof.
  induction elems as [|x elems IH]; intros fs out walked e H; simpl in H; [by simplify_eq|].
  repeat (case_match; simplify_eq); eauto.
Qed.

Lemma MkdirAll_error fs path e :
  os.MkdirAll fs path = Err e -> exists p cause, e = PathError "mkdir" p cause.
Proof.
  unfold os.MkdirAll. intros H. case_match; simplify_eq; [by eauto|].
  apply mkdir_elems_error in H as [p ->]. eauto.
Qed.

Lemma Create_error fs name e :
  os.Create fs name = Err e -> exists cause, e = PathError "open" name cause.
Proof.
  unfold os.Create. intros H. repeat (case_match; simplify_eq); eauto.
Qed.

Lemma TrimSpace_blank b : blank b = true -> strings.TrimSpace b = "".
Proof.
  intros Hb. unfold strings.TrimSpace.
  assert (H : strings.trimLeftSpace (String.length b) b = "").
  { pose proof (trimLeftSpace_blank b (String.length b) "" Hb (le_n _)) as H.
    rewrite string_app_nil_r, Nat.sub_diag in H. exact H. }
  rewrite H. done.
Qed.

Lemma string_app_inv_head (c a b : string) : c +:+ a = c +:+ b -> a = b.
Proof.
  induction c as [|x c IH]; [done|]. rewrite !string_app_cons. intros [= H]. by apply IH.
Qed.

Lemma string_app_inv_tail (a b c : string) : a +:+ c = b +:+ c -> a = b.
Proof.
  intros H. apply (f_equal String.rev) in H. rewrite !string_rev_app in H.
  apply string_app_inv_head in H. apply (f_equal String.rev) in H.
  by rewrite !string_rev_involutive in H.
Qed.

Section Failures.

Context {engine : template.Engine} {quoting : strconv.Quoting}.
Variable zoneinfo : list string.
Variable clock : time.Clock.

(** X7.  A page pattern that [filepath.Glob] refuses ([main], lines 50-54).  The
    only error of [Glob] is the one of a malformed pattern, so a run whose
    discovery fails ends with status 1 and the message
    [syntax error in pattern]; it has created the output root, rendered
    nothing and logged the four startup lines only. *)
Theorem bad_pattern_aborts args w fs1 matches e :
  "America/Chicago" ∈ zoneinfo ->
  os.MkdirAll (files w) (outDirOf args) = Ok fs1 ->
  filepath.Glob fs1 (pagePatternOf args) = (matches, Some e) ->
  status (main zoneinfo clock args w) = 1%Z /\
  stderr (main zoneinfo clock args w) = "syntax error in pattern" +:+ newline /\
  final (main zoneinfo clock args w) = set_files fs1 (started clock args w).
Proof.
  intros Hz Hmk Hg. rewrite main_steps.
  destruct (LoadLocation_installed zoneinfo _ Hz) as [l ->]. rewrite Hmk. cbv zeta.
  rewrite Hg. apply Glob_error in Hg as ->. done.
Qed.


(** X9.  A directory or a file of the output that cannot be made ([renderOne],
    lines 120-129).  When [os.MkdirAll] fails on the directory of the
    output path, or [os.Create] on the output path, [renderOne] returns
    that error as it is; it is a path error, which [fatal] prints as path
    and cause; no regular file of the tree has been created or changed. *)
Theorem render_filesystem_error srcDir outDir globs page ts w t rel e :
  parsed clock globs page w = Ok t ->
  filepath.Rel (filepath.Join [srcDir; "pages"]) page = Ok rel ->
  os.MkdirAll (files w) (filepath.Dir (outputPath outDir rel)) = Err e \/
  (exists fs1, os.MkdirAll (files w) (filepath.Dir (outputPath outDir rel)) = Ok fs1 /\
               os.Create fs1 (outputPath outDir rel) = Err e) ->
  snd (renderOne clock srcDir outDir globs page ts w) = Some e /\
  only_new_dirs (files w) (files (fst (renderOne clock srcDir outDir globs page ts w))) /\
  exists op path cause,
    e = PathError op path cause /\
    forall w', stderr (fatal w' e) = path +:+ ": " +:+ cause +:+ newline.
Proof.
  intros Hp Hrel H. rewrite (renderOne_steps clock _ _ _ _ _ _ _ _ Hp Hrel). cbv zeta.
  assert (Hf : files (resolved t w) = files w) by apply chooseLayout_frame.
  destruct H as [Hmk|(fs1 & Hmk & Hcr)].
  - rewrite Hmk. split; [done|]. split.
    + simpl. rewrite Hf. apply only_new_dirs_refl.
    + apply MkdirAll_error in Hmk as (path & cause & ->). by exists "mkdir", path, cause.
  - rewrite Hmk, Hcr. split; [done|]. split.
    + simpl. by apply MkdirAll_frame in Hmk.
    + apply Create_error in Hcr as (cause & ->). by eexists "open", _, cause.
Qed.

(** X10.  What [fatal] prints for a failed final pass ([renderOne], line 138, and
    [fatal], lines 148-157).  The error of the pass comes back wrapped with
    the page and the layout.  [fatal] looks through the wrapping: when the
    cause carries a path error, as a failed write does, the message is the
    path and the cause of that path error alone, and neither the page nor
    the layout is named; otherwise it is the whole wrapped message. *)
Theorem layout_failure_report srcDir outDir globs page ts w t rel fs1 fs2 written err k :
  parsed clock globs page w = Ok t ->
  filepath.Rel (filepath.Join [srcDir; "pages"]) page = Ok rel ->
  os.MkdirAll (files w) (filepath.Dir (outputPath outDir rel)) = Ok fs1 ->
  os.Create fs1 (outputPath outDir rel) = Ok fs2 ->
  finalPass clock ts t w = (written, Some err, k) ->
  exists e,
    snd (renderOne clock srcDir outDir globs page ts w) = Some e /\
    forall w',
      stderr (fatal w' e)
      = match AsPathError err with
        | Some (_, path, cause) => path +:+ ": " +:+ cause +:+ newline
        | None => page +:+ ": executing layout " +:+ strconv.Quote (layoutOf t w) +:+
                  ": " +:+ Error err +:+ newline
        end.
Proof.
  intros Hp Hrel Hmk Hcr Hfin.
  rewrite (renderOne_steps clock _ _ _ _ _ _ _ _ Hp Hrel). cbv zeta.
  rewrite Hmk, Hcr, Hfin. cbn [fst snd]. eexists. split; [done|]. intros w'.
  unfold fatal. cbn [stderr AsPathError Error].
  destruct (AsPathError err) as [[[op path] cause]|]; [done|].
  by rewrite !string_app_assoc.
Qed.

(** X11.  White space around the name of the layout ([renderOne], lines 99-106).
    When the override block writes a name that starts and ends with printable
    ASCII, with any ASCII white space before and after it, the layout is
    that name; when it writes white space only, the layout is [public]. *)
Theorem override_ignores_surrounding_space (t : template.Template) (w : World) l name r k :
  template.Lookup t "layout_name" = true ->
  template.ExecuteTemplate t "layout_name" None (ticks w) = (l +:+ name +:+ r, None, k) ->
  blank l = true -> blank r = true ->
  (solid name = true -> layoutOf t w = name) /\
  (name = "" -> layoutOf t w = "public").
Proof.
  intros Hl He Hbl Hbr. unfold layoutOf, chooseLayout, execute. rewrite Hl, He. cbn [fst].
  split.
  - intros Hs. rewrite TrimSpace_strip by done.
    rewrite bool_decide_eq_true_2; [done|]. intros ->. done.
  - intros ->. rewrite string_app_nil_l.
    rewrite TrimSpace_blank; [done|].
    unfold blank in *. by rewrite list_ascii_app, forallb_app, Hbl, Hbr.
Qed.

End Failures.


(** ** The sample sites *)

Import Examples.

(** Witness of C1: a page whose override block fails is rendered with the
    default layout. *)
Lemma layout_resolution_witness :
  (exists t b e k,
     parsed (engine := gotemplate.engine) (clockOf 2024 "")
       (includesGlobsOf flags) "src/pages/blog/fallback.template.html" (start fallback) = Ok t /\
     template.Lookup t "layout_name" = true /\
     template.ExecuteTemplate t "layout_name" None 0 = (b, Some e, k) /\
     layoutOf (engine := gotemplate.engine) t (start fallback) = "public") /\
  snd (render (clockOf 2024 "") "src/pages/blog/fallback.template.html" fallback) = None /\
  files (fst (render (clockOf 2024 "") "src/pages/blog/fallback.template.html" fallback))
    !! "site/blog/fallback.html" = Some (os.File "Site: Home").
Proof.
  pose (t := value (gotemplate.New "root" [])
               (parsed (engine := gotemplate.engine) (clockOf 2024 "")
                  (includesGlobsOf flags) "src/pages/blog/fallback.template.html"
                  (start fallback))).
  pose (fs1 := value ∅ (os.MkdirAll (files (start fallback))
                          (filepath.Dir (outputPath "./site" "blog/fallback.template.html")))).
  pose (fs2 := value ∅ (os.Create fs1 (outputPath "./site" "blog/fallback.template.html"))).
  destruct (layout_resolution (engine := gotemplate.engine) (quoting := gotemplate.quoting)
              (clockOf 2024 "") "./src" "./site" (includesGlobsOf flags)
              "src/pages/blog/fallback.template.html" "2024-01-01 00:00:00 CST"
              (start fallback) t)
    as (_ & _ & _ & R4 & Hrender); [by_computation|].
  destruct (Hrender "blog/fallback.template.html" fs1 fs2) as [Hf Hs];
    [by_computation..|].
  split; [|split].
  - exists t. eexists _, _, _. split; [|split; [|split]]; [by_computation..|].
    eapply R4; by_computation.
  - apply Hs. by_computation.
  - unfold render. rewrite Hf. by_computation.
Defined.

(** Witness of C2: [src/pages/blog/post.template.html] is written to
    [site/blog/post.html]. *)
Lemma output_path_mirrors_page_witness :
  join_sep ["blog"; "post.template.html"] = "blog/post" +:+ ".template.html" /\
  filepath.Rel (filepath.Join ["./src"; "pages"]) "src/pages/blog/post.template.html"
  = Ok "blog/post.template.html" /\
  files (fst (render (clockOf 2024 "") "src/pages/blog/post.template.html" blog))
    !! "site/blog/post.html" = Some (os.File "Site: Post of 2024").
Proof.
  pose (t := value (gotemplate.New "root" [])
               (parsed (engine := gotemplate.engine) (clockOf 2024 "")
                  (includesGlobsOf flags) "src/pages/blog/post.template.html" (start blog))).
  pose (fs1 := value ∅ (os.MkdirAll (files (start blog)) "site/blog")).
  pose (fs2 := value ∅ (os.Create fs1 "site/blog/post.html")).
  destruct (output_path_mirrors_page (engine := gotemplate.engine)
              (quoting := gotemplate.quoting) (clockOf 2024 "") "./src" "./site"
              (includesGlobsOf flags) ["blog"; "post.template.html"] "blog/post"
              "2024-01-01 00:00:00 CST" (start blog) t fs1 fs2)
    as [Hrel Hfile].
  - done.
  - repeat constructor; done.
  - by_computation.
  - by_computation.
  - by_computation.
  - by_computation.
  - by_computation.
  - split; [by_computation|]. split; [exact Hrel|].
    etransitivity; [exact Hfile|]. by_computation.
Defined.



(** Counterexample to C4: a page beside the pages root is rendered without
    error, to a path outside the output root, which is not even created. *)
Lemma page_outside_root_renders :
  filepath.Rel (filepath.Join ["./src"; "pages"]) "src/drafts/x.template.html"
  = Ok "../drafts/x.template.html" /\
  snd (render (clockOf 2024 "") "src/drafts/x.template.html" drafts) = None /\
  files (fst (render (clockOf 2024 "") "src/drafts/x.template.html" drafts))
    !! "drafts/x.html" = Some (os.File "Site: Draft") /\
  os.Stat (files (fst (render (clockOf 2024 "") "src/drafts/x.template.html" drafts)))
    "./site" = None.
Proof. repeat split; by_computation. Qed.

(** Witness of C4: a rooted page path against the relative pages root. *)
Lemma path_resolution_error_witness :
  rooted (Clean "/srv/x.template.html") = negb (rooted (Clean (filepath.Join ["./src"; "pages"]))) /\
  snd (render (clockOf 2024 "") "/srv/x.template.html" rootedPage)
  = Some (ErrMsg "Rel: can't make /srv/x.template.html relative to src/pages") /\
  files (fst (render (clockOf 2024 "") "/srv/x.template.html" rootedPage)) = rootedPage.
Proof.
  pose (t := value (gotemplate.New "root" [])
               (parsed (engine := gotemplate.engine) (clockOf 2024 "")
                  (includesGlobsOf flags) "/srv/x.template.html" (start rootedPage))).
  destruct (path_resolution_error (engine := gotemplate.engine)
              (quoting := gotemplate.quoting) (clockOf 2024 "") "./src" "./site"
              (includesGlobsOf flags) "/srv/x.template.html" "2024-01-01 00:00:00 CST"
              (start rootedPage) t) as (Herr & Hmixed & _); [by_computation|].
  assert (Hr : rooted (Clean "/srv/x.template.html")
               = negb (rooted (Clean (filepath.Join ["./src"; "pages"])))) by by_computation.
  destruct (Herr _ (Hmixed Hr)) as (_ & Hs & Hf & _).
  split; [exact Hr|]. split; [|exact Hf].
  etransitivity; [exact Hs|]. by_computation.
Defined.



(** C6 (recursive discovery): what the code does instead.  [filepath.Match]
    reads [**] as it reads [*]: one path element.  The default pattern is
    [src/pages/**/*.template.html]; of pages zero, one and two directories
    below the pages root it matches only the one that is one directory
    down, and a site whose only page lies directly in the pages root is not
    rendered: the run ends with [no page templates found]. *)
Theorem default_glob_is_one_level_deep :
  (forall name, filepath.Match "**" name = filepath.Match "*" name) /\
  (forall name, filepath.Match "**" name = Ok (negb (filepath.hasSeparator name))) /\
  pagePatternOf flags = "src/pages/**/*.template.html" /\
  filepath.Glob nested (pagePatternOf flags)
  = (["src/pages/blog/post.template.html"], None) /\
  filepath.Glob home (pagePatternOf flags) = ([], None) /\
  status (run zones (clockOf 2024 "") home) = 1%Z /\
  stderr (run zones (clockOf 2024 "") home)
  = "no page templates found: src/pages/**/*.template.html" +:+ newline.
Proof.
  split; [intros name; reflexivity|]. split; [intros name; reflexivity|].
  repeat split; by_computation.
Qed.

(** Witness of C7: a site without pages. *)
Lemma empty_discovery_aborts_witness :
  filepath.Glob (value ∅ (os.MkdirAll noPages "./site")) (pagePatternOf flags)
  = ([], None) /\
  status (run zones (clockOf 2024 "") noPages) = 1%Z /\
  stderr (run zones (clockOf 2024 "") noPages)
  = "no page templates found: src/pages/**/*.template.html" +:+ newline /\
  forall k content,
    files (final (run zones (clockOf 2024 "") noPages)) !! k = Some (os.File content)
    <-> noPages !! k = Some (os.File content).
Proof.
  pose (fs1 := value ∅ (os.MkdirAll noPages "./site")).
  assert (Hg : filepath.Glob fs1 (pagePatternOf flags) = ([], None)) by by_computation.
  destruct (empty_discovery_aborts (engine := gotemplate.engine)
              (quoting := gotemplate.quoting) zones (clockOf 2024 "") flags
              (start noPages) fs1) as (Hs & He & _ & Hfiles).
  - apply list_elem_of_here.
  - by_computation.
  - exact Hg.
  - split; [exact Hg|]. split; [exact Hs|]. split; [|exact Hfiles].
    etransitivity; [exact He|]. by_computation.
Defined.

(** Witness of C8: a page that reads a field [BaseData] does not have. *)
Lemma layout_failure_names_page_and_layout_witness :
  exists e,
    snd (render (clockOf 2024 "") "src/pages/blog/broken.template.html" broken) = Some e /\
    Error e = "src/pages/blog/broken.template.html: executing layout " +:+
              gotemplate.quote +:+ "public" +:+ gotemplate.quote +:+
              ": template: can't evaluate field Missing in type main.BaseData" /\
    files (fst (render (clockOf 2024 "") "src/pages/blog/broken.template.html" broken))
      !! "site/blog/broken.html" = Some (os.File "Site: Broken ").
Proof.
  pose (t := value (gotemplate.New "root" [])
               (parsed (engine := gotemplate.engine) (clockOf 2024 "")
                  (includesGlobsOf flags) "src/pages/blog/broken.template.html"
                  (start broken))).
  pose (fs1 := value ∅ (os.MkdirAll (files (start broken)) "site/blog")).
  pose (fs2 := value ∅ (os.Create fs1 "site/blog/broken.html")).
  destruct (layout_failure_names_page_and_layout (engine := gotemplate.engine)
              (quoting := gotemplate.quoting) (clockOf 2024 "") "./src" "./site"
              (includesGlobsOf flags) "src/pages/blog/broken.template.html"
              "2024-01-01 00:00:00 CST" (start broken) t "blog/broken.template.html"
              fs1 fs2 "Site: Broken "
              (ErrMsg "template: can't evaluate field Missing in type main.BaseData") 1)
    as (e & He & Hmsg & _).
  - by_computation.
  - by_computation.
  - by_computation.
  - by_computation.
  - by_computation.
  - exists e. split; [exact He|]. split; [|by_computation].
    etransitivity; [exact Hmsg|]. by_computation.
Defined.

(** Witness of C9: [foo.html] is rendered to [foo.html.html]. *)
Lemma suffix_absent_appends_witness :
  filepath.Rel (filepath.Join ["./src"; "pages"]) "src/pages/foo.html" = Ok "foo.html" /\
  strings.TrimSuffix "foo.html" ".template.html" +:+ ".html" = "foo.html.html" /\
  files (fst (render (clockOf 2024 "") "src/pages/foo.html" plainHtml))
    !! "site/foo.html.html" = Some (os.File "Site: Foo").
Proof.
  pose (t := value (gotemplate.New "root" [])
               (parsed (engine := gotemplate.engine) (clockOf 2024 "")
                  (includesGlobsOf flags) "src/pages/foo.html" (start plainHtml))).
  pose (fs1 := value ∅ (os.MkdirAll (files (start plainHtml)) "site")).
  pose (fs2 := value ∅ (os.Create fs1 "site/foo.html.html")).
  destruct (suffix_absent_appends (engine := gotemplate.engine)
              (quoting := gotemplate.quoting) (clockOf 2024 "") "./src" "./site"
              (includesGlobsOf flags) "src/pages/foo.html" "2024-01-01 00:00:00 CST"
              (start plainHtml) t "foo.html" fs1 fs2)
    as (Hname & Hfile & _).
  - by_computation.
  - by_computation.
  - by_computation.
  - by_computation.
  - by_computation.
  - split; [by_computation|]. split; [exact Hname|].
    etransitivity; [exact Hfile|]. by_computation.
Defined.

(** Counterexample to C10: on a machine without the zone America/Chicago
    the run ends before the output root is made. *)
Lemma no_zoneinfo_no_output_root :
  status (run [] (clockOf 2024 "") blog) = 1%Z /\
  stderr (run [] (clockOf 2024 "") blog) = "unknown time zone America/Chicago" +:+ newline /\
  files (final (run [] (clockOf 2024 "") blog)) = blog /\
  os.Stat (files (final (run [] (clockOf 2024 "") blog))) (outDirOf flags) = None.
Proof. repeat split; by_computation. Qed.

(** Witness of C10: with the zone installed the output root exists after
    the run, with pages and without. *)
Lemma output_root_created_at_startup_witness :
  os.Stat (files (start blog)) (outDirOf flags) = None /\
  os.Stat (files (final (run zones (clockOf 2024 "") blog))) (outDirOf flags)
  = Some os.Directory /\
  os.Stat (files (final (run zones (clockOf 2024 "") noPages))) (outDirOf flags)
  = Some os.Directory /\
  status (run zones (clockOf 2024 "") noPages) = 1%Z.
Proof.
  pose (fs1 := value ∅ (os.MkdirAll (files (start blog)) (outDirOf flags))).
  pose (fs0 := value ∅ (os.MkdirAll (files (start noPages)) (outDirOf flags))).
  destruct (output_root_created_at_startup (engine := gotemplate.engine)
              (quoting := gotemplate.quoting) zones (clockOf 2024 "") flags
              (start blog) fs1) as (_ & _ & Hdir & _);
    [apply list_elem_of_here | by_computation |].
  destruct (output_root_created_at_startup (engine := gotemplate.engine)
              (quoting := gotemplate.quoting) zones (clockOf 2024 "") flags
              (start noPages) fs0) as (_ & _ & Hdir0 & _);
    [apply list_elem_of_here | by_computation |].
  split; [by_computation|]. split; [exact Hdir|]. split; [exact Hdir0 | by_computation].
Defined.

(** Witness of X5: three pages, of which the second fails. *)
Lemma first_failure_stops_the_run_witness :
  exists w2 e,
    run zones (clockOf 2024 "") series = fatal w2 e /\
    Error e = "src/pages/blog/broken.template.html: executing layout " +:+
              gotemplate.quote +:+ "public" +:+ gotemplate.quote +:+
              ": template: can't evaluate field Missing in type main.BaseData" /\
    (exists rel content,
       filepath.Rel (filepath.Join [srcDirOf flags; "pages"])
         "src/pages/blog/alpha.template.html" = Ok rel /\
       files w2 !! outputPath (outDirOf flags) rel = Some (os.File content)) /\
    files w2 !! "site/blog/post.html" = None.
Proof.
  pose (clock := clockOf 2024 "").
  pose (fs1 := value ∅ (os.MkdirAll (files (start series)) (outDirOf flags))).
  pose (w0 := log_Printf (foundLine 3) (set_files fs1 (started clock flags (start series)))).
  pose (w1 := fst (renderPages (engine := gotemplate.engine) (quoting := gotemplate.quoting)
                     clock (srcDirOf flags) (outDirOf flags) (includesGlobsOf flags)
                     ["src/pages/blog/alpha.template.html"]
                     (buildTimestampOf clock flags (start series)) w0)).
  pose (r := renderOne (engine := gotemplate.engine) (quoting := gotemplate.quoting)
               clock (srcDirOf flags) (outDirOf flags) (includesGlobsOf flags)
               "src/pages/blog/broken.template.html"
               (buildTimestampOf clock flags (start series)) w1).
  pose (e := default (ErrMsg "") (snd r)).
  destruct (first_failure_stops_the_run (engine := gotemplate.engine)
              (quoting := gotemplate.quoting) zones clock flags (start series) fs1
              ["src/pages/blog/alpha.template.html"] "src/pages/blog/broken.template.html"
              ["src/pages/blog/post.template.html"] w1 (fst r) e) as [Hmain Hpre].
  - apply list_elem_of_here.
  - by_computation.
  - by_computation.
  - by_computation.
  - by_computation.
  - exists (fst r), e. split; [exact Hmain|]. split; [by_computation|].
    split; [|by_computation].
    exact (Forall_inv Hpre).
Defined.

(** Witness of X6: the sample blog. *)
Lemma successful_run_witness :
  status (run zones (clockOf 2024 "") blog) = 0%Z /\
  discovered flags (start blog) = ["src/pages/blog/post.template.html"] /\
  (exists lines,
     length lines = 2 /\
     logged (final (run zones (clockOf 2024 "") blog))
     = ["Starting static site generation...";
        "Source directory: ./src";
        "Output directory: ./site";
        "Build timestamp: 2024-01-01 00:00:00 CST";
        "Found 1 page template(s) to render"] ++ lines ++
       ["Static site generation completed successfully"]) /\
  exists content,
    files (final (run zones (clockOf 2024 "") blog)) !! "site/blog/post.html"
    = Some (os.File content).
Proof.
  assert (Hs : status (run zones (clockOf 2024 "") blog) = 0%Z) by by_computation.
  assert (Hd : discovered flags (start blog) = ["src/pages/blog/post.template.html"])
    by by_computation.
  destruct (successful_run (engine := gotemplate.engine) (quoting := gotemplate.quoting)
              zones (clockOf 2024 "") flags (start blog) Hs)
    as (_ & (lines & Hlen & Hlog) & Hall).
  split; [exact Hs|]. split; [exact Hd|]. split.
  - exists lines. split.
    + etransitivity; [exact Hlen|]. by rewrite Hd.
    + etransitivity; [exact Hlog|]. rewrite Hd. reflexivity.
  - rewrite Hd in Hall. destruct (Forall_inv Hall) as (rel & content & Hrel & Hf).
    exists content. etransitivity; [|exact Hf]. f_equal.
    assert (Hr : filepath.Rel (filepath.Join [srcDirOf flags; "pages"])
                   "src/pages/blog/post.template.html" = Ok "blog/post.template.html")
      by by_computation.
    rewrite Hr in Hrel. injection Hrel as <-. by_computation.
Defined.

(** Witness of X7: a page pattern with an open character class. *)
Lemma bad_pattern_aborts_witness :
  pagePatternOf (flagsGlob "pages/[") = "src/pages/[" /\
  status (main (engine := gotemplate.engine) (quoting := gotemplate.quoting)
            zones (clockOf 2024 "") (flagsGlob "pages/[") (start blog)) = 1%Z /\
  stderr (main (engine := gotemplate.engine) (quoting := gotemplate.quoting)
            zones (clockOf 2024 "") (flagsGlob "pages/[") (start blog))
  = "syntax error in pattern" +:+ newline.
Proof.
  pose (fs1 := value ∅ (os.MkdirAll (files (start blog)) (outDirOf (flagsGlob "pages/[")))).
  destruct (bad_pattern_aborts (engine := gotemplate.engine) (quoting := gotemplate.quoting)
              zones (clockOf 2024 "") (flagsGlob "pages/[") (start blog) fs1 []
              ErrBadPattern) as (Hs & He & _).
  - apply list_elem_of_here.
  - by_computation.
  - by_computation.
  - split; [by_computation|]. split; [exact Hs | exact He].
Defined.


(** Witness of X9: a directory where the output file should be. *)
Lemma render_filesystem_error_witness :
  snd (render (clockOf 2024 "") "src/pages/blog/post.template.html" occupied)
  = Some (PathError "open" "site/blog/post.html" "is a directory") /\
  forall w', stderr (fatal w' (PathError "open" "site/blog/post.html" "is a directory"))
             = "site/blog/post.html: is a directory" +:+ newline.
Proof.
  pose (t := value (gotemplate.New "root" [])
               (parsed (engine := gotemplate.engine) (clockOf 2024 "")
                  (includesGlobsOf flags) "src/pages/blog/post.template.html"
                  (start occupied))).
  pose (fs1 := value ∅ (os.MkdirAll (files (start occupied)) "site/blog")).
  destruct (render_filesystem_error (engine := gotemplate.engine)
              (quoting := gotemplate.quoting) (clockOf 2024 "") "./src" "./site"
              (includesGlobsOf flags) "src/pages/blog/post.template.html"
              "2024-01-01 00:00:00 CST" (start occupied) t "blog/post.template.html"
              (PathError "open" "site/blog/post.html" "is a directory"))
    as (He & _ & op & path & cause & Heq & Hmsg).
  - by_computation.
  - by_computation.
  - right. exists fs1. split; by_computation.
  - split; [exact He|]. injection Heq as <- <- <-. exact Hmsg.
Defined.

(** Witness of X10: the page that reads a field [BaseData] does not have. *)
Lemma layout_failure_report_witness :
  exists e,
    snd (render (clockOf 2024 "") "src/pages/blog/broken.template.html" broken) = Some e /\
    forall w',
      stderr (fatal w' e)
      = "src/pages/blog/broken.template.html: executing layout " +:+
        gotemplate.quote +:+ "public" +:+ gotemplate.quote +:+
        ": template: can't evaluate field Missing in type main.BaseData" +:+ newline.
Proof.
  pose (t := value (gotemplate.New "root" [])
               (parsed (engine := gotemplate.engine) (clockOf 2024 "")
                  (includesGlobsOf flags) "src/pages/blog/broken.template.html"
                  (start broken))).
  pose (fs1 := value ∅ (os.MkdirAll (files (start broken)) "site/blog")).
  pose (fs2 := value ∅ (os.Create fs1 "site/blog/broken.html")).
  destruct (layout_failure_report (engine := gotemplate.engine)
              (quoting := gotemplate.quoting) (clockOf 2024 "") "./src" "./site"
              (includesGlobsOf flags) "src/pages/blog/broken.template.html"
              "2024-01-01 00:00:00 CST" (start broken) t "blog/broken.template.html"
              fs1 fs2 "Site: Broken "
              (ErrMsg "template: can't evaluate field Missing in type main.BaseData") 1)
    as (e & He & Hmsg).
  - by_computation.
  - by_computation.
  - by_computation.
  - by_computation.
  - by_computation.
  - exists e. split; [exact He|]. intros w'.
    etransitivity; [exact (Hmsg w')|]. by_computation.
Defined.

(** Witness of X11: a layout name on a line of its own. *)
Lemma override_ignores_surrounding_space_witness :
  exists t,
    parsed (engine := gotemplate.engine) (clockOf 2024 "")
      (includesGlobsOf flags) "src/pages/blog/dash.template.html" (start spaced) = Ok t /\
    fst (fst (template.ExecuteTemplate t "layout_name" None 0))
    = (newline +:+ "  ") +:+ "dashboard" +:+ (" " +:+ newline) /\
    layoutOf (engine := gotemplate.engine) t (start spaced) = "dashboard".
Proof.
  pose (t := value (gotemplate.New "root" [])
               (parsed (engine := gotemplate.engine) (clockOf 2024 "")
                  (includesGlobsOf flags) "src/pages/blog/dash.template.html"
                  (start spaced))).
  destruct (override_ignores_surrounding_space (engine := gotemplate.engine)
              t (start spaced) (newline +:+ "  ") "dashboard" (" " +:+ newline) 0)
    as [Hname _].
  - by_computation.
  - by_computation.
  - by_computation.
  - by_computation.
  - exists t. split; [by_computation|]. split; [by_computation|].
    apply Hname. by_computation.
Defined.
